(** * Batch data providers ([code/data_provider.py])

    A shallow embedding of the [DataProvider] and [ASSISTDataProvider]
    classes, and the properties of their batching, shuffling, truncation
    and fold-splitting logic.

    Conventions.
    - Python integers are [Z]; sizes that the data files store as counts
      ([max_num_ans], [max_prob_set_id], [encoding_dim]) are [nat].
    - A dense or sparse 2-D array is the list of its rows; [toarray] and
      [csr_matrix] change the representation only and are the identity here.
    - A method is a state transformer that may raise: the object it mutates
      is threaded through, and it survives a raised exception. *)

From Stdlib Require Import ZArith Lia Ascii.
From Stdlib Require Import SpecFloat.
From stdpp Require Import base tactics option list sorting strings gmap.

Local Open Scope Z_scope.

(** ** Exceptions and the method monad *)

Inductive exn : Set :=
| ValueError
| AssertionError
| FileNotFoundError
| IndexError
| ZeroDivisionError
| KeyError
| AttributeError
| UnboundLocalError
| OverflowError
| StopIteration.

Inductive result (A : Type) : Type :=
| Ok (a : A)
| Raise (e : exn).
Arguments Ok {A} a.
Arguments Raise {A} e.

#[global] Instance result_ret : MRet result := λ A a, Ok a.
#[global] Instance result_bind : MBind result := λ A B f m,
  match m with
  | Ok a => f a
  | Raise e => Raise e
  end.

(** [M S A]: a method of an object of type [S] returning an [A]. *)
Definition M (S A : Type) : Type := S → result A * S.

#[global] Instance M_ret {S} : MRet (M S) := λ A a s, (Ok a, s).
#[global] Instance M_bind {S} : MBind (M S) := λ A B f m s,
  match m s with
  | (Ok a, s') => f a s'
  | (Raise e, s') => (Raise e, s')
  end.

Definition get {S} : M S S := λ s, (Ok s, s).
Definition modify {S} (f : S → S) : M S unit := λ s, (Ok (), f s).
Definition raise {S A} (e : exn) : M S A := λ s, (Raise e, s).
Definition lift {S A} (r : result A) : M S A := λ s, (r, s).

(** ** The parts of Python and numpy the providers use *)

Section Builtins.
Context {A : Type}.

(** [l[start:stop]]: bounds are clamped, negative ones count from the end. *)
Definition slice_bound (n i : Z) : Z :=
    if decide (i < 0) then Z.max (i + n) 0 else Z.min i n.

Definition py_slice (start stop : Z) (l : list A) : list A :=
    let n := Z.of_nat (length l) in
    let lo := slice_bound n start in
    let hi := slice_bound n stop in
    take (Z.to_nat (hi - lo)) (drop (Z.to_nat lo) l).

(** [l[:stop]] *)
Definition py_slice_to (stop : Z) (l : list A) : list A := py_slice 0 stop l.

(** [a[idx]] for an integer index array [idx]: raises when out of range. *)
Fixpoint fancy_index (a : list A) (idx : list nat) : result (list A) :=
    match idx with
    | [] => Ok []
    | i :: idx' =>
        match a !! i with
        | Some x => xs ← fancy_index a idx'; Ok (x :: xs)
        | None => Raise IndexError
        end
    end.

(** [[x for sub in ll for x in sub]] *)
Definition flatten (ll : list (list A)) : list A := concat ll.

(** Row-major regrouping of a flat buffer in [cnt] blocks of [sz]. *)
Fixpoint chunks (sz cnt : nat) (l : list A) : list (list A) :=
    match cnt with
    | O => []
    | S c => take sz l :: chunks sz c (drop sz l)
    end.
End Builtins.

(** [a // b] *)
Definition py_floordiv (a b : Z) : result Z :=
  if decide (b = 0) then Raise ZeroDivisionError else Ok (a `div` b).

(** [a % b] *)
Definition py_mod (a b : Z) : result Z :=
  if decide (b = 0) then Raise ZeroDivisionError else Ok (a `mod` b).

(** [range(start, stop, step)], with the length CPython computes for it. *)
Definition py_range (start stop step : Z) : result (list Z) :=
  if decide (step = 0) then Raise ValueError
  else
    let len :=
      if decide (0 < step)
      then (if decide (start < stop) then (stop - start - 1) `div` step + 1 else 0)
      else (if decide (stop < start) then (start - stop - 1) `div` (- step) + 1 else 0) in
    Ok ((λ k : nat, start + Z.of_nat k * step) <$> seq 0 (Z.to_nat len)).

(** Python numbers: [int], and [float], an IEEE 754 double (53 bits of
    mantissa, infinities at the exponent 1024). *)
Inductive number : Set :=
| PyInt (z : Z)
| PyFloat (x : spec_float).

(** [x * y] on floats: rounded to the nearest double, ties to even. *)
Definition float_mul (x y : spec_float) : spec_float := SFmul 53 1024 x y.

(** The float an [int] becomes as an operand of a float: the nearest double,
    or [OverflowError] beyond the largest. *)
Definition float_of_int (n : Z) : result spec_float :=
  match binary_normalize 53 1024 n 0 false with
  | S754_infinity _ => Raise OverflowError
  | x => Ok x
  end.

(** [int(x)] of a float: towards zero. *)
Definition int_of_float (x : spec_float) : result Z :=
  match x with
  | S754_zero _ => Ok 0
  | S754_finite s m e =>
      let magnitude :=
        match e with
        | Zneg p => Z.shiftr (Z.pos m) (Z.pos p)
        | _ => Z.shiftl (Z.pos m) e
        end in
      Ok (if s then - magnitude else magnitude)
  | S754_infinity _ => Raise OverflowError
  | S754_nan => Raise ValueError
  end.

(** [np.argsort] of an index array: the positions ordered by the value they
    hold.  The order of equal values is numpy's business; on a permutation
    there are none. *)
Definition key_le (p q : nat * nat) : Prop := (p.1 ≤ q.1)%nat.
#[global] Instance key_le_dec p q : Decision (key_le p q).
Proof. unfold key_le. apply _. Defined.

Definition argsort (l : list nat) : list nat :=
  snd <$> merge_sort key_le (zip l (seq 0 (length l))).

(** The entries of the arrays, with the operations and dtype conversions
    the providers apply to them. *)
Class Numeric := {
  scalar : Type;
  zero : scalar;
  nonzero : scalar → bool;          (* [x != 0] *)
  add : scalar → scalar → scalar;
  mul : scalar → scalar → scalar;
  float32 : Z → scalar;             (* [np.array(_, dtype=np.float32)] *)
  int32 : scalar → Z;               (* [np.array(_, dtype=np.int32)] *)
}.

(** [np.random.RandomState]: the methods the providers call.  [permutation g n]
    is [g.permutation(n)] together with the generator's next state. *)
Class RandomState `{Numeric} := {
  rng_t : Type;
  seeded : Z → rng_t;
  permutation : rng_t → nat → list nat * rng_t;
  randn : rng_t → nat → nat → list (list scalar) * rng_t;
  permutation_perm : ∀ g n, (permutation g n).1 ≡ₚ seq 0 n;
}.

Definition DEFAULT_SEED : Z := 22012018.

(** ** [class DataProvider] *)

Module DataProvider.
Section Class.
Context `{RandomState} {A B : Type}.

Record t : Type := mk {
    inputs : list A;
    targets : list B;
    _batch_size : Z;
    _max_num_batches : Z;
    num_batches : Z;
    shuffle_order : bool;
    _current_order : list nat;
    rng : rng_t;
    _curr_batch : Z;
  }.

Definition set_inputs v (s : t) : t :=
    mk v (targets s) (_batch_size s) (_max_num_batches s) (num_batches s)
       (shuffle_order s) (_current_order s) (rng s) (_curr_batch s).
Definition set_targets v (s : t) : t :=
    mk (inputs s) v (_batch_size s) (_max_num_batches s) (num_batches s)
       (shuffle_order s) (_current_order s) (rng s) (_curr_batch s).
Definition set__batch_size v (s : t) : t :=
    mk (inputs s) (targets s) v (_max_num_batches s) (num_batches s)
       (shuffle_order s) (_current_order s) (rng s) (_curr_batch s).
Definition set__max_num_batches v (s : t) : t :=
    mk (inputs s) (targets s) (_batch_size s) v (num_batches s)
       (shuffle_order s) (_current_order s) (rng s) (_curr_batch s).
Definition set_num_batches v (s : t) : t :=
    mk (inputs s) (targets s) (_batch_size s) (_max_num_batches s) v
       (shuffle_order s) (_current_order s) (rng s) (_curr_batch s).
Definition set__current_order v (s : t) : t :=
    mk (inputs s) (targets s) (_batch_size s) (_max_num_batches s) (num_batches s)
       (shuffle_order s) v (rng s) (_curr_batch s).
Definition set_rng v (s : t) : t :=
    mk (inputs s) (targets s) (_batch_size s) (_max_num_batches s) (num_batches s)
       (shuffle_order s) (_current_order s) v (_curr_batch s).
Definition set__curr_batch v (s : t) : t :=
    mk (inputs s) (targets s) (_batch_size s) (_max_num_batches s) (num_batches s)
       (shuffle_order s) (_current_order s) (rng s) v.

(** [self.inputs.shape[0]] *)
Definition shape0 (s : t) : Z := Z.of_nat (length (inputs s)).

Definition _update_num_batches : M t unit :=
    self ← get;
    possible_num_batches ← lift (py_floordiv (shape0 self) (_batch_size self));
    if decide (_max_num_batches self = -1)
    then modify (set_num_batches possible_num_batches)
    else modify (set_num_batches (Z.min (_max_num_batches self) possible_num_batches)).

(** The [batch_size] and [max_num_batches] property setters. *)
Definition batch_size_setter (value : Z) : M t unit :=
    if decide (value < 1) then raise ValueError
    else modify (set__batch_size value);; _update_num_batches.

Definition max_num_batches_setter (value : Z) : M t unit :=
    if decide (value = 0 ∨ value < -1) then raise ValueError
    else modify (set__max_num_batches value);; _update_num_batches.

Definition shuffle : M t unit :=
    self ← get;
    let '(perm, g) := permutation (rng self) (length (inputs self)) in
    modify (set_rng g);;
    order ← lift (fancy_index (_current_order self) perm);
    modify (set__current_order order);;
    inputs' ← lift (fancy_index (inputs self) perm);
    modify (set_inputs inputs');;
    targets' ← lift (fancy_index (targets self) perm);
    modify (set_targets targets').

Definition new_epoch : M t unit :=
    modify (set__curr_batch 0);;
    self ← get;
    if shuffle_order self then shuffle else mret ().

Definition reset : M t unit :=
    self ← get;
    let inv_perm := argsort (_current_order self) in
    order ← lift (fancy_index (_current_order self) inv_perm);
    modify (set__current_order order);;
    inputs' ← lift (fancy_index (inputs self) inv_perm);
    modify (set_inputs inputs');;
    targets' ← lift (fancy_index (targets self) inv_perm);
    modify (set_targets targets');;
    new_epoch.

(** [slice(curr_batch * batch_size, (curr_batch + 1) * batch_size)] *)
Definition batch_slice (self : t) : Z * Z :=
    (_curr_batch self * _batch_size self,
     (_curr_batch self + 1) * _batch_size self).

Definition next : M t (list A * list B) :=
    self ← get;
    if decide (_curr_batch self + 1 > num_batches self) then
      new_epoch;; raise StopIteration
    else
      let '(start, stop) := batch_slice self in
      let inputs_batch := py_slice start stop (inputs self) in
      let targets_batch := py_slice start stop (targets self) in
      modify (set__curr_batch (_curr_batch self + 1));;
      mret (inputs_batch, targets_batch).

(** [DataProvider(inputs, targets, batch_size, max_num_batches,
    shuffle_order, rng)]: the attributes are assigned in the order of the
    constructor's body; an exception leaves no object behind. *)
Definition __init__ (inputs0 : list A) (targets0 : list B) (batch_size : Z)
      (max_num_batches : Z) (shuffle_order0 : bool) (rng0 : option rng_t)
      : result t :=
    if decide (batch_size < 1) then Raise ValueError
    else if decide (max_num_batches = 0 ∨ max_num_batches < -1) then Raise ValueError
    else
      let rng1 := default (seeded DEFAULT_SEED) rng0 in
      let self := mk inputs0 targets0 batch_size max_num_batches 0
                     shuffle_order0 (seq 0 (length inputs0)) rng1 0 in
      match (_update_num_batches;; new_epoch) self with
      | (Ok _, self') => Ok self'
      | (Raise e, _) => Raise e
      end.

(** [for batch in provider: ...]: the batches of one pass, up to the first
    exception ([fuel] bounds the number of calls). *)
Fixpoint iterate (fuel : nat) (self : t) : list (list A * list B) * result t :=
    match fuel with
    | O => ([], Ok self)
    | S fuel' =>
        match next self with
        | (Ok b, self') =>
            let '(bs, r) := iterate fuel' self' in (b :: bs, r)
        | (Raise StopIteration, self') => ([], Ok self')
        | (Raise e, _) => ([], Raise e)
        end
    end.

(** The outcomes of [n] calls of [next] in a row. *)
Fixpoint calls (n : nat) (self : t) : list (result (list A * list B)) * t :=
  match n with
  | O => ([], self)
  | S n' =>
      let '(r, self') := next self in
      let '(rs, self'') := calls n' self' in
      (r :: rs, self'')
  end.

(** [n] passes, one after the other. *)
Fixpoint passes (n : nat) (self : t) : result t :=
  match n with
  | O => Ok self
  | S n' =>
      match iterate (S (Z.to_nat (num_batches self))) self with
      | (_, Ok self') => passes n' self'
      | (_, Raise e) => Raise e
      end
  end.
End Class.
Arguments t {_ _} A B.
End DataProvider.

(** ** Arrays and files of the ASSISTments provider *)

Section Arrays.
Context `{Numeric}.

(** [np.dot(x, c)] for 2-D arrays: the inner dimensions must agree. *)
Definition column (j : nat) (c : list (list scalar)) : list scalar :=
    (λ row, default zero (row !! j)) <$> c.

Definition dot_row (c : list (list scalar)) (ncols : nat) (row : list scalar)
      : list scalar :=
    (λ j, fold_left add (zip_with mul row (column j c)) zero) <$> seq 0 ncols.

(** [a.shape[1]] of a 2-D array given by its rows. *)
Definition shape1 (a : list (list scalar)) : nat :=
    match a with
    | [] => 0
    | row :: _ => length row
    end.

Definition np_dot (x c : list (list scalar)) : result (list (list scalar)) :=
    if decide (Forall (λ row, length row = length c) x)
    then Ok (dot_row c (shape1 c) <$> x)
    else Raise ValueError.

(** [flat.reshape(-1, ncols)] *)
Definition reshape_rows_of (ncols : nat) (flat : list scalar)
      : result (list (list scalar)) :=
    if decide (ncols = 0%nat ∨ (length flat `mod` ncols)%nat ≠ 0%nat)
    then Raise ValueError
    else Ok (chunks ncols (length flat `div` ncols)%nat flat).

(** [flat.reshape(nrows, -1)] *)
Definition reshape_cols_of (nrows : nat) (flat : list scalar)
      : result (list (list scalar)) :=
    if decide (nrows = 0%nat ∨ (length flat `mod` nrows)%nat ≠ 0%nat)
    then Raise ValueError
    else Ok (chunks (length flat `div` nrows)%nat nrows flat).

(** [flat.reshape(a, b, c)] *)
Definition reshape3 (a b c : nat) (flat : list scalar)
      : result (list (list (list scalar))) :=
    if decide (length flat = (a * b * c)%nat)
    then Ok (chunks c b <$> chunks (b * c) a flat)
    else Raise ValueError.

(** [np.max(block != np.zeros(...), axis=(1, 2))] for one block. *)
Definition any_nonzero (block : list (list scalar)) : bool :=
    existsb (existsb nonzero) block.

(** The arrays stored in an [.npz] file. *)
Inductive npz : Type :=
  | TargetsNpz (max_num_ans max_prob_set_id : nat) (targets : list (list Z))
  | SparseNpz (matrix : list (list scalar))
  | CompressionNpz (compress_matrix : list (list scalar)).
End Arrays.

(** [os.path.join(a, b)] on POSIX. *)
Definition ends_with_slash (a : string) : bool :=
  match String.get (String.length a - 1) a with
  | Some c => bool_decide (c = "/"%char)
  | None => false
  end.

Definition path_join (a b : string) : string :=
  if String.prefix "/" b then b
  else if bool_decide (a = "") || ends_with_slash a then a +:+ b
  else a +:+ "/" +:+ b.

(** ['assist{0}-{1}'.format(which_year, which_set)] *)
Definition assist_name (which_year which_set : string) : string :=
  "assist" +:+ which_year +:+ "-" +:+ which_set.

(** What a provider sees of its process: the files, the home directory
    expansion, and numpy's global generator. *)
Record os `{RandomState} : Type := mk_os {
  expanduser : string → string;
  files : gmap string npz;
  np_random : rng_t;
}.

Section Files.
Context `{RandomState}.

Definition set_files v (w : os) : os := mk_os _ _ (expanduser w) v (np_random w).
Definition set_np_random v (w : os) : os := mk_os _ _ (expanduser w) (files w) v.

(** [os.path.isfile(path)] *)
Definition isfile (w : os) (path : string) : bool :=
    bool_decide (is_Some (files w !! path)).

(** [np.load(path)] and [sp.load_npz(path)] *)
Definition np_load (w : os) (path : string) : result npz :=
    match files w !! path with
    | Some f => Ok f
    | None => Raise FileNotFoundError
    end.

Definition sp_load_npz (w : os) (path : string) : result (list (list scalar)) :=
    f ← np_load w path;
    match f with
    | SparseNpz m => Ok m
    | _ => Raise ValueError
    end.

(** [np.savez(path, compress_matrix=m)]: numpy appends [.npz]. *)
Definition np_savez (path : string) (m : list (list scalar)) (w : os) : os :=
    set_files (<[path +:+ ".npz" := CompressionNpz m]> (files w)) w.
End Files.

(** ** [class ASSISTDataProvider(DataProvider)] *)

Module ASSISTDataProvider.
Section Class.
Context `{RandomState}.

Abbreviation matrix := (list (list scalar)).

(** The attributes the subclass adds.  Before [load_data] or the bundle
    branch assigns them, [target_ids] and the three sizes hold placeholders
    that nothing reads. *)
Record attrs : Type := mk_attrs {
    which_set : string;
    which_year : string;
    data_dir : string;
    num_classes : Z;
    fraction : number;
    use_plus_minus_feats : bool;
    use_compressed_sensing : bool;
    target_ids : matrix;
    max_num_ans : nat;
    max_prob_set_id : nat;
    encoding_dim : nat;
    compress_matrix : option matrix;
    compress_dim : option nat;
  }.

Definition set_target_ids v (a : attrs) : attrs :=
    mk_attrs (which_set a) (which_year a) (data_dir a) (num_classes a) (fraction a)
      (use_plus_minus_feats a) (use_compressed_sensing a) v (max_num_ans a)
      (max_prob_set_id a) (encoding_dim a) (compress_matrix a) (compress_dim a).
Definition set_sizes mna mpsi ed (a : attrs) : attrs :=
    mk_attrs (which_set a) (which_year a) (data_dir a) (num_classes a) (fraction a)
      (use_plus_minus_feats a) (use_compressed_sensing a) (target_ids a) mna
      mpsi ed (compress_matrix a) (compress_dim a).
Definition set_encoding_dim v (a : attrs) : attrs :=
    set_sizes (max_num_ans a) (max_prob_set_id a) v a.
Definition set_compress_matrix v (a : attrs) : attrs :=
    mk_attrs (which_set a) (which_year a) (data_dir a) (num_classes a) (fraction a)
      (use_plus_minus_feats a) (use_compressed_sensing a) (target_ids a) (max_num_ans a)
      (max_prob_set_id a) (encoding_dim a) v (compress_dim a).
Definition set_compress_dim v (a : attrs) : attrs :=
    mk_attrs (which_set a) (which_year a) (data_dir a) (num_classes a) (fraction a)
      (use_plus_minus_feats a) (use_compressed_sensing a) (target_ids a) (max_num_ans a)
      (max_prob_set_id a) (encoding_dim a) (compress_matrix a) v.

(** A provider: the inherited attributes and its own. *)
Record t : Type := mk {
    base : DataProvider.t (list scalar) (list Z);
    own : attrs;
  }.
Definition set_base v (s : t) : t := mk v (own s).
Definition set_own v (s : t) : t := mk (base s) v.

(** An inherited method, run on the subclass object. *)
Definition inherited {X} (m : M (DataProvider.t (list scalar) (list Z)) X) : M t X :=
    λ s, let '(r, b) := m (base s) in (r, set_base b s).

(** The fold data bundle ([data=...]). *)
Record bundle : Type := mk_bundle {
    b_inputs : matrix;
    b_targets : list (list Z);
    b_target_ids : matrix;
    b_max_num_ans : nat;
    b_max_prob_set_id : nat;
    b_encoding_dim : nat;
  }.

  (** *** Construction *)

Definition _validate_inputs (which_set which_year data_path : string) : M os unit :=
    w ← get;
    if negb (bool_decide (which_set ∈ ["train"; "test"])) then raise AssertionError
    else if negb (bool_decide (which_year ∈ ["09"; "15"])) then raise AssertionError
    else if negb (isfile w (data_path +:+ "-inputs.npz")) then raise AssertionError
    else if negb (isfile w (data_path +:+ "-targets.npz")) then raise AssertionError
    else mret ().

Definition load_data (self : attrs) (data_path : string)
      (use_plus_minus_feats : bool) : M os (matrix * list (list Z) * attrs) :=
    w ← get;
    loaded ← lift (np_load w (data_path +:+ "-targets.npz"));
    match loaded with
    | TargetsNpz mna mpsi targets =>
        '(inputs, ed) ←
          (if use_plus_minus_feats
           then inputs ← lift (sp_load_npz w (data_path +:+ "-inputs-plus-minus.npz"));
                mret (inputs, (mpsi + 1)%nat)
           else inputs ← lift (sp_load_npz w (data_path +:+ "-inputs.npz"));
                mret (inputs, (2 * mpsi + 1)%nat));
        ids ← lift (sp_load_npz w (data_path +:+ "-targetids.npz"));
        mret (inputs, targets, set_target_ids ids (set_sizes mna mpsi ed self))
    | _ => raise KeyError
    end.

(** [int(n * fraction)] for the row count [n].  With an [int] fraction (the
    default, 1) the product is exact.  With a [float] one, [n] is converted
    to the nearest double, the product is rounded to the nearest double, and
    [int] truncates it towards zero. *)
Definition int_of_product (n : Z) (fraction : number) : result Z :=
    match fraction with
    | PyInt z => Ok (n * z)
    | PyFloat x => f ← float_of_int n; int_of_float (float_mul f x)
    end.

Definition reduce_data (self : attrs) (inputs : matrix) (targets : list (list Z))
      (fraction : number) : result (matrix * list (list Z) * attrs) :=
    num_data ← int_of_product (Z.of_nat (length inputs)) fraction;
    Ok (py_slice_to num_data inputs, py_slice_to num_data targets,
        set_target_ids (py_slice_to num_data (target_ids self)) self).

Definition compress_dim_DKT : nat := 100.

Definition make_compression_matrix (self : attrs) (train_path : string)
      (rng : option rng_t) : M os (matrix * attrs * option rng_t) :=
    let self := set_compress_dim (Some compress_dim_DKT) self in
    '(compress_matrix, rng) ←
      match rng with
      | Some g =>
          let '(m, g') := randn g (encoding_dim self) compress_dim_DKT in
          mret (m, Some g')
      | None =>
          w ← get;
          let '(m, g') := randn (np_random w) (encoding_dim self) compress_dim_DKT in
          modify (set_np_random g');; mret (m, None)
      end;
    modify (np_savez (train_path +:+ "-compression-matrix") compress_matrix);;
    mret (compress_matrix, self, rng).

Definition compress_inputs (self : attrs) (inputs : matrix)
      : result (matrix * attrs) :=
    let num_students := length inputs in
    match compress_matrix self, compress_dim self with
    | Some c, Some d =>
        x ← reshape_rows_of (encoding_dim self) (concat inputs);
        y ← np_dot x c;
        let self := set_encoding_dim d self in
        z ← reshape_cols_of num_students (concat y);
        Ok (z, self)
    | _, _ => Raise AttributeError
    end.

Definition apply_compressed_sensing (self : attrs) (inputs : matrix)
      (rng : option rng_t) : M os (matrix * attrs * option rng_t) :=
    let train_path := path_join (data_dir self) (assist_name (which_year self) "train") in
    '(self, rng) ←
      (if bool_decide (which_set self = "test") then
         w ← get;
         loaded ← lift (np_load w (train_path +:+ "-compression-matrix.npz"));
         match loaded with
         | CompressionNpz c =>
             mret (set_compress_dim (Some (shape1 c)) (set_compress_matrix (Some c) self), rng)
         | _ => raise KeyError
         end
       else if bool_decide (which_set self = "train") then
         '(c, self, rng) ← make_compression_matrix self train_path rng;
         mret (set_compress_matrix (Some c) self, rng)
       else mret (self, rng));
    '(inputs, self) ← lift (compress_inputs self inputs);
    mret (inputs, self, rng).

  (** *** Iteration *)

Definition shuffle : M t unit :=
    self ← get;
    let b := base self in
    let '(perm, g) := permutation (DataProvider.rng b) (length (DataProvider.inputs b)) in
    inherited (modify (DataProvider.set_rng g));;
    order ← lift (fancy_index (DataProvider._current_order b) perm);
    inherited (modify (DataProvider.set__current_order order));;
    inputs' ← lift (fancy_index (DataProvider.inputs b) perm);
    inherited (modify (DataProvider.set_inputs inputs'));;
    targets' ← lift (fancy_index (DataProvider.targets b) perm);
    inherited (modify (DataProvider.set_targets targets'));;
    ids' ← lift (fancy_index (target_ids (own self)) perm);
    modify (λ s, set_own (set_target_ids ids' (own s)) s).

(** [DataProvider.new_epoch], where [self.shuffle] is the override. *)
Definition new_epoch : M t unit :=
    inherited (modify (DataProvider.set__curr_batch 0));;
    self ← get;
    if DataProvider.shuffle_order (base self) then shuffle else mret ().

Definition reset : M t unit :=
    self ← get;
    let b := base self in
    let inv_perm := argsort (DataProvider._current_order b) in
    order ← lift (fancy_index (DataProvider._current_order b) inv_perm);
    inherited (modify (DataProvider.set__current_order order));;
    inputs' ← lift (fancy_index (DataProvider.inputs b) inv_perm);
    inherited (modify (DataProvider.set_inputs inputs'));;
    targets' ← lift (fancy_index (DataProvider.targets b) inv_perm);
    inherited (modify (DataProvider.set_targets targets'));;
    ids' ← lift (fancy_index (target_ids (own self)) inv_perm);
    modify (λ s, set_own (set_target_ids ids' (own s)) s);;
    new_epoch.

(** Returns [(batch_inputs, batch_target_ids, batch_targets)]. *)
Definition transform_batch (self : t) (inputs_batch target_ids_batch : matrix)
      (targets_batch : list (list Z))
      : result (list (list (list scalar)) * list Z * list scalar) :=
    batch_inputs ← reshape3 (Z.to_nat (DataProvider._batch_size (base self)))
                     (max_num_ans (own self)) (encoding_dim (own self))
                     (concat inputs_batch);
    let batch_targets := float32 <$> flatten targets_batch in
    let batch_target_ids := int32 <$> concat target_ids_batch in
    Ok (batch_inputs, batch_target_ids, batch_targets).

(** Returns [(batch_inputs, batch_targets, batch_target_ids)]. *)
Definition next : M t (list (list (list scalar)) * list scalar * list Z) :=
    self ← get;
    let b := base self in
    if decide (DataProvider._curr_batch b + 1 > DataProvider.num_batches b) then
      new_epoch;; raise StopIteration
    else
      let '(start, stop) := DataProvider.batch_slice b in
      let inputs_batch := py_slice start stop (DataProvider.inputs b) in
      let targets_batch := py_slice start stop (DataProvider.targets b) in
      let target_ids_batch := py_slice start stop (target_ids (own self)) in
      inherited (modify (DataProvider.set__curr_batch (DataProvider._curr_batch b + 1)));;
      '(batch_inputs, batch_target_ids, batch_targets) ←
        lift (transform_batch self inputs_batch target_ids_batch targets_batch);
      mret (batch_inputs, batch_targets, batch_target_ids).

(** [super().__init__(...)]: the body of [DataProvider.__init__] on the
    subclass object, so that [new_epoch] reaches the overriding [shuffle]. *)
Definition super__init__ (self : attrs) (inputs0 : matrix) (targets0 : list (list Z))
      (batch_size max_num_batches : Z) (shuffle_order0 : bool)
      (rng0 : option rng_t) : result t :=
    if decide (batch_size < 1) then Raise ValueError
    else if decide (max_num_batches = 0 ∨ max_num_batches < -1) then Raise ValueError
    else
      let rng1 := default (seeded DEFAULT_SEED) rng0 in
      let b := DataProvider.mk inputs0 targets0 batch_size max_num_batches 0
                 shuffle_order0 (seq 0 (length inputs0)) rng1 0 in
      match (inherited DataProvider._update_num_batches;; new_epoch) (mk b self) with
      | (Ok _, self') => Ok self'
      | (Raise e, _) => Raise e
      end.

Definition __init__ (data_dir0 which_set0 which_year0 : string) (fraction0 : number)
      (use_plus_minus_feats0 use_compressed_sensing0 : bool)
      (batch_size max_num_batches : Z) (shuffle_order0 : bool)
      (rng0 : option rng_t) (data : option bundle) : M os t :=
    w ← get;
    let expanded_data_dir := expanduser w data_dir0 in
    let data_path := path_join expanded_data_dir (assist_name which_year0 which_set0) in
    _validate_inputs which_set0 which_year0 data_path;;
    let self := mk_attrs which_set0 which_year0 expanded_data_dir 2 fraction0
                  use_plus_minus_feats0 use_compressed_sensing0 [] 0 0 0 None None in
    '(inputs, targets, self, rng1) ←
      match data with
      | Some d =>
          mret (b_inputs d, b_targets d,
                set_sizes (b_max_num_ans d) (b_max_prob_set_id d) (b_encoding_dim d)
                  (set_target_ids (b_target_ids d) self),
                rng0)
      | None =>
          '(inputs, targets, self) ← load_data self data_path use_plus_minus_feats0;
          '(inputs, targets, self) ← lift (reduce_data self inputs targets fraction0);
          if use_compressed_sensing0 then
            '(inputs, self, rng1) ← apply_compressed_sensing self inputs rng0;
            mret (inputs, targets, self, rng1)
          else mret (inputs, targets, self, rng0)
      end;
    lift (super__init__ self inputs targets batch_size max_num_batches
            shuffle_order0 rng1).

  (** *** Sequence truncation *)

(** [np.pad(x, ((0, 0), (0, pad_size), (0, 0)))] on one student's block. *)
Definition pad_answers (pad_size final_dim : nat) (block : matrix) : matrix :=
    block ++ replicate pad_size (replicate final_dim zero).

(** [flat.reshape(-1, threshold, final_dim)] *)
Definition reshape_blocks (threshold final_dim : nat) (flat : list scalar)
      : result (list matrix) :=
    let known := (threshold * final_dim)%nat in
    if decide (known = 0%nat ∨ (length flat `mod` known)%nat ≠ 0%nat)
    then Raise ValueError
    else Ok (chunks final_dim threshold <$> chunks known (length flat `div` known)%nat flat).

(** The body of the loop of [_truncate_inputs_or_ids], for the rows
    [x = input_or_id[i:i+1000]] (never empty).  For a rectangular [x] the
    size test of the first reshape is a test on the row width; the last
    reshape, to [(num_effective_students, -1)], fails on no rows. *)
Definition truncate_step (self : attrs) (final_dim : nat) (threshold : Z)
      (x : matrix) : result matrix :=
    if decide (Forall (λ row, length row = (max_num_ans self * final_dim)%nat) x) then
      let x : list matrix := chunks final_dim (max_num_ans self) <$> x in
      r ← py_mod (Z.of_nat (max_num_ans self)) threshold;
      let pad_size := threshold - r in
      if decide (pad_size < 0) then Raise ValueError
      else
        let x : list matrix := pad_answers (Z.to_nat pad_size) final_dim <$> x in
        new_x ← reshape_blocks (Z.to_nat threshold) final_dim (concat (concat x));
        let non_empty_mask : list bool := any_nonzero <$> new_x in
        let num_effective_students := length (filter (λ m, m = true) non_empty_mask) in
        let new_x : list matrix := filter (λ blk, any_nonzero blk = true) new_x in
        if decide (num_effective_students = 0%nat) then Raise ValueError
        else Ok ((λ blk, concat blk) <$> new_x)
    else Raise ValueError.

(** A [for] loop whose body may raise. *)
Fixpoint for_in {X S : Type} (l : list X) (body : X → S → result S) (s : S)
      : result S :=
    match l with
    | [] => Ok s
    | x :: l' => s' ← body x s; for_in l' body s'
    end.

(** [sp.vstack(blocks)]: the blocks here have one width. *)
Definition sp_vstack (blocks : list matrix) : result matrix :=
    match blocks with
    | [] => Raise ValueError
    | _ => Ok (concat blocks)
    end.

Definition _truncate_inputs_or_ids (self : attrs) (input_or_id : matrix)
      (final_dim : nat) (threshold : Z) : result matrix :=
    starts ← py_range 0 (Z.of_nat (length input_or_id)) 1000;
    list_of_truncated_seqs ←
      for_in starts
        (λ i acc, seqs ← truncate_step self final_dim threshold
                           (py_slice i (i + 1000) input_or_id);
                  Ok (acc ++ [seqs]))
        [];
    sp_vstack list_of_truncated_seqs.

Definition _truncate_targets (targets : list (list Z)) (threshold : Z)
      : result (list (list Z)) :=
    for_in targets
      (λ student new_targets,
         starts ← py_range 0 (Z.of_nat (length student)) threshold;
         for_in starts
           (λ i new_targets, Ok (new_targets ++ [py_slice i (i + threshold) student]))
           new_targets)
      [].

Definition truncate_sequences (self : attrs) (inputs target_ids0 : matrix)
      (targets : list (list Z)) (threshold : Z)
      : result (matrix * matrix * list (list Z) * Z) :=
    let threshold := Z.min (Z.of_nat (max_num_ans self)) threshold in
    inputs ← _truncate_inputs_or_ids self inputs (encoding_dim self) threshold;
    target_ids1 ← _truncate_inputs_or_ids self target_ids0 (max_prob_set_id self) threshold;
    targets ← _truncate_targets targets threshold;
    Ok (inputs, target_ids1, targets, threshold).

  (** *** Fold splitting *)

(** Modelled from the spec: [sklearn.model_selection.KFold] is a library
    the repository imports and is not under src/.  [KFold(n_splits=k)]
    without shuffling is the deterministic contiguous-block scheme: the rows
    are cut in [k] consecutive blocks, the first [n mod k] one row longer;
    fold [i] validates on block [i] and trains on the other rows, in order.
    It refuses [k < 2] and more folds than rows. *)
Definition fold_size (k n i : nat) : nat :=
    (n `div` k + (if decide (i < n `mod` k) then 1 else 0))%nat.

Definition fold_start (k n i : nat) : nat :=
    (i * (n `div` k) + i `min` (n `mod` k))%nat.

(** Modelled from the spec: the index arrays of fold [i] of the scheme,
    training rows first. *)
Definition KFold_fold (k n i : nat) : list nat * list nat :=
    let start := fold_start k n i in
    let stop := (start + fold_size k n i)%nat in
    (seq 0 start ++ seq stop (n - stop), seq start (stop - start)).

(** Modelled from the spec: [KFold(n_splits=k).split(X)] for [X] of [n]
    rows, which is the library's and not under src/. *)
Definition KFold_split (k n : nat) : result (list (list nat * list nat)) :=
    if decide (k ≤ 1)%nat then Raise ValueError
    else if decide (n < k)%nat then Raise ValueError
    else Ok (KFold_fold k n <$> seq 0 k).

Definition is_truthy (threshold : option Z) : bool :=
    match threshold with
    | Some th => negb (bool_decide (th = 0))
    | None => false
    end.

(** One turn of the loop of [_get_k_folds], up to the two [dict]s: the rows
    of the split, truncated when [threshold] is truthy, and the value the
    loop variable [threshold] has from then on. *)
Definition fold_bundles (self : t) (split : list nat * list nat)
    (threshold : option Z) : result (bundle * bundle * Z) :=
    let '(train_index, val_index) := split in
    let b := base self in
    let a := own self in
    inputs_train ← fancy_index (DataProvider.inputs b) train_index;
    inputs_val ← fancy_index (DataProvider.inputs b) val_index;
    targets_train ← fancy_index (DataProvider.targets b) train_index;
    targets_val ← fancy_index (DataProvider.targets b) val_index;
    target_ids_train ← fancy_index (target_ids a) train_index;
    targets_ids_val ← fancy_index (target_ids a) val_index;
    '(train, val, threshold) ←
      (if is_truthy threshold then
         '(inputs_train, target_ids_train, targets_train, th) ←
           truncate_sequences a inputs_train target_ids_train targets_train
             (default 0 threshold);
         '(inputs_val, targets_ids_val, targets_val, th) ←
           truncate_sequences a inputs_val targets_ids_val targets_val th;
         Ok ((inputs_train, targets_train, target_ids_train),
             (inputs_val, targets_val, targets_ids_val), th)
       else
         Ok ((inputs_train, targets_train, target_ids_train),
             (inputs_val, targets_val, targets_ids_val),
             Z.of_nat (max_num_ans a)));
    let bundle_of (d : matrix * list (list Z) * matrix) :=
      mk_bundle d.1.1 d.1.2 d.2 (Z.to_nat threshold) (max_prob_set_id a)
        (encoding_dim a) in
    Ok (bundle_of train, bundle_of val, threshold).

(** The whole turn: the two providers are built from the bundles.  [self]
    is the provider the generator runs on; the generator object [self.rng]
    is shared with the providers built here, which is why its state [rng]
    is threaded. *)
Definition fold_turn (self : t) (split : list nat * list nat)
    (st : option Z * rng_t) : M os (t * t * (option Z * rng_t)) :=
    let '(threshold, rng) := st in
    let b := base self in
    let a := own self in
    '(train_data, val_data, threshold) ← lift (fold_bundles self split threshold);
    let provider (rng : rng_t) (data : bundle) :=
      __init__ (data_dir a) (which_set a) (which_year a) (fraction a)
        (use_plus_minus_feats a) (use_compressed_sensing a)
        (DataProvider._batch_size b) (DataProvider._max_num_batches b)
        (DataProvider.shuffle_order b) (Some rng) (Some data) in
    train_dp ← provider rng train_data;
    val_dp ← provider (DataProvider.rng (base train_dp)) val_data;
    mret (train_dp, val_dp, (Some threshold, DataProvider.rng (base val_dp))).

Fixpoint fold_turns (self : t) (splits : list (list nat * list nat))
      (st : option Z * rng_t) : M os (list (t * t)) :=
    match splits with
    | [] => mret []
    | split :: splits' =>
        '(train_dp, val_dp, st') ← fold_turn self split st;
        rest ← fold_turns self splits' st';
        mret ((train_dp, val_dp) :: rest)
    end.

(** The pairs [_get_k_folds(k, threshold)] yields when it is run to its end. *)
Definition _get_k_folds (self : t) (k : nat) (threshold : option Z)
      : M os (list (t * t)) :=
    if negb (bool_decide (which_set (own self) = "train")) then raise AssertionError
    else
      splits ← lift (KFold_split k (length (DataProvider.inputs (base self))));
      fold_turns self splits (threshold, DataProvider.rng (base self)).

(** Only the first pair is asked of the generator. *)
Definition train_validation_split (self : t) (threshold : option Z) : M os (t * t) :=
    if negb (bool_decide (which_set (own self) = "train")) then raise AssertionError
    else
      splits ← lift (KFold_split 5 (length (DataProvider.inputs (base self))));
      folds ← fold_turns self (take 1 splits) (threshold, DataProvider.rng (base self));
      match folds with
      | first :: _ => mret first
      | [] => raise UnboundLocalError
      end.
End Class.
End ASSISTDataProvider.

(** ** Vocabulary of the statements *)

(** The rows of [a] at the positions [idx] that exist: what [a[idx]] holds
    when every position is in range. *)
Definition pick {A} (a : list A) (idx : list nat) : list A :=
  omap (λ i, a !! i) idx.

(** The rows [i * size, (i + 1) * size) of a list. *)
Definition window {A} (size i : nat) (l : list A) : list A :=
  take size (drop (i * size) l).

(** The value [_update_num_batches] is documented to compute. *)
Definition expected_num_batches (rows batch_size max_num_batches : Z) : Z :=
  if decide (max_num_batches = -1) then rows `div` batch_size
  else Z.min max_num_batches (rows `div` batch_size).

(** A provider of [rows] rows at the start of a pass, as the constructor
    arguments [batch_size] and [max_num_batches] leave it. *)
Definition epoch_start `{RandomState} {A B} (rows : nat) (batch_size max_num_batches : Z)
    (dp : DataProvider.t A B) : Prop :=
  DataProvider._batch_size dp = batch_size ∧
  DataProvider._max_num_batches dp = max_num_batches ∧
  DataProvider.num_batches dp
    = expected_num_batches (Z.of_nat rows) batch_size max_num_batches ∧
  length (DataProvider.inputs dp) = rows ∧
  length (DataProvider.targets dp) = rows ∧
  length (DataProvider._current_order dp) = rows ∧
  DataProvider._curr_batch dp = 0.

(** The provider holds the rows [inputs0], [targets0] and [target_ids0] of
    its construction, in the order [_current_order] records. *)
Definition tracks `{RandomState} (st : ASSISTDataProvider.t)
    (inputs0 : list (list scalar)) (targets0 : list (list Z))
    (target_ids0 : list (list scalar)) : Prop :=
  let b := ASSISTDataProvider.base st in
  length targets0 = length inputs0 ∧
  length target_ids0 = length inputs0 ∧
  DataProvider._current_order b ≡ₚ seq 0 (length inputs0) ∧
  DataProvider.inputs b = pick inputs0 (DataProvider._current_order b) ∧
  DataProvider.targets b = pick targets0 (DataProvider._current_order b) ∧
  ASSISTDataProvider.target_ids (ASSISTDataProvider.own st)
    = pick target_ids0 (DataProvider._current_order b).

(** The row-alignment invariant: one row per student in each of the three
    arrays. *)
Definition rows_aligned {A B C} (inputs : list A) (targets : list B)
    (target_ids : list C) : Prop :=
  length inputs = length targets ∧ length targets = length target_ids.

Definition provider_aligned `{RandomState} (st : ASSISTDataProvider.t) : Prop :=
  rows_aligned (DataProvider.inputs (ASSISTDataProvider.base st))
    (DataProvider.targets (ASSISTDataProvider.base st))
    (ASSISTDataProvider.target_ids (ASSISTDataProvider.own st)) ∧
  length (DataProvider._current_order (ASSISTDataProvider.base st))
  = length (DataProvider.inputs (ASSISTDataProvider.base st)).

(** The three arrays of the provider [st] are the rows [idx], in that order,
    of [inputs0], [targets0] and [target_ids0]: one index array for the
    three. *)
Definition holds_rows `{RandomState} (st : ASSISTDataProvider.t)
    (inputs0 : list (list scalar)) (targets0 : list (list Z))
    (target_ids0 : list (list scalar)) (idx : list nat) : Prop :=
  DataProvider.inputs (ASSISTDataProvider.base st) = pick inputs0 idx ∧
  DataProvider.targets (ASSISTDataProvider.base st) = pick targets0 idx ∧
  ASSISTDataProvider.target_ids (ASSISTDataProvider.own st) = pick target_ids0 idx.

(** The sub-blocks of [threshold] answers of one student's row: the row is
    read as [max_num_ans] answers of [final_dim] entries, zero answers are
    added on the right up to the next multiple of [threshold] above
    [max_num_ans], and the answers are cut in blocks of [threshold]. *)
Definition sub_blocks `{Numeric} (max_num_ans final_dim threshold : nat)
    (row : list scalar) : list (list (list scalar)) :=
  let answers := chunks final_dim max_num_ans row in
  let padded :=
    answers ++ replicate (threshold - max_num_ans `mod` threshold)
                 (replicate final_dim zero) in
  (λ k, window threshold k padded) <$> seq 0 (max_num_ans `div` threshold + 1).

(** The rows the truncation keeps: the sub-blocks with an entry that is not
    zero, each flattened to one row, in the order of the students. *)
Definition retained_rows `{Numeric} (max_num_ans final_dim threshold : nat)
    (m : list (list scalar)) : list (list scalar) :=
  (λ blk, concat blk)
    <$> filter (λ blk, any_nonzero blk = true)
          (concat (sub_blocks max_num_ans final_dim threshold <$> m)).

(** Every run of 1000 rows keeps at least one sub-block. *)
Definition every_run_retains `{Numeric} (max_num_ans final_dim threshold : nat)
    (m : list (list scalar)) : Prop :=
  ∀ k, (k * 1000 < length m)%nat →
       retained_rows max_num_ans final_dim threshold (window 1000 k m) ≠ [].

(** The first [count] answers of a student's row, and no others, hold an
    entry that is not zero: the padding of the data files. *)
Definition answers_marked `{Numeric} (max_num_ans final_dim count : nat)
    (row : list scalar) : Prop :=
  (count ≤ max_num_ans)%nat ∧
  ∀ j, (j < max_num_ans)%nat →
       existsb nonzero (window final_dim j row) = true ↔ (j < count)%nat.

(** The data [truncate_sequences] is written for, at the threshold
    [threshold]: [inputs] and [target_ids] hold rows of [max_num_ans]
    answers, padded as the files are (the first [len(targets)] answers of a
    student, and no others, are non-zero in both), and every run of 1000 rows
    keeps a sub-block. *)
Definition padded_data `{Numeric} (self : ASSISTDataProvider.attrs) (threshold : Z)
    (inputs target_ids : list (list scalar)) (targets : list (list Z)) : Prop :=
  let mna := ASSISTDataProvider.max_num_ans self in
  let ed := ASSISTDataProvider.encoding_dim self in
  let mpsi := ASSISTDataProvider.max_prob_set_id self in
  let t := Z.to_nat (Z.min (Z.of_nat mna) threshold) in
  inputs ≠ [] ∧
  Forall (λ row, length row = (mna * ed)%nat) inputs ∧
  Forall (λ row, length row = (mna * mpsi)%nat) target_ids ∧
  every_run_retains mna ed t inputs ∧
  every_run_retains mna mpsi t target_ids ∧
  Forall2 (λ row student, answers_marked mna ed (length student) row) inputs targets ∧
  Forall2 (λ row student, answers_marked mna mpsi (length student) row)
    target_ids targets.

(** One student's row after compression: each of its [max_num_ans] answers,
    a vector of [encoding_dim] entries, is multiplied by the matrix [c]. *)
Definition compressed_row `{Numeric} (c : list (list scalar))
    (max_num_ans encoding_dim : nat) (row : list scalar) : list scalar :=
  concat (dot_row c (shape1 c) <$> chunks encoding_dim max_num_ans row).

(** ** A small instance to compute with

    Integers for the scalars, and a generator whose state counts its draws:
    each permutation rotates the rows by one place more than the one before. *)

Module Tiny.
#[local] Instance numeric : Numeric := {|
  scalar := Z;
  zero := 0;
  nonzero := λ x, negb (bool_decide (x = 0));
  add := Z.add;
  mul := Z.mul;
  float32 := λ x, x;
  int32 := λ x, (x + 2 ^ 31) `mod` 2 ^ 32 - 2 ^ 31;
|}.

#[local] Instance random_state : RandomState := {|
  rng_t := nat;
  seeded := λ _, 0%nat;
  permutation := λ g n, (rotate (S g) (seq 0 n), S g);
  randn := λ g r c, (replicate r (replicate c (Z.of_nat g)), S g);
  permutation_perm := λ g n,
    eq_rect _ (λ l, rotate (S g) (seq 0 n) ≡ₚ l)
      (Permutation_app_comm (drop (S g `mod` length (seq 0 n)) (seq 0 n))
         (take (S g `mod` length (seq 0 n)) (seq 0 n)))
      _ (take_drop (S g `mod` length (seq 0 n)) (seq 0 n));
|}.

(** Two students, of two answers and of one, with [max_num_ans = 2],
    [max_prob_set_id = 1] and the one-hot encoding of width 3. *)
Definition two_students_attrs : ASSISTDataProvider.attrs :=
  ASSISTDataProvider.mk_attrs "train" "09" "data" 2 (PyInt 1)
    false false [[1; 1]; [1; 0]] 2 1 3 None None.

Definition two_students_inputs : list (list Z) :=
  [[0; 1; 0; 0; 0; 1]; [1; 0; 0; 0; 0; 0]].

Definition two_students_targets : list (list Z) := [[1; 0]; [1]].

(** The same data in a provider of one batch of two, as [super().__init__]
    leaves it when shuffling is off. *)
Definition two_students : ASSISTDataProvider.t :=
  ASSISTDataProvider.mk
    (DataProvider.mk two_students_inputs two_students_targets 2 (-1) 1 false
       [0; 1]%nat 0%nat 0)
    two_students_attrs.

(** Four students of one answer each ([max_num_ans = 1],
    [max_prob_set_id = 2]), and the provider [super().__init__] builds from
    them with shuffling on: the first draw has rotated the rows by one. *)
Definition four_students_attrs : ASSISTDataProvider.attrs :=
  ASSISTDataProvider.mk_attrs "train" "09" "data" 2 (PyInt 1)
    false false [[1; 0]; [0; 1]; [1; 0]; [0; 1]] 1 2 5 None None.

Definition four_students_inputs : list (list Z) :=
  [[1; 0; 0; 0; 0]; [0; 1; 0; 0; 0]; [0; 0; 1; 0; 0]; [0; 0; 0; 1; 0]].

Definition four_students_targets : list (list Z) := [[1]; [0]; [0]; [1]].

Definition four_students_shuffling : ASSISTDataProvider.t :=
  ASSISTDataProvider.mk
    (DataProvider.mk
       [[0; 1; 0; 0; 0]; [0; 0; 1; 0; 0]; [0; 0; 0; 1; 0]; [1; 0; 0; 0; 0]]
       [[0]; [0]; [1]; [1]] 2 (-1) 2 true [1; 2; 3; 0]%nat 1%nat 0)
    (ASSISTDataProvider.set_target_ids [[0; 1]; [1; 0]; [0; 1]; [1; 0]]
       four_students_attrs).

(** Two worlds: one without any file, and one where the two files the
    validation looks for exist and hold no dataset at all. *)
Definition no_files : os := mk_os _ _ (λ path, path) ∅ 7%nat.

Definition junk_files : os :=
  mk_os _ _ (λ path, path)
    (<["data/assist09-train-inputs.npz" := CompressionNpz []]>
       (<["data/assist09-train-targets.npz" := CompressionNpz []]> ∅))
    7%nat.

(** The test split of the two students on disk, without and with the
    projection matrix a training run leaves behind. *)
Definition test_files : gmap string npz :=
  <["data/assist09-test-inputs.npz" := SparseNpz two_students_inputs]>
    (<["data/assist09-test-targets.npz" := TargetsNpz 2 1 two_students_targets]>
       (<["data/assist09-test-targetids.npz" := SparseNpz [[1; 1]; [1; 0]]]> ∅)).

Definition test_without_matrix : os := mk_os _ _ (λ path, path) test_files 7%nat.

Definition test_with_matrix : os :=
  mk_os _ _ (λ path, path)
    (<["data/assist09-train-compression-matrix.npz"
       := CompressionNpz [[1; 0]; [0; 1]; [1; 1]]]> test_files)
    7%nat.

(** One student whose two answers are recorded in [targets] and in
    [target_ids], and of whose inputs only the first answer is set. *)
Definition uneven_inputs : list (list Z) := [[0; 1; 0; 0; 0; 0]].
Definition uneven_target_ids : list (list Z) := [[1; 1]].
Definition uneven_targets : list (list Z) := [[1; 0]].

(** A thousand students of one answer each and, after them, one student
    without any answer ([max_num_ans = 1], [max_prob_set_id = 1], encoding of
    width 3): the last student is the only row of the second run of 1000. *)
Definition thousand_and_one_attrs : ASSISTDataProvider.attrs :=
  ASSISTDataProvider.mk_attrs "train" "09" "data" 2 (PyInt 1)
    false false (replicate 1000 [1] ++ [[0]]) 1 1 3 None None.

Definition thousand_and_one_inputs : list (list Z) :=
  replicate 1000 [0; 1; 0] ++ [[0; 0; 0]].

Definition thousand_and_one_target_ids : list (list Z) :=
  replicate 1000 [1] ++ [[0]].

Definition thousand_and_one_targets : list (list Z) :=
  replicate 1000 [1] ++ [[]].

(** The fold bundle of the two students. *)
Definition two_students_bundle : ASSISTDataProvider.bundle :=
  ASSISTDataProvider.mk_bundle two_students_inputs two_students_targets
    [[1; 1]; [1; 0]] 2 1 3.
End Tiny.


(** ** Sequences of calls *)

(** The outcomes of the calls [ms], made one after the other on one object:
    a raised exception ends its call, not the sequence. *)
Fixpoint call_all {S X : Type} (ms : list (M S X)) (s : S) : list (result X) * S :=
  match ms with
  | [] => ([], s)
  | m :: ms' =>
      let '(r, s') := m s in
      let '(rs, s'') := call_all ms' s' in
      (r :: rs, s'')
  end.

(** The methods a training loop calls on a provider it has built. *)
Inductive method : Set := call_next | call_shuffle | call_reset | call_new_epoch.

Definition provider_method `{RandomState} {A B : Type} (m : method)
    : M (DataProvider.t A B) (option (list A * list B)) :=
  match m with
  | call_next => batch ← DataProvider.next; mret (Some batch)
  | call_shuffle => DataProvider.shuffle;; mret None
  | call_reset => DataProvider.reset;; mret None
  | call_new_epoch => DataProvider.new_epoch;; mret None
  end.

Definition assist_method `{RandomState} (m : method)
    : M ASSISTDataProvider.t
        (option (list (list (list scalar)) * list scalar * list Z)) :=
  match m with
  | call_next => batch ← ASSISTDataProvider.next; mret (Some batch)
  | call_shuffle => ASSISTDataProvider.shuffle;; mret None
  | call_reset => ASSISTDataProvider.reset;; mret None
  | call_new_epoch => ASSISTDataProvider.new_epoch;; mret None
  end.

(** A provider in service: it holds the rows of its construction in the order
    [_current_order] records, each of [max_num_ans] answers of [encoding_dim]
    entries, and its batch counters fit them. *)
Definition in_service `{RandomState} (st : ASSISTDataProvider.t)
    (inputs0 : list (list scalar)) (targets0 : list (list Z))
    (target_ids0 : list (list scalar)) : Prop :=
  let b := ASSISTDataProvider.base st in
  let a := ASSISTDataProvider.own st in
  tracks st inputs0 targets0 target_ids0 ∧
  Forall (λ row, length row = (ASSISTDataProvider.max_num_ans a
                               * ASSISTDataProvider.encoding_dim a)%nat) inputs0 ∧
  1 ≤ DataProvider._batch_size b ∧
  DataProvider.num_batches b * DataProvider._batch_size b
    ≤ Z.of_nat (length inputs0) ∧
  0 ≤ DataProvider._curr_batch b.

(** The same for the generic provider, which has no shape to keep. *)
Definition serving `{RandomState} {A B : Type} (dp : DataProvider.t A B)
    (batch_size : Z) (inputs0 : list A) (targets0 : list B) : Prop :=
  length targets0 = length inputs0 ∧
  DataProvider._current_order dp ≡ₚ seq 0 (length inputs0) ∧
  DataProvider.inputs dp = pick inputs0 (DataProvider._current_order dp) ∧
  DataProvider.targets dp = pick targets0 (DataProvider._current_order dp) ∧
  DataProvider._batch_size dp = batch_size ∧
  1 ≤ batch_size ∧
  DataProvider.num_batches dp * batch_size ≤ Z.of_nat (length inputs0) ∧
  0 ≤ DataProvider._curr_batch dp.

(** What a call on the generic provider gives back: the end of a pass,
    nothing, or a batch of [size] rows of the construction, distinct, each
    input with its own target. *)
Definition served {A B : Type} (inputs0 : list A) (targets0 : list B) (size : nat)
    (r : result (option (list A * list B))) : Prop :=
  r = Raise StopIteration ∨ r = Ok None ∨
  ∃ idx, r = Ok (Some (pick inputs0 idx, pick targets0 idx)) ∧
         length idx = size ∧ NoDup idx ∧
         Forall (λ i, i < length inputs0)%nat idx.

(** [st1] differs from [st] at most in its rows and their order, in the state
    of the generator and in the batch counter. *)
Definition same_settings `{RandomState} (st st1 : ASSISTDataProvider.t) : Prop :=
  let b := ASSISTDataProvider.base st in
  let b1 := ASSISTDataProvider.base st1 in
  DataProvider._batch_size b1 = DataProvider._batch_size b ∧
  DataProvider._max_num_batches b1 = DataProvider._max_num_batches b ∧
  DataProvider.num_batches b1 = DataProvider.num_batches b ∧
  DataProvider.shuffle_order b1 = DataProvider.shuffle_order b ∧
  ASSISTDataProvider.own st1
  = ASSISTDataProvider.set_target_ids
      (ASSISTDataProvider.target_ids (ASSISTDataProvider.own st1))
      (ASSISTDataProvider.own st).

(** Five students of one answer each, in a train provider of batches of one
    that does not shuffle. *)
Definition five_students : ASSISTDataProvider.t (H0 := Tiny.random_state) :=
  ASSISTDataProvider.mk
    (DataProvider.mk (H0 := Tiny.random_state)
       [[0; 1; 0]; [0; 0; 1]; [0; 1; 0]; [0; 0; 1]; [0; 1; 0]]
       [[1]; [0]; [1]; [0]; [1]] 1 (-1) 5 false (seq 0 5) 0%nat 0)
    (ASSISTDataProvider.mk_attrs (H := Tiny.numeric) "train" "09" "data" 2
       (PyInt 1) false false [[1]; [1]; [1]; [1]; [1]] 1 1 3 None None).

(** ** Tactics *)

(** Runs the monadic plumbing of a method on a known state. *)
Ltac run :=
  unfold mbind, M_bind, result_bind, mret, M_ret, result_ret, get, modify, raise, lift;
  simpl.

(** Decides an equivalence between two closed, computable facts. *)
Ltac marked_iff := vm_compute; split; intros; first [done | lia].


(** * Properties *)

(** ** Lists, slices and index arrays *)

Section ListFacts.
Context {A : Type}.
Implicit Types (l a : list A) (idx p q : list nat).

Lemma py_slice_inside (lo hi : nat) l :
  (lo ≤ hi ≤ length l)%nat →
  py_slice (Z.of_nat lo) (Z.of_nat hi) l = take (hi - lo) (drop lo l).
Proof.
  intros Hb. unfold py_slice, slice_bound.
  repeat case_decide; try lia.
  rewrite !Z.min_l by lia.
  by replace (Z.to_nat (Z.of_nat hi - Z.of_nat lo)) with (hi - lo)%nat by lia;
    rewrite Nat2Z.id.
Qed.

Lemma perm_seq_bound idx n : idx ≡ₚ seq 0 n → Forall (λ i, i < n)%nat idx.
Proof.
  intros Hp. apply Forall_forall. intros i Hi.
  rewrite Hp in Hi. apply elem_of_seq in Hi. lia.
Qed.

Lemma fancy_index_pick a idx :
  Forall (λ i, i < length a)%nat idx → fancy_index a idx = Ok (pick a idx).
Proof.
  induction 1 as [|i idx Hi _ IH]; [done|].
  simpl. destruct (lookup_lt_is_Some_2 a i Hi) as [x Hx].
  unfold pick in *. simpl. rewrite Hx, IH. done.
Qed.

Lemma lookup_pick a idx j :
  Forall (λ i, i < length a)%nat idx →
  pick a idx !! j = idx !! j ≫= (λ i, a !! i).
Proof.
  intros Hall. revert j. induction Hall as [|i idx Hi _ IH]; intros j; [done|].
  unfold pick in *. simpl.
  destruct (lookup_lt_is_Some_2 a i Hi) as [x Hx]. rewrite Hx.
  destruct j; simpl; [done|apply IH].
Qed.

Lemma length_pick a idx :
  Forall (λ i, i < length a)%nat idx → length (pick a idx) = length idx.
Proof.
  induction 1 as [|i idx Hi _ IH]; [done|].
  unfold pick in *. simpl.
  destruct (lookup_lt_is_Some_2 a i Hi) as [x Hx]. rewrite Hx. simpl. f_equal. exact IH.
Qed.

Lemma pick_seq a : pick a (seq 0 (length a)) = a.
Proof.
  apply list_eq. intros j.
  rewrite lookup_pick by (apply Forall_forall; intros i Hi; apply elem_of_seq in Hi; lia).
  destruct (decide (j < length a)%nat) as [Hj|Hj].
  - by rewrite lookup_seq_lt.
  - rewrite (lookup_ge_None_2 (seq _ _)) by (rewrite length_seq; lia).
    simpl. symmetry. apply lookup_ge_None_2. lia.
Qed.

Lemma pick_Permutation a idx : idx ≡ₚ seq 0 (length a) → pick a idx ≡ₚ a.
Proof.
  intros Hp. unfold pick. rewrite Hp. fold (pick a (seq 0 (length a))).
  by rewrite pick_seq.
Qed.

End ListFacts.

Lemma pick_pick {A} (a : list A) (p q : list nat) :
  Forall (λ i, i < length a)%nat p →
  Forall (λ j, j < length p)%nat q →
  pick (pick a p) q = pick a (pick p q).
Proof.
  intros Hp Hq. apply list_eq. intros j.
  assert (Forall (λ i, i < length a)%nat (pick p q)) as Hpq.
  { apply Forall_forall. intros i Hi. unfold pick in Hi.
    apply list_elem_of_omap in Hi as (k & _ & Hk).
    eapply Forall_lookup_1 in Hp; eauto. }
  rewrite (lookup_pick a (pick p q)), (lookup_pick p q) by done.
  rewrite lookup_pick by (by rewrite length_pick).
  destruct (q !! j); simpl; [|done]. by rewrite lookup_pick.
Qed.

Lemma length_window {A} (size i : nat) (l : list A) :
  ((i + 1) * size ≤ length l)%nat → length (window size i l) = size.
Proof. intros Hb. unfold window. rewrite length_take, length_drop. lia. Qed.

Lemma concat_windows {A} (size n : nat) (l : list A) :
  concat ((λ i, window size i l) <$> seq 0 n) = take (n * size) l.
Proof.
  induction n as [|n IH]; [done|].
  rewrite seq_S, fmap_app, concat_app, IH. simpl. rewrite app_nil_r.
  unfold window. replace (size + n * size)%nat with (n * size + size)%nat by lia.
  by rewrite take_take_drop.
Qed.

Lemma expected_num_batches_bounds rows batch_size max_num_batches :
  0 ≤ rows → 1 ≤ batch_size → max_num_batches = -1 ∨ 0 < max_num_batches →
  0 ≤ expected_num_batches rows batch_size max_num_batches ∧
  expected_num_batches rows batch_size max_num_batches * batch_size ≤ rows.
Proof.
  intros Hr Hb Hm. unfold expected_num_batches.
  assert (0 ≤ rows `div` batch_size) by (apply Z.div_pos; lia).
  assert (rows `div` batch_size * batch_size ≤ rows)
    by (rewrite Z.mul_comm; apply Z.mul_div_le; lia).
  case_decide; [lia|]. split; [lia|]. nia.
Qed.

(** ** The batch iterator *)

Section Iterator.
Context `{RandomState} {A B : Type}.
Implicit Types dp : DataProvider.t A B.

Lemma update_num_batches_run dp :
  DataProvider._batch_size dp ≠ 0 →
  DataProvider._update_num_batches dp
  = (Ok (), DataProvider.set_num_batches
              (expected_num_batches (DataProvider.shape0 dp)
                 (DataProvider._batch_size dp) (DataProvider._max_num_batches dp)) dp).
Proof.
  intros Hb. unfold DataProvider._update_num_batches, py_floordiv, expected_num_batches.
  run. case_decide; [done|]. by case_decide.
Qed.

Lemma shuffle_run dp :
  length (DataProvider.targets dp) = length (DataProvider.inputs dp) →
  length (DataProvider._current_order dp) = length (DataProvider.inputs dp) →
  ∃ perm g,
    perm ≡ₚ seq 0 (length (DataProvider.inputs dp)) ∧
    DataProvider.shuffle dp
    = (Ok (), DataProvider.mk (pick (DataProvider.inputs dp) perm)
                (pick (DataProvider.targets dp) perm)
                (DataProvider._batch_size dp) (DataProvider._max_num_batches dp)
                (DataProvider.num_batches dp) (DataProvider.shuffle_order dp)
                (pick (DataProvider._current_order dp) perm) g
                (DataProvider._curr_batch dp)).
Proof.
  intros Ht Ho. unfold DataProvider.shuffle. run.
  pose proof (permutation_perm (DataProvider.rng dp) (length (DataProvider.inputs dp))) as Hp.
  destruct (permutation _ _) as [perm g]. simpl in Hp.
  exists perm, g. split; [done|].
  pose proof (perm_seq_bound _ _ Hp) as Hlt.
  rewrite !fancy_index_pick by (by rewrite ?Ht, ?Ho).
  by destruct dp.
Qed.

Lemma new_epoch_run dp rows :
  length (DataProvider.inputs dp) = rows →
  length (DataProvider.targets dp) = rows →
  length (DataProvider._current_order dp) = rows →
  ∃ dp',
    DataProvider.new_epoch dp = (Ok (), dp') ∧
    DataProvider._curr_batch dp' = 0 ∧
    DataProvider._batch_size dp' = DataProvider._batch_size dp ∧
    DataProvider._max_num_batches dp' = DataProvider._max_num_batches dp ∧
    DataProvider.num_batches dp' = DataProvider.num_batches dp ∧
    DataProvider.shuffle_order dp' = DataProvider.shuffle_order dp ∧
    DataProvider.inputs dp' ≡ₚ DataProvider.inputs dp ∧
    DataProvider.targets dp' ≡ₚ DataProvider.targets dp ∧
    length (DataProvider.inputs dp') = rows ∧
    length (DataProvider.targets dp') = rows ∧
    length (DataProvider._current_order dp') = rows.
Proof.
  intros Hi Ht Ho. unfold DataProvider.new_epoch. run.
  destruct (DataProvider.shuffle_order dp) eqn:Hs.
  - destruct (shuffle_run (DataProvider.set__curr_batch 0 dp)) as (perm & g & Hp & Hrun);
      simpl; [congruence..|].
    simpl in Hp. rewrite Hrun. eexists; split; [done|]. simpl.
    pose proof (perm_seq_bound _ _ Hp) as Hlt.
    rewrite !length_pick by (by rewrite ?Ht, ?Ho, ?Hi in * ).
    rewrite !pick_Permutation by (by rewrite ?Ht, ?Ho, ?Hi in * ).
    rewrite Hp, length_seq. done.
  - eexists; split; [done|]. simpl. done.
Qed.

Lemma next_emit dp (c : nat) :
  DataProvider._curr_batch dp = Z.of_nat c →
  Z.of_nat c + 1 ≤ DataProvider.num_batches dp →
  1 ≤ DataProvider._batch_size dp →
  DataProvider.num_batches dp * DataProvider._batch_size dp
    ≤ Z.of_nat (length (DataProvider.inputs dp)) →
  length (DataProvider.targets dp) = length (DataProvider.inputs dp) →
  DataProvider.next dp
  = (Ok (window (Z.to_nat (DataProvider._batch_size dp)) c (DataProvider.inputs dp),
         window (Z.to_nat (DataProvider._batch_size dp)) c (DataProvider.targets dp)),
     DataProvider.set__curr_batch (Z.of_nat (S c)) dp).
Proof.
  intros Hc Hn Hb Hrows Ht. unfold DataProvider.next, DataProvider.batch_slice. run.
  case_decide; [lia|]. rewrite Hc.
  set (size := Z.to_nat (DataProvider._batch_size dp)).
  replace (Z.of_nat c * DataProvider._batch_size dp) with (Z.of_nat (c * size)) by lia.
  replace ((Z.of_nat c + 1) * DataProvider._batch_size dp)
    with (Z.of_nat ((c + 1) * size)) by lia.
  assert ((c + 1) * size ≤ length (DataProvider.inputs dp))%nat by nia.
  rewrite !py_slice_inside by lia. unfold window.
  replace ((c + 1) * size - c * size)%nat with size by lia.
  do 2 f_equal. lia.
Qed.

Lemma next_stop dp rows :
  DataProvider._curr_batch dp + 1 > DataProvider.num_batches dp →
  length (DataProvider.inputs dp) = rows →
  length (DataProvider.targets dp) = rows →
  length (DataProvider._current_order dp) = rows →
  ∃ dp', DataProvider.new_epoch dp = (Ok (), dp') ∧
         DataProvider.next dp = (Raise StopIteration, dp').
Proof.
  intros Hc Hi Ht Ho.
  destruct (new_epoch_run dp rows Hi Ht Ho) as (dp' & Hrun & _).
  exists dp'. split; [done|]. unfold DataProvider.next. run.
  case_decide; [|lia]. by rewrite Hrun.
Qed.

Lemma iterate_S fuel dp :
  DataProvider.iterate (S fuel) dp
  = match DataProvider.next dp with
    | (Ok b, dp') =>
        let '(bs, r) := DataProvider.iterate fuel dp' in (b :: bs, r)
    | (Raise StopIteration, dp') => ([], Ok dp')
    | (Raise e, _) => ([], Raise e)
    end.
Proof. done. Qed.

Lemma iterate_from dp rows batch_size max_num_batches (c k : nat) :
  1 ≤ batch_size → max_num_batches = -1 ∨ 0 < max_num_batches →
  DataProvider._batch_size dp = batch_size →
  DataProvider._max_num_batches dp = max_num_batches →
  DataProvider.num_batches dp
    = expected_num_batches (Z.of_nat rows) batch_size max_num_batches →
  length (DataProvider.inputs dp) = rows →
  length (DataProvider.targets dp) = rows →
  length (DataProvider._current_order dp) = rows →
  DataProvider._curr_batch dp = Z.of_nat c →
  DataProvider.num_batches dp = Z.of_nat (c + k) →
  ∀ fuel, (k < fuel)%nat →
  ∃ dp',
    DataProvider.iterate fuel dp
    = ((λ i, (window (Z.to_nat batch_size) i (DataProvider.inputs dp),
              window (Z.to_nat batch_size) i (DataProvider.targets dp))) <$> seq c k,
       Ok dp') ∧
    epoch_start rows batch_size max_num_batches dp' ∧
    DataProvider.shuffle_order dp' = DataProvider.shuffle_order dp ∧
    DataProvider.inputs dp' ≡ₚ DataProvider.inputs dp ∧
    DataProvider.targets dp' ≡ₚ DataProvider.targets dp.
Proof.
  intros Hb Hm. revert dp c.
  induction k as [|k IH]; intros dp c Hbs Hmnb Hnb Hi Ht Ho Hc Hk [|fuel] Hfuel;
    try lia.
  - destruct (new_epoch_run dp rows Hi Ht Ho)
      as (dp' & Hrun & ? & ? & ? & ? & ? & ? & ? & ? & ? & ?).
    destruct (next_stop dp rows) as (dp'' & Hrun' & Hnext); [lia|done..|].
    assert (dp'' = dp') as -> by congruence.
    exists dp'. rewrite iterate_S, Hnext. unfold epoch_start.
    repeat split; congruence.
  - pose proof (expected_num_batches_bounds (Z.of_nat rows) batch_size max_num_batches)
      as [_ Hle]; [lia..|].
    destruct (IH (DataProvider.set__curr_batch (Z.of_nat (S c)) dp) (S c)
                ltac:(done) ltac:(done) ltac:(done) ltac:(done) ltac:(done)
                ltac:(done) ltac:(done) ltac:(simpl; lia) fuel ltac:(lia))
      as (dp' & Hit & Hrest).
    unfold DataProvider.set__curr_batch in Hit at 2 3.
    cbn [DataProvider.inputs DataProvider.targets] in Hit. simpl in Hrest.
    rewrite iterate_S.
    rewrite (next_emit dp c) by (rewrite ?Hbs, ?Hnb, ?Hi, ?Ht; first [done|lia]).
    rewrite Hit. exists dp'. split; [|done]. by rewrite Hbs.
Qed.

Lemma iterate_pass dp rows batch_size max_num_batches :
  1 ≤ batch_size → max_num_batches = -1 ∨ 0 < max_num_batches →
  epoch_start rows batch_size max_num_batches dp →
  ∀ fuel, (Z.to_nat (DataProvider.num_batches dp) < fuel)%nat →
  ∃ dp',
    DataProvider.iterate fuel dp
    = ((λ i, (window (Z.to_nat batch_size) i (DataProvider.inputs dp),
              window (Z.to_nat batch_size) i (DataProvider.targets dp)))
         <$> seq 0 (Z.to_nat (DataProvider.num_batches dp)),
       Ok dp') ∧
    epoch_start rows batch_size max_num_batches dp' ∧
    DataProvider.shuffle_order dp' = DataProvider.shuffle_order dp ∧
    DataProvider.inputs dp' ≡ₚ DataProvider.inputs dp ∧
    DataProvider.targets dp' ≡ₚ DataProvider.targets dp.
Proof.
  intros Hb Hm (Hbs & Hmnb & Hnb & Hi & Ht & Ho & Hc).
  pose proof (expected_num_batches_bounds (Z.of_nat rows) batch_size max_num_batches)
    as [Hpos _]; [lia..|].
  apply (iterate_from dp rows batch_size max_num_batches 0); try done.
  rewrite Hnb. simpl. lia.
Qed.

Lemma init_epoch_start (inputs0 : list A) (targets0 : list B)
    (batch_size max_num_batches : Z) (shuffle_order0 : bool) (rng0 : option rng_t) :
  1 ≤ batch_size → max_num_batches = -1 ∨ 0 < max_num_batches →
  length targets0 = length inputs0 →
  ∃ dp,
    DataProvider.__init__ inputs0 targets0 batch_size max_num_batches
      shuffle_order0 rng0 = Ok dp ∧
    epoch_start (length inputs0) batch_size max_num_batches dp ∧
    DataProvider.shuffle_order dp = shuffle_order0 ∧
    DataProvider.inputs dp ≡ₚ inputs0 ∧
    DataProvider.targets dp ≡ₚ targets0.
Proof.
  intros Hb Hm Ht. unfold DataProvider.__init__.
  repeat case_decide; try lia.
  set (dp0 := DataProvider.mk _ _ _ _ _ _ _ _ _).
  unfold mbind at 1, M_bind.
  rewrite (update_num_batches_run dp0) by (simpl; lia).
  destruct (new_epoch_run (DataProvider.set_num_batches
              (expected_num_batches (DataProvider.shape0 dp0)
                 batch_size max_num_batches) dp0)
              (length inputs0))
    as (dp & Hrun & ? & ? & ? & ? & ? & ? & ? & ? & ? & ?);
    simpl; [done|done|by rewrite length_seq|].
  rewrite Hrun. exists dp. split; [done|]. unfold epoch_start.
  simpl in *. repeat split; try done.
Qed.

Lemma passes_S n dp :
  DataProvider.passes (S n) dp
  = match DataProvider.iterate (S (Z.to_nat (DataProvider.num_batches dp))) dp with
    | (_, Ok dp') => DataProvider.passes n dp'
    | (_, Raise e) => Raise e
    end.
Proof. done. Qed.

Lemma passes_epoch_start dp rows batch_size max_num_batches (n : nat) :
  1 ≤ batch_size → max_num_batches = -1 ∨ 0 < max_num_batches →
  epoch_start rows batch_size max_num_batches dp →
  ∃ dp',
    DataProvider.passes n dp = Ok dp' ∧
    epoch_start rows batch_size max_num_batches dp' ∧
    DataProvider.shuffle_order dp' = DataProvider.shuffle_order dp ∧
    DataProvider.inputs dp' ≡ₚ DataProvider.inputs dp ∧
    DataProvider.targets dp' ≡ₚ DataProvider.targets dp.
Proof.
  intros Hb Hm. revert dp. induction n as [|n IH]; intros dp Hstart.
  - exists dp. split; [done|]. split; [done|]. by repeat split.
  - destruct (iterate_pass dp rows batch_size max_num_batches Hb Hm Hstart
                (S (Z.to_nat (DataProvider.num_batches dp))) ltac:(lia))
      as (dp1 & Hit & Hstart1 & Hs1 & Hi1 & Ht1).
    destruct (IH dp1 Hstart1) as (dp' & Hp & Hstart' & Hs' & Hi' & Ht').
    exists dp'. rewrite passes_S, Hit.
    split; [done|]. split; [done|]. repeat split; etrans; eauto.
Qed.
End Iterator.

(** C2.  A provider built from [rows] rows with a valid [batch_size] and
    [max_num_batches] has [num_batches = min(max_num_batches or infinity,
    rows // batch_size)], in its first pass and in every later one.  The
    batches of a pass are the windows [i * batch_size, (i + 1) * batch_size)
    for [i < num_batches] of the rows as that pass holds them: each has
    [batch_size] rows, and put end to end they are exactly the first
    [num_batches * batch_size] rows, so that no two overlap and the rows
    after them are not used in that pass. *)
Theorem C2_num_batches_and_pass_partition `{RandomState} {A B : Type}
    (inputs0 : list A) (targets0 : list B) (batch_size max_num_batches : Z)
    (shuffle_order0 : bool) (rng0 : option rng_t) (n : nat) :
  1 ≤ batch_size →
  max_num_batches = -1 ∨ 0 < max_num_batches →
  length targets0 = length inputs0 →
  ∃ dp0 dp emitted,
    DataProvider.__init__ inputs0 targets0 batch_size max_num_batches
      shuffle_order0 rng0 = Ok dp0 ∧
    DataProvider.passes n dp0 = Ok dp ∧
    let nb := Z.to_nat (DataProvider.num_batches dp) in
    let size := Z.to_nat batch_size in
    DataProvider.num_batches dp
      = expected_num_batches (Z.of_nat (length inputs0)) batch_size max_num_batches ∧
    DataProvider.inputs dp ≡ₚ inputs0 ∧
    DataProvider.targets dp ≡ₚ targets0 ∧
    (∀ fuel, (nb < fuel)%nat →
       ∃ dp', DataProvider.iterate fuel dp = (emitted, Ok dp')) ∧
    emitted = (λ i, (window size i (DataProvider.inputs dp),
                     window size i (DataProvider.targets dp))) <$> seq 0 nb ∧
    Forall (λ b, length b.1 = size ∧ length b.2 = size) emitted ∧
    concat emitted.*1 = take (nb * size) (DataProvider.inputs dp) ∧
    concat emitted.*2 = take (nb * size) (DataProvider.targets dp) ∧
    (nb * size ≤ length inputs0)%nat.
Proof.
  intros Hb Hm Hlen.
  destruct (init_epoch_start inputs0 targets0 batch_size max_num_batches
              shuffle_order0 rng0 Hb Hm Hlen) as (dp0 & Hinit & Hstart0 & _ & Hi0 & Ht0).
  destruct (passes_epoch_start dp0 _ _ _ n Hb Hm Hstart0)
    as (dp & Hpass & Hstart & _ & Hi & Ht).
  pose proof Hstart as (Hbs & Hmnb & Hnb & Hli & Hlt & _ & _).
  pose proof (expected_num_batches_bounds (Z.of_nat (length inputs0)) batch_size
                max_num_batches ltac:(lia) Hb Hm) as [Hpos Hle].
  rewrite <- Hnb in Hpos, Hle.
  set (nb := Z.to_nat (DataProvider.num_batches dp)) in *.
  set (size := Z.to_nat batch_size).
  assert (nb * size ≤ length inputs0)%nat as Hfit by (subst nb size; nia).
  eexists dp0, dp, _. split; [done|]. split; [done|]. simpl.
  split; [done|]. split; [by etrans|]. split; [by etrans|].
  split.
  { intros fuel Hfuel.
    destruct (iterate_pass dp _ _ _ Hb Hm Hstart fuel Hfuel) as (dp' & Hit & _).
    exists dp'. exact Hit. }
  split; [done|]. split.
  { apply Forall_fmap, Forall_forall. intros i Hin. apply elem_of_seq in Hin.
    simpl. rewrite !length_window; [done|nia..]. }
  rewrite <- !list_fmap_compose. simpl.
  split; [apply concat_windows|]. split; [apply concat_windows|done].
Qed.

(** The example of the specification: [batch_size = 2],
    [max_num_batches = -1] and five rows give two batches, and the fifth row
    is in neither. *)
Lemma C2_witness :
  ∃ dp0 dp emitted,
    DataProvider.__init__ (H0 := Tiny.random_state) [10; 11; 12; 13; 14]
      [0; 1; 0; 1; 1] 2 (-1) false None = Ok dp0 ∧
    DataProvider.passes 1 dp0 = Ok dp ∧
    let nb := Z.to_nat (DataProvider.num_batches dp) in
    let size := Z.to_nat 2 in
    DataProvider.num_batches dp = expected_num_batches (Z.of_nat 5) 2 (-1) ∧
    DataProvider.inputs dp ≡ₚ [10; 11; 12; 13; 14] ∧
    DataProvider.targets dp ≡ₚ [0; 1; 0; 1; 1] ∧
    (∀ fuel, (nb < fuel)%nat →
       ∃ dp', DataProvider.iterate fuel dp = (emitted, Ok dp')) ∧
    emitted = (λ i, (window size i (DataProvider.inputs dp),
                     window size i (DataProvider.targets dp))) <$> seq 0 nb ∧
    Forall (λ b, length b.1 = size ∧ length b.2 = size) emitted ∧
    concat emitted.*1 = take (nb * size) (DataProvider.inputs dp) ∧
    concat emitted.*2 = take (nb * size) (DataProvider.targets dp) ∧
    (nb * size ≤ 5)%nat.
Proof.
  apply (C2_num_batches_and_pass_partition (H0 := Tiny.random_state)
           [10; 11; 12; 13; 14] [0; 1; 0; 1; 1] 2 (-1) false None 1);
    [lia | by left | reflexivity].
Defined.

Example five_rows_in_batches_of_two :
  DataProvider.iterate (H0 := Tiny.random_state) 10
    (DataProvider.mk (H0 := Tiny.random_state) [10; 11; 12; 13; 14] [0; 1; 0; 1; 1]
       2 (-1) 2 false (seq 0 5) 0%nat 0)
  = ([([10; 11], [0; 1]); ([12; 13], [0; 1])],
     Ok (DataProvider.mk (H0 := Tiny.random_state) [10; 11; 12; 13; 14]
           [0; 1; 0; 1; 1] 2 (-1) 2 false (seq 0 5) 0%nat 0)).
Proof. reflexivity. Qed.

Section EndOfEpoch.
Context `{RandomState} {A B : Type}.
Implicit Types dp : DataProvider.t A B.

Lemma calls_S n dp :
  DataProvider.calls (S n) dp
  = let '(r, dp') := DataProvider.next dp in
    let '(rs, dp'') := DataProvider.calls n dp' in
    (r :: rs, dp'').
Proof. done. Qed.

Lemma calls_emit dp rows batch_size max_num_batches (c k : nat) :
  1 ≤ batch_size → max_num_batches = -1 ∨ 0 < max_num_batches →
  DataProvider._batch_size dp = batch_size →
  DataProvider.num_batches dp
    = expected_num_batches (Z.of_nat rows) batch_size max_num_batches →
  length (DataProvider.inputs dp) = rows →
  length (DataProvider.targets dp) = rows →
  DataProvider._curr_batch dp = Z.of_nat c →
  DataProvider.num_batches dp = Z.of_nat (c + k) →
  DataProvider.calls k dp
  = ((λ i, Ok (window (Z.to_nat batch_size) i (DataProvider.inputs dp),
               window (Z.to_nat batch_size) i (DataProvider.targets dp))) <$> seq c k,
     DataProvider.set__curr_batch (Z.of_nat (c + k)) dp).
Proof.
  intros Hb Hm. revert dp c.
  induction k as [|k IH]; intros dp c Hbs Hnb Hi Ht Hc Hk.
  - simpl. f_equal. destruct dp; simpl in *. rewrite Nat.add_0_r. by subst.
  - pose proof (expected_num_batches_bounds (Z.of_nat rows) batch_size max_num_batches)
      as [_ Hle]; [lia..|].
    rewrite calls_S.
    rewrite (next_emit dp c) by (rewrite ?Hbs, ?Hnb, ?Hi, ?Ht; first [done|lia]).
    rewrite (IH _ (S c)); [|done..|simpl; lia].
    rewrite Hbs. replace (S c + k)%nat with (c + S k)%nat by lia. done.
Qed.

Lemma calls_add n m dp :
  DataProvider.calls (n + m) dp
  = let '(rs, dp') := DataProvider.calls n dp in
    let '(rs', dp'') := DataProvider.calls m dp' in
    (rs ++ rs', dp'').
Proof.
  revert dp. induction n as [|n IH]; intros dp.
  - simpl (0 + m)%nat. change (DataProvider.calls 0 dp) with (@nil (result (list A * list B)), dp).
    cbv iota beta. by destruct (DataProvider.calls m dp).
  - change (S n + m)%nat with (S (n + m)). rewrite !calls_S.
    destruct (DataProvider.next dp) as [r dp1]. rewrite IH.
    destruct (DataProvider.calls n dp1) as [rs dp2].
    by destruct (DataProvider.calls m dp2).
Qed.
End EndOfEpoch.

(** C4, as the code has it.  In a provider with at least one batch per pass
    ([num_batches ≥ 1]), the calls of [next] in a pass give [num_batches]
    batches; the call after them raises [StopIteration]; and the call after
    that one returns the first batch of a new pass, the window
    [0, batch_size) of the rows as the new pass holds them. *)
Theorem C4_stop_once_then_fresh_epoch `{RandomState} {A B : Type}
    (dp : DataProvider.t A B) (rows : nat) (batch_size max_num_batches : Z) :
  1 ≤ batch_size →
  max_num_batches = -1 ∨ 0 < max_num_batches →
  epoch_start rows batch_size max_num_batches dp →
  1 ≤ DataProvider.num_batches dp →
  ∃ batches dp1 dp2,
    let nb := Z.to_nat (DataProvider.num_batches dp) in
    let size := Z.to_nat batch_size in
    length batches = nb ∧
    DataProvider.calls (nb + 2) dp
    = ((Ok <$> batches)
         ++ [Raise StopIteration;
             Ok (window size 0 (DataProvider.inputs dp1),
                 window size 0 (DataProvider.targets dp1))],
       dp2) ∧
    (DataProvider.calls (nb + 1) dp).2 = dp1 ∧
    epoch_start rows batch_size max_num_batches dp1 ∧
    DataProvider.inputs dp1 ≡ₚ DataProvider.inputs dp ∧
    DataProvider.targets dp1 ≡ₚ DataProvider.targets dp ∧
    DataProvider._curr_batch dp2 = 1.
Proof.
  intros Hb Hm Hstart Hone.
  pose proof Hstart as (Hbs & Hmnb & Hnb & Hi & Ht & Ho & Hc).
  set (nb := Z.to_nat (DataProvider.num_batches dp)).
  set (dpN := DataProvider.set__curr_batch (Z.of_nat (0 + nb)) dp).
  assert (DataProvider.calls nb dp
          = ((λ i, Ok (window (Z.to_nat batch_size) i (DataProvider.inputs dp),
                       window (Z.to_nat batch_size) i (DataProvider.targets dp)))
               <$> seq 0 nb, dpN)) as Hcalls.
  { apply (calls_emit dp rows batch_size max_num_batches 0 nb); try done.
    subst nb. lia. }
  destruct (next_stop dpN rows) as (dp1 & Hepoch & Hstop); [subst dpN nb; simpl; lia|done..|].
  destruct (new_epoch_run dpN rows Hi Ht Ho)
    as (dp1' & Hepoch' & Hc1 & Hbs1 & Hmnb1 & Hnb1 & _ & Hi1 & Ht1 & Hli1 & Hlt1 & Hlo1).
  assert (dp1' = dp1) as -> by congruence.
  simpl in Hbs1, Hmnb1, Hnb1, Hi1, Ht1.
  assert (epoch_start rows batch_size max_num_batches dp1) as Hstart1.
  { unfold epoch_start. repeat split; congruence. }
  pose proof (expected_num_batches_bounds (Z.of_nat rows) batch_size max_num_batches)
    as [_ Hle]; [lia..|].
  assert (DataProvider.next dp1
          = (Ok (window (Z.to_nat batch_size) 0 (DataProvider.inputs dp1),
                 window (Z.to_nat batch_size) 0 (DataProvider.targets dp1)),
             DataProvider.set__curr_batch (Z.of_nat 1) dp1)) as Hfirst.
  { assert (DataProvider._batch_size dp1 = batch_size) as Hbs1' by congruence.
    rewrite <- Hbs1'. apply next_emit; rewrite ?Hbs1', ?Hc1, ?Hnb1, ?Hli1, ?Hlt1;
      first [done | lia | by rewrite Hnb]. }
  exists ((λ i, (window (Z.to_nat batch_size) i (DataProvider.inputs dp),
                 window (Z.to_nat batch_size) i (DataProvider.targets dp))) <$> seq 0 nb),
    dp1, (DataProvider.set__curr_batch (Z.of_nat 1) dp1).
  cbv zeta. fold nb.
  split; [by rewrite length_fmap, length_seq|].
  split.
  { rewrite calls_add, Hcalls.
    rewrite (calls_S 1 dpN), Hstop, (calls_S 0 dp1), Hfirst.
    by rewrite <- list_fmap_compose. }
  split.
  { by rewrite calls_add, Hcalls, (calls_S 0 dpN), Hstop. }
  done.
Qed.

Lemma C4_witness :
  ∃ batches dp1 dp2,
    let dp := DataProvider.mk (H0 := Tiny.random_state) [10; 11; 12; 13; 14]
                [0; 1; 0; 1; 1] 2 (-1) 2 true (seq 0 5) 0%nat 0 in
    let nb := Z.to_nat (DataProvider.num_batches dp) in
    let size := Z.to_nat 2 in
    length batches = nb ∧
    DataProvider.calls (nb + 2) dp
    = ((Ok <$> batches)
         ++ [Raise StopIteration;
             Ok (window size 0 (DataProvider.inputs dp1),
                 window size 0 (DataProvider.targets dp1))],
       dp2) ∧
    (DataProvider.calls (nb + 1) dp).2 = dp1 ∧
    epoch_start 5 2 (-1) dp1 ∧
    DataProvider.inputs dp1 ≡ₚ DataProvider.inputs dp ∧
    DataProvider.targets dp1 ≡ₚ DataProvider.targets dp ∧
    DataProvider._curr_batch dp2 = 1.
Proof.
  apply (C4_stop_once_then_fresh_epoch (H0 := Tiny.random_state)
           (DataProvider.mk (H0 := Tiny.random_state) [10; 11; 12; 13; 14]
              [0; 1; 0; 1; 1] 2 (-1) 2 true (seq 0 5) 0%nat 0) 5 2 (-1));
    [lia | by left | by repeat split | simpl; lia].
Defined.

(** C4 as stated fails on a provider with fewer rows than [batch_size]:
    [num_batches] is 0, and every call of [next] raises [StopIteration]; the
    call after the first signal returns no batch. *)
Lemma C4_counterexample :
  ∃ dp dp1 dp2,
    DataProvider.__init__ (H0 := Tiny.random_state) [10] [1] 2 (-1) false None = Ok dp ∧
    DataProvider._curr_batch dp = DataProvider.num_batches dp ∧
    DataProvider.next dp = (Raise StopIteration, dp1) ∧
    DataProvider.next dp1 = (Raise StopIteration, dp2).
Proof. do 3 eexists. repeat split; reflexivity. Qed.

(** ** The ASSISTments provider: batches *)

Lemma length_concat_uniform {A} (w : nat) (ll : list (list A)) :
  Forall (λ row, length row = w) ll → length (concat ll) = (length ll * w)%nat.
Proof.
  induction 1 as [|row ll Hrow _ IH]; [done|].
  simpl. rewrite length_app, IH, Hrow. lia.
Qed.

Lemma length_concat_sum {A} (ll : list (list A)) :
  length (concat ll) = sum_list (length <$> ll).
Proof.
  induction ll as [|row ll IH]; [done|].
  simpl. rewrite length_app, IH. done.
Qed.

Section Batches.
Context `{RandomState}.
Implicit Types st : ASSISTDataProvider.t.

Lemma assist_next_emit st (c : nat) :
  let b := ASSISTDataProvider.base st in
  let a := ASSISTDataProvider.own st in
  let size := Z.to_nat (DataProvider._batch_size b) in
  DataProvider._curr_batch b = Z.of_nat c →
  Z.of_nat c + 1 ≤ DataProvider.num_batches b →
  1 ≤ DataProvider._batch_size b →
  DataProvider.num_batches b * DataProvider._batch_size b
    ≤ Z.of_nat (length (DataProvider.inputs b)) →
  length (DataProvider.targets b) = length (DataProvider.inputs b) →
  length (ASSISTDataProvider.target_ids a) = length (DataProvider.inputs b) →
  Forall (λ row, length row = (ASSISTDataProvider.max_num_ans a
                               * ASSISTDataProvider.encoding_dim a)%nat)
    (DataProvider.inputs b) →
  ASSISTDataProvider.next st
  = (Ok (chunks (ASSISTDataProvider.encoding_dim a) (ASSISTDataProvider.max_num_ans a)
           <$> chunks (ASSISTDataProvider.max_num_ans a
                       * ASSISTDataProvider.encoding_dim a) size
                 (concat (window size c (DataProvider.inputs b))),
         float32 <$> concat (window size c (DataProvider.targets b)),
         int32 <$> concat (window size c (ASSISTDataProvider.target_ids a))),
     ASSISTDataProvider.set_base
       (DataProvider.set__curr_batch (Z.of_nat (S c)) b) st).
Proof.
  intros b a size Hc Hn Hb Hrows Ht Hids Hrect.
  unfold ASSISTDataProvider.next, DataProvider.batch_slice. run.
  fold b a. case_decide; [lia|]. rewrite Hc.
  replace (Z.of_nat c * DataProvider._batch_size b) with (Z.of_nat (c * size)) by lia.
  replace ((Z.of_nat c + 1) * DataProvider._batch_size b)
    with (Z.of_nat ((c + 1) * size)) by lia.
  assert ((c + 1) * size ≤ length (DataProvider.inputs b))%nat by nia.
  rewrite !py_slice_inside by lia.
  replace ((c + 1) * size - c * size)%nat with size by lia.
  fold (window size c (DataProvider.inputs b)).
  fold (window size c (DataProvider.targets b)).
  fold (window size c (ASSISTDataProvider.target_ids a)).
  unfold ASSISTDataProvider.inherited, ASSISTDataProvider.transform_batch, reshape3.
  run. fold b a size.
  assert (length (concat (window size c (DataProvider.inputs b)))
          = (size * ASSISTDataProvider.max_num_ans a
             * ASSISTDataProvider.encoding_dim a)%nat) as Hlen.
  { rewrite (length_concat_uniform (ASSISTDataProvider.max_num_ans a
                                    * ASSISTDataProvider.encoding_dim a)).
    - rewrite length_window by lia. lia.
    - by apply Forall_take, Forall_drop. }
  case_decide; [|done]. unfold flatten.
  do 3 f_equal. lia.
Qed.
End Batches.

(** C1, as the code has it.  In a batch returned by [next], the flattened
    targets are the label sequences of the students of the batch end to end:
    their length is the sum of the students' answer counts.  The flattened
    [target_ids] are the dense rows of [target_ids] for the same students, in
    the same order, end to end: their length is [batch_size] times the width
    of [target_ids], padding included. *)
Theorem C1_flattened_targets_and_ids `{RandomState}
    (st : ASSISTDataProvider.t) (c width : nat) :
  let b := ASSISTDataProvider.base st in
  let a := ASSISTDataProvider.own st in
  let size := Z.to_nat (DataProvider._batch_size b) in
  DataProvider._curr_batch b = Z.of_nat c →
  Z.of_nat c + 1 ≤ DataProvider.num_batches b →
  1 ≤ DataProvider._batch_size b →
  DataProvider.num_batches b * DataProvider._batch_size b
    ≤ Z.of_nat (length (DataProvider.inputs b)) →
  length (DataProvider.targets b) = length (DataProvider.inputs b) →
  length (ASSISTDataProvider.target_ids a) = length (DataProvider.inputs b) →
  Forall (λ row, length row = (ASSISTDataProvider.max_num_ans a
                               * ASSISTDataProvider.encoding_dim a)%nat)
    (DataProvider.inputs b) →
  Forall (λ row, length row = width) (ASSISTDataProvider.target_ids a) →
  ∃ batch_inputs batch_targets batch_target_ids st',
    ASSISTDataProvider.next st
    = (Ok (batch_inputs, batch_targets, batch_target_ids), st') ∧
    batch_targets = float32 <$> concat (window size c (DataProvider.targets b)) ∧
    batch_target_ids
    = int32 <$> concat (window size c (ASSISTDataProvider.target_ids a)) ∧
    length batch_targets
    = sum_list (length <$> window size c (DataProvider.targets b)) ∧
    length batch_target_ids = (size * width)%nat.
Proof.
  intros b a size Hc Hn Hb Hrows Ht Hids Hrect Hwidth.
  do 4 eexists. split; [by apply assist_next_emit|].
  split; [done|]. split; [done|].
  rewrite !length_fmap. split; [apply length_concat_sum|].
  rewrite (length_concat_uniform width) by (by apply Forall_take, Forall_drop).
  fold b a size. rewrite length_window; [done|]. rewrite Hids. subst size. nia.
Qed.

Lemma C1_witness :
  let st := Tiny.two_students in
  let b := ASSISTDataProvider.base st in
  let a := ASSISTDataProvider.own st in
  ∃ batch_inputs batch_targets batch_target_ids st',
    ASSISTDataProvider.next st
    = (Ok (batch_inputs, batch_targets, batch_target_ids), st') ∧
    batch_targets = float32 <$> concat (window 2 0 (DataProvider.targets b)) ∧
    batch_target_ids
    = int32 <$> concat (window 2 0 (ASSISTDataProvider.target_ids a)) ∧
    length batch_targets = sum_list (length <$> window 2 0 (DataProvider.targets b)) ∧
    length batch_target_ids = (2 * 2)%nat.
Proof.
  apply (C1_flattened_targets_and_ids Tiny.two_students 0 2);
    [reflexivity | simpl; lia | simpl; lia | simpl; lia | reflexivity | reflexivity
    | repeat constructor | repeat constructor].
Defined.

(** C1 as stated fails whenever the students of a batch differ in their
    number of answers: for a student of two answers and one of one, the
    provider returns three targets and four target ids. *)
Lemma C1_counterexample :
  ASSISTDataProvider.super__init__ Tiny.two_students_attrs Tiny.two_students_inputs
    Tiny.two_students_targets 2 (-1) false None = Ok Tiny.two_students ∧
  (ASSISTDataProvider.next Tiny.two_students).1
  = Ok ([[[0; 1; 0]; [0; 0; 1]]; [[1; 0; 0]; [0; 0; 0]]], [1; 0; 1], [1; 1; 1; 0]) ∧
  length [1; 0; 1] ≠ length [1; 1; 1; 0].
Proof. split; [reflexivity|]. split; [reflexivity|done]. Qed.

(** ** Shuffling and resetting *)

#[local] Instance key_le_total : Total key_le.
Proof. intros p q. unfold key_le. lia. Qed.

Lemma argsort_Permutation (l : list nat) : argsort l ≡ₚ seq 0 (length l).
Proof.
  unfold argsort. rewrite merge_sort_Permutation.
  by rewrite snd_zip by (by rewrite length_seq).
Qed.

Lemma Sorted_le_seq (j n : nat) : Sorted le (seq j n).
Proof.
  revert j. induction n as [|n IH]; intros j; [constructor|].
  simpl. constructor; [apply IH|].
  destruct n; constructor. lia.
Qed.

Lemma pick_keys (l : list nat) (s : list (nat * nat)) :
  (∀ v i, (v, i) ∈ s → l !! i = Some v) → pick l (s.*2) = s.*1.
Proof.
  induction s as [|[v i] s IH]; intros Hs; [done|].
  unfold pick in *. simpl. rewrite (Hs v i) by left. simpl.
  f_equal. apply IH. intros v' i' Hin. apply Hs. by right.
Qed.

(** On a permutation of [0 .. n-1], [argsort] is the inverse permutation. *)
Lemma pick_argsort (l : list nat) (n : nat) :
  l ≡ₚ seq 0 n → pick l (argsort l) = seq 0 n.
Proof.
  intros Hp. assert (length l = n) as Hn by (by rewrite Hp, length_seq).
  unfold argsort. rewrite pick_keys.
  - apply (Sorted_unique le).
    + apply (Sorted_fmap _ key_le le); [by intros [??] [??]|].
      apply Sorted_merge_sort, _.
    + apply Sorted_le_seq.
    + rewrite merge_sort_Permutation, fst_zip by (by rewrite length_seq). done.
  - intros v i Hin. rewrite merge_sort_Permutation in Hin.
    apply list_elem_of_lookup in Hin as [j Hj].
    apply lookup_zip_Some in Hj as [Hv Hi].
    apply lookup_seq in Hi as [-> _]. done.
Qed.

Section ShuffleReset.
Context `{RandomState}.
Implicit Types st : ASSISTDataProvider.t.

Lemma tracks_lengths st inputs0 targets0 target_ids0 :
  tracks st inputs0 targets0 target_ids0 →
  let b := ASSISTDataProvider.base st in
  Forall (λ i, i < length inputs0)%nat (DataProvider._current_order b) ∧
  length (DataProvider._current_order b) = length inputs0 ∧
  length (DataProvider.inputs b) = length inputs0 ∧
  length (DataProvider.targets b) = length inputs0 ∧
  length (ASSISTDataProvider.target_ids (ASSISTDataProvider.own st)) = length inputs0.
Proof.
  intros (Ht & Hd & Hp & Hi & Htg & Hids). simpl.
  pose proof (perm_seq_bound _ _ Hp) as Hlt.
  assert (length (DataProvider._current_order (ASSISTDataProvider.base st))
          = length inputs0) as Hlen by (by rewrite Hp, length_seq).
  rewrite Hi, Htg, Hids.
  rewrite !length_pick by (by rewrite ?Ht, ?Hd). done.
Qed.

Lemma assist_shuffle_run st :
  let b := ASSISTDataProvider.base st in
  let a := ASSISTDataProvider.own st in
  length (DataProvider.targets b) = length (DataProvider.inputs b) →
  length (DataProvider._current_order b) = length (DataProvider.inputs b) →
  length (ASSISTDataProvider.target_ids a) = length (DataProvider.inputs b) →
  ∃ perm g,
    perm ≡ₚ seq 0 (length (DataProvider.inputs b)) ∧
    ASSISTDataProvider.shuffle st
    = (Ok (),
       ASSISTDataProvider.mk
         (DataProvider.mk (pick (DataProvider.inputs b) perm)
            (pick (DataProvider.targets b) perm)
            (DataProvider._batch_size b) (DataProvider._max_num_batches b)
            (DataProvider.num_batches b) (DataProvider.shuffle_order b)
            (pick (DataProvider._current_order b) perm) g
            (DataProvider._curr_batch b))
         (ASSISTDataProvider.set_target_ids
            (pick (ASSISTDataProvider.target_ids a) perm) a)).
Proof.
  intros b a Ht Ho Hd. unfold ASSISTDataProvider.shuffle. run. fold b a.
  pose proof (permutation_perm (DataProvider.rng b) (length (DataProvider.inputs b))) as Hp.
  destruct (permutation _ _) as [perm g]. simpl in Hp.
  exists perm, g. split; [done|].
  pose proof (perm_seq_bound _ _ Hp) as Hlt.
  unfold ASSISTDataProvider.inherited. run.
  rewrite !fancy_index_pick by (by rewrite ?Ht, ?Ho, ?Hd).
  subst b a. by destruct st as [[] ?].
Qed.

Lemma assist_shuffle_tracks st inputs0 targets0 target_ids0 :
  tracks st inputs0 targets0 target_ids0 →
  ∃ st1,
    ASSISTDataProvider.shuffle st = (Ok (), st1) ∧
    tracks st1 inputs0 targets0 target_ids0 ∧
    DataProvider.shuffle_order (ASSISTDataProvider.base st1)
      = DataProvider.shuffle_order (ASSISTDataProvider.base st) ∧
    DataProvider._curr_batch (ASSISTDataProvider.base st1)
      = DataProvider._curr_batch (ASSISTDataProvider.base st).
Proof.
  intros Htr. pose proof (tracks_lengths _ _ _ _ Htr) as (Hlt & Hlo & Hli & Hlt' & Hld).
  destruct Htr as (Ht & Hd & Hp & Hi & Htg & Hids).
  destruct (assist_shuffle_run st) as (perm & g & Hperm & Hrun); [congruence..|].
  rewrite Hli in Hperm. pose proof (perm_seq_bound _ _ Hperm) as Hpb.
  eexists. split; [exact Hrun|]. split; [|done].
  unfold tracks. simpl. rewrite Hi, Htg, Hids.
  rewrite !pick_pick by (by rewrite ?Ht, ?Hd, ?Hlo).
  repeat split; try done.
  rewrite pick_Permutation by (by rewrite Hlo). done.
Qed.

Lemma assist_new_epoch_tracks st inputs0 targets0 target_ids0 :
  tracks st inputs0 targets0 target_ids0 →
  ∃ st1,
    ASSISTDataProvider.new_epoch st = (Ok (), st1) ∧
    tracks st1 inputs0 targets0 target_ids0 ∧
    DataProvider._curr_batch (ASSISTDataProvider.base st1) = 0 ∧
    (DataProvider.shuffle_order (ASSISTDataProvider.base st) = false →
     st1 = ASSISTDataProvider.set_base
             (DataProvider.set__curr_batch 0 (ASSISTDataProvider.base st)) st).
Proof.
  intros Htr. unfold ASSISTDataProvider.new_epoch, ASSISTDataProvider.inherited. run.
  destruct (DataProvider.shuffle_order (ASSISTDataProvider.base st)) eqn:Hs.
  - destruct (assist_shuffle_tracks
                (ASSISTDataProvider.set_base
                   (DataProvider.set__curr_batch 0 (ASSISTDataProvider.base st)) st)
                inputs0 targets0 target_ids0 Htr) as (st1 & Hrun & Htr1 & _ & Hc).
    exists st1. split; [exact Hrun|]. split; [exact Htr1|]. split; [exact Hc|done].
  - eexists. split; [reflexivity|]. split; [exact Htr|]. split; [reflexivity|done].
Qed.

Lemma assist_reset_tracks st inputs0 targets0 target_ids0 :
  tracks st inputs0 targets0 target_ids0 →
  ∃ st1,
    ASSISTDataProvider.reset st = (Ok (), st1) ∧
    tracks st1 inputs0 targets0 target_ids0 ∧
    DataProvider._curr_batch (ASSISTDataProvider.base st1) = 0 ∧
    (DataProvider.shuffle_order (ASSISTDataProvider.base st) = false →
     DataProvider.inputs (ASSISTDataProvider.base st1) = inputs0 ∧
     DataProvider.targets (ASSISTDataProvider.base st1) = targets0 ∧
     ASSISTDataProvider.target_ids (ASSISTDataProvider.own st1) = target_ids0 ∧
     DataProvider._current_order (ASSISTDataProvider.base st1)
       = seq 0 (length inputs0)).
Proof.
  intros Htr. pose proof (tracks_lengths _ _ _ _ Htr) as (Hlt & Hlo & Hli & Hlt' & Hld).
  destruct Htr as (Ht & Hd & Hp & Hi & Htg & Hids).
  set (b := ASSISTDataProvider.base st) in *.
  set (a := ASSISTDataProvider.own st) in *.
  pose proof (argsort_Permutation (DataProvider._current_order b)) as Hinv.
  rewrite Hlo in Hinv. pose proof (perm_seq_bound _ _ Hinv) as Hib.
  pose proof (pick_argsort _ _ Hp) as Hsorted.
  set (restored :=
         ASSISTDataProvider.mk
           (DataProvider.mk inputs0 targets0
              (DataProvider._batch_size b) (DataProvider._max_num_batches b)
              (DataProvider.num_batches b) (DataProvider.shuffle_order b)
              (seq 0 (length inputs0)) (DataProvider.rng b)
              (DataProvider._curr_batch b))
           (ASSISTDataProvider.set_target_ids target_ids0 a)).
  assert (tracks restored inputs0 targets0 target_ids0) as Htr.
  { unfold tracks. simpl. split; [done|]. split; [done|]. split; [done|].
    split; [by rewrite pick_seq|].
    split; [by rewrite <- Ht, pick_seq|by rewrite <- Hd, pick_seq]. }
  destruct (assist_new_epoch_tracks restored _ _ _ Htr) as (st1 & Hrun & Htr1 & Hc & Hoff).
  exists st1. split.
  - unfold ASSISTDataProvider.reset, ASSISTDataProvider.inherited. run. fold b a.
    rewrite !fancy_index_pick by (by rewrite ?Hlo, ?Hli, ?Hlt', ?Hld).
    rewrite Hi, Htg, Hids.
    rewrite !pick_pick by (by rewrite ?Ht, ?Hd, ?Hlo).
    rewrite Hsorted.
    assert (pick targets0 (seq 0 (length inputs0)) = targets0) as ->
      by (by rewrite <- Ht, pick_seq).
    assert (pick target_ids0 (seq 0 (length inputs0)) = target_ids0) as ->
      by (by rewrite <- Hd, pick_seq).
    rewrite pick_seq, <- Hrun. f_equal.
  - split; [done|]. split; [done|]. intros Hs. by rewrite (Hoff Hs).
Qed.
End ShuffleReset.

(** C3, as the code has it.  A provider that holds the rows of its
    construction in the order [_current_order] records still does so after
    [shuffle()] and after the [reset()] that follows; both succeed.  With
    [shuffle_order] off, [reset()] leaves [inputs], [targets] and
    [target_ids] exactly in the order of construction, which is the state
    before the shuffle when the provider had not been shuffled before.  With
    [shuffle_order] on, [reset()] ends in [new_epoch], which draws a new
    permutation of the restored rows. *)
Theorem C3_shuffle_then_reset `{RandomState} (st : ASSISTDataProvider.t)
    (inputs0 : list (list scalar)) (targets0 : list (list Z))
    (target_ids0 : list (list scalar)) :
  tracks st inputs0 targets0 target_ids0 →
  ∃ st1 st2,
    ASSISTDataProvider.shuffle st = (Ok (), st1) ∧
    ASSISTDataProvider.reset st1 = (Ok (), st2) ∧
    tracks st2 inputs0 targets0 target_ids0 ∧
    (DataProvider.shuffle_order (ASSISTDataProvider.base st) = false →
     DataProvider.inputs (ASSISTDataProvider.base st2) = inputs0 ∧
     DataProvider.targets (ASSISTDataProvider.base st2) = targets0 ∧
     ASSISTDataProvider.target_ids (ASSISTDataProvider.own st2) = target_ids0 ∧
     DataProvider._current_order (ASSISTDataProvider.base st2)
       = seq 0 (length inputs0)) ∧
    (DataProvider.shuffle_order (ASSISTDataProvider.base st) = false →
     DataProvider._current_order (ASSISTDataProvider.base st)
       = seq 0 (length inputs0) →
     DataProvider.inputs (ASSISTDataProvider.base st2)
       = DataProvider.inputs (ASSISTDataProvider.base st) ∧
     DataProvider.targets (ASSISTDataProvider.base st2)
       = DataProvider.targets (ASSISTDataProvider.base st) ∧
     ASSISTDataProvider.target_ids (ASSISTDataProvider.own st2)
       = ASSISTDataProvider.target_ids (ASSISTDataProvider.own st)).
Proof.
  intros Htr.
  destruct (assist_shuffle_tracks st _ _ _ Htr) as (st1 & Hsh & Htr1 & Hso & _).
  destruct (assist_reset_tracks st1 _ _ _ Htr1) as (st2 & Hre & Htr2 & _ & Hoff).
  exists st1, st2. split; [done|]. split; [done|]. split; [done|].
  rewrite Hso in Hoff. split; [done|].
  intros Hs Hid. destruct (Hoff Hs) as (-> & -> & -> & _).
  destruct Htr as (Ht & Hd & _ & -> & -> & ->). rewrite Hid.
  rewrite pick_seq. rewrite <- Ht at 1. rewrite <- Hd. by rewrite !pick_seq.
Qed.

Lemma C3_witness :
  ∃ st1 st2,
    ASSISTDataProvider.shuffle Tiny.two_students = (Ok (), st1) ∧
    ASSISTDataProvider.reset st1 = (Ok (), st2) ∧
    tracks st2 Tiny.two_students_inputs Tiny.two_students_targets [[1; 1]; [1; 0]] ∧
    (false = false →
     DataProvider.inputs (ASSISTDataProvider.base st2) = Tiny.two_students_inputs ∧
     DataProvider.targets (ASSISTDataProvider.base st2) = Tiny.two_students_targets ∧
     ASSISTDataProvider.target_ids (ASSISTDataProvider.own st2) = [[1; 1]; [1; 0]] ∧
     DataProvider._current_order (ASSISTDataProvider.base st2) = seq 0 2) ∧
    (false = false → [0; 1]%nat = seq 0 2 →
     DataProvider.inputs (ASSISTDataProvider.base st2) = Tiny.two_students_inputs ∧
     DataProvider.targets (ASSISTDataProvider.base st2) = Tiny.two_students_targets ∧
     ASSISTDataProvider.target_ids (ASSISTDataProvider.own st2) = [[1; 1]; [1; 0]]).
Proof.
  apply (C3_shuffle_then_reset Tiny.two_students Tiny.two_students_inputs
           Tiny.two_students_targets [[1; 1]; [1; 0]]).
  unfold tracks. simpl. repeat split; reflexivity.
Defined.

(** C3 as stated fails when [shuffle_order] is on.  The provider built from
    four students holds them rotated by one place; after [shuffle()] and
    [reset()] it holds them rotated by three places, the draw [reset()] ends
    with: the rows are not back in the order they had before the shuffle. *)
Lemma C3_counterexample :
  let st := Tiny.four_students_shuffling in
  ASSISTDataProvider.super__init__ Tiny.four_students_attrs Tiny.four_students_inputs
    Tiny.four_students_targets 2 (-1) true None = Ok st ∧
  (ASSISTDataProvider.shuffle st).1 = Ok () ∧
  (ASSISTDataProvider.reset (ASSISTDataProvider.shuffle st).2).1 = Ok () ∧
  let st2 := (ASSISTDataProvider.reset (ASSISTDataProvider.shuffle st).2).2 in
  DataProvider.inputs (ASSISTDataProvider.base st)
  = [[0; 1; 0; 0; 0]; [0; 0; 1; 0; 0]; [0; 0; 0; 1; 0]; [1; 0; 0; 0; 0]] ∧
  DataProvider.inputs (ASSISTDataProvider.base st2)
  = [[0; 0; 0; 1; 0]; [1; 0; 0; 0; 0]; [0; 1; 0; 0; 0]; [0; 0; 1; 0; 0]] ∧
  DataProvider.inputs (ASSISTDataProvider.base st2)
  ≠ DataProvider.inputs (ASSISTDataProvider.base st).
Proof.
  cbv zeta. split; [reflexivity|]. split; [reflexivity|]. split; [reflexivity|].
  split; [reflexivity|].
  assert (DataProvider.inputs
            (ASSISTDataProvider.base
               (ASSISTDataProvider.reset
                  (ASSISTDataProvider.shuffle Tiny.four_students_shuffling).2).2)
          = [[0; 0; 0; 1; 0]; [1; 0; 0; 0; 0]; [0; 1; 0; 0; 0]; [0; 0; 1; 0; 0]])
    as Hfinal by reflexivity.
  split; [exact Hfinal|]. rewrite Hfinal. discriminate.
Qed.

(** ** Sequence truncation: the targets *)

Lemma py_slice_forward {A} (lo hi : nat) (l : list A) :
  (lo ≤ hi)%nat →
  py_slice (Z.of_nat lo) (Z.of_nat hi) l = take (hi - lo) (drop lo l).
Proof.
  intros Hle. unfold py_slice, slice_bound. repeat case_decide; try lia.
  destruct (decide (hi ≤ length l)%nat).
  - rewrite !Z.min_l by lia. f_equal; [lia|f_equal; lia].
  - destruct (decide (lo ≤ length l)%nat).
    + rewrite (Z.min_l (Z.of_nat lo)), Z.min_r by lia.
      rewrite Nat2Z.id, !take_ge; [done|rewrite length_drop; lia..].
    + rewrite !Z.min_r by lia. rewrite Z.sub_diag, Nat2Z.id. simpl.
      by rewrite (drop_ge l lo), take_nil by lia.
Qed.

Lemma for_in_append {X Y : Type} (f : X → Y) (l : list X) (acc : list Y) :
  ASSISTDataProvider.for_in l (λ x acc, Ok (acc ++ [f x])) acc = Ok (acc ++ (f <$> l)).
Proof.
  revert acc. induction l as [|x l IH]; intros acc; simpl.
  - by rewrite app_nil_r.
  - change (ASSISTDataProvider.for_in l (λ x acc, Ok (acc ++ [f x])) (acc ++ [f x])
            = Ok (acc ++ f x :: (f <$> l))).
    by rewrite IH, <- app_assoc.
Qed.

(** The number of slices of size [t] that cover [len] elements. *)
Lemma py_range_steps (len t : nat) :
  (0 < t)%nat →
  py_range 0 (Z.of_nat len) (Z.of_nat t)
  = Ok ((λ k : nat, Z.of_nat (k * t)) <$> seq 0 ((len + t - 1) `div` t)).
Proof.
  intros Ht. unfold py_range. repeat case_decide; try lia.
  - f_equal. replace (Z.to_nat ((Z.of_nat len - 0 - 1) `div` Z.of_nat t + 1))
      with ((len + t - 1) `div` t)%nat.
    + apply list_fmap_ext. intros _ k _. lia.
    + replace (len + t - 1)%nat with ((len - 1) + 1 * t)%nat by lia.
      rewrite Nat.div_add by lia.
      replace (Z.of_nat len - 0 - 1) with (Z.of_nat (len - 1)) by lia.
      rewrite <- Nat2Z.inj_div. lia.
  - assert (len = 0)%nat as -> by lia. simpl.
    by rewrite Nat.div_small by lia.
Qed.

Lemma slices_cover (len t : nat) :
  (0 < t)%nat →
  let n := ((len + t - 1) `div` t)%nat in
  (len ≤ n * t)%nat ∧ (0 < len → (n - 1) * t < len)%nat ∧ (n * t < len + t)%nat.
Proof.
  intros Ht n. subst n.
  pose proof (Nat.div_mod_eq (len + t - 1) t) as Heq.
  pose proof (Nat.mod_upper_bound (len + t - 1) t ltac:(lia)) as Hlt.
  split; [nia|]. split; [|nia]. intros Hpos.
  destruct ((len + t - 1) `div` t)%nat; nia.
Qed.

Lemma truncate_one_student (student : list Z) (t : nat) (acc : list (list Z)) :
  (0 < t)%nat →
  (starts ← py_range 0 (Z.of_nat (length student)) (Z.of_nat t);
   ASSISTDataProvider.for_in starts
     (λ i new_targets,
        Ok (new_targets ++ [py_slice i (i + Z.of_nat t) student])) acc)
  = Ok (acc ++ ((λ i, window t i student)
                  <$> seq 0 ((length student + t - 1) `div` t))).
Proof.
  intros Ht. rewrite py_range_steps by done. run.
  rewrite (for_in_append (λ i, py_slice i (i + Z.of_nat t) student)).
  do 2 f_equal. rewrite <- list_fmap_compose. apply list_fmap_ext.
  intros _ k _. simpl.
  replace (Z.of_nat (k * t) + Z.of_nat t) with (Z.of_nat (k * t + t)) by lia.
  rewrite py_slice_forward by lia. unfold window. f_equal. lia.
Qed.

Lemma truncate_targets_run (targets : list (list Z)) (t : nat) (acc : list (list Z)) :
  (0 < t)%nat →
  ASSISTDataProvider.for_in targets
    (λ student new_targets,
       starts ← py_range 0 (Z.of_nat (length student)) (Z.of_nat t);
       ASSISTDataProvider.for_in starts
         (λ i new_targets,
            Ok (new_targets ++ [py_slice i (i + Z.of_nat t) student]))
         new_targets)
    acc
  = Ok (acc ++ concat ((λ student, (λ i, window t i student)
                          <$> seq 0 ((length student + t - 1) `div` t))
                         <$> targets)).
Proof.
  intros Ht. revert acc. induction targets as [|student targets IH]; intros acc.
  - simpl. by rewrite app_nil_r.
  - cbn [ASSISTDataProvider.for_in]. rewrite truncate_one_student by done.
    run. rewrite IH. by rewrite <- app_assoc.
Qed.

Lemma student_slices (student : list Z) (t : nat) :
  (0 < t)%nat →
  let slices := (λ i, window t i student)
                  <$> seq 0 ((length student + t - 1) `div` t) in
  concat slices = student ∧
  slices = (λ i, window t i student) <$> seq 0 (length slices) ∧
  Forall (λ slice, 1 ≤ length slice ≤ t)%nat slices ∧
  ∀ j slice, slices !! j = Some slice → (S j < length slices)%nat →
             length slice = t.
Proof.
  intros Ht slices. subst slices.
  pose proof (slices_cover (length student) t Ht) as (Hcov & Hlast & Hup).
  simpl in Hcov, Hlast, Hup.
  set (n := ((length student + t - 1) `div` t)%nat) in *.
  rewrite length_fmap, length_seq.
  split; [by rewrite concat_windows, take_ge|]. split; [done|]. split.
  - apply Forall_fmap, Forall_forall. intros i Hi. apply elem_of_seq in Hi.
    simpl. unfold window. rewrite length_take, length_drop.
    assert (i * t ≤ (n - 1) * t)%nat by (apply Nat.mul_le_mono_r; lia).
    assert (0 < length student)%nat by (destruct (length student); [subst n|]; try lia;
      rewrite Nat.div_small in Hi; lia).
    lia.
  - intros j slice Hj Hlt. rewrite list_lookup_fmap in Hj.
    rewrite lookup_seq_lt in Hj by lia. simpl in Hj. injection Hj as <-.
    apply length_window.
    assert ((j + 1) * t ≤ (n - 1) * t)%nat by (apply Nat.mul_le_mono_r; lia).
    assert (0 < length student)%nat by (destruct (length student); [subst n|]; try lia;
      rewrite Nat.div_small in Hlt; lia).
    lia.
Qed.

(** C7.  For a threshold of at least one, [_truncate_targets] replaces each
    student's label sequence, in order, by its consecutive slices: put end to
    end they are the sequence itself, each has between one and [threshold]
    labels, and every one but the student's last has exactly [threshold].
    Nothing is padded: the last slice holds what remains. *)
Theorem C7_truncate_targets_slices (targets : list (list Z)) (threshold : Z) :
  1 ≤ threshold →
  ∃ per_student : list (list (list Z)),
    ASSISTDataProvider._truncate_targets targets threshold
    = Ok (concat per_student) ∧
    Forall2
      (λ student slices,
         concat slices = student ∧
         slices = (λ i, window (Z.to_nat threshold) i student)
                    <$> seq 0 (length slices) ∧
         Forall (λ slice, 1 ≤ Z.of_nat (length slice) ≤ threshold) slices ∧
         ∀ j slice, slices !! j = Some slice → (S j < length slices)%nat →
                    Z.of_nat (length slice) = threshold)
      targets per_student.
Proof.
  intros Hth. set (t := Z.to_nat threshold).
  assert (0 < t)%nat as Ht by lia.
  assert (threshold = Z.of_nat t) as Heq by lia.
  exists ((λ student, (λ i, window t i student)
                        <$> seq 0 ((length student + t - 1) `div` t)) <$> targets).
  split.
  - unfold ASSISTDataProvider._truncate_targets. rewrite Heq.
    by rewrite truncate_targets_run.
  - apply Forall2_fmap_r, Forall_Forall2_diag, Forall_forall. intros student _.
    destruct (student_slices student t Ht) as (Hcat & Hshape & Hlen & Hfull).
    split; [done|]. split; [done|]. split.
    + eapply Forall_impl; [exact Hlen|]. intros slice ?. simpl in *. lia.
    + intros j slice Hj Hlt. rewrite (Hfull j slice Hj Hlt). lia.
Qed.

Lemma C7_witness :
  ∃ per_student : list (list (list Z)),
    ASSISTDataProvider._truncate_targets [[1; 0; 1; 1; 0]; [1]; []] 2
    = Ok (concat per_student) ∧
    Forall2
      (λ student slices,
         concat slices = student ∧
         slices = (λ i, window (Z.to_nat 2) i student) <$> seq 0 (length slices) ∧
         Forall (λ slice, 1 ≤ Z.of_nat (length slice) ≤ 2) slices ∧
         ∀ j slice, slices !! j = Some slice → (S j < length slices)%nat →
                    Z.of_nat (length slice) = 2)
      [[1; 0; 1; 1; 0]; [1]; []] per_student.
Proof. apply (C7_truncate_targets_slices [[1; 0; 1; 1; 0]; [1]; []] 2). lia. Defined.

Example truncate_targets_of_five_by_two :
  ASSISTDataProvider._truncate_targets [[1; 0; 1; 1; 0]; [1]; []] 2
  = Ok [[1; 0]; [1; 1]; [0]; [1]].
Proof. reflexivity. Qed.

(** ** Sequence truncation: inputs and identifiers *)

Section Chunks.
Context {A : Type}.
Implicit Types (l : list A) (ll : list (list A)).

Lemma chunks_concat (sz : nat) ll :
  Forall (λ row, length row = sz) ll → chunks sz (length ll) (concat ll) = ll.
Proof.
  induction 1 as [|row ll Hrow _ IH]; [done|].
  simpl. rewrite take_app_length', drop_app_length' by done. by rewrite IH.
Qed.

Lemma chunks_app (sz a b : nat) l1 l2 :
  length l1 = (a * sz)%nat →
  chunks sz (a + b) (l1 ++ l2) = chunks sz a l1 ++ chunks sz b l2.
Proof.
  revert l1. induction a as [|a IH]; intros l1 Hlen.
  - destruct l1; [done|simpl in Hlen; lia].
  - simpl. rewrite take_app_le, drop_app_le by lia.
    rewrite IH by (rewrite length_drop; lia). done.
Qed.

Lemma chunks_windows (sz cnt : nat) l :
  chunks sz cnt l = (λ k, window sz k l) <$> seq 0 cnt.
Proof.
  revert l. induction cnt as [|cnt IH]; intros l; [done|].
  simpl. rewrite IH. unfold window at 2. simpl. rewrite drop_0. f_equal.
  rewrite <- fmap_S_seq, <- list_fmap_compose. apply list_fmap_ext.
  intros _ k _. simpl. unfold window. by rewrite drop_drop.
Qed.

Lemma length_chunks (sz cnt : nat) l : length (chunks sz cnt l) = cnt.
Proof. revert l. induction cnt as [|cnt IH]; intros l; simpl; [done|by rewrite IH]. Qed.

Lemma chunks_widths (sz cnt : nat) l :
  length l = (cnt * sz)%nat → Forall (λ row, length row = sz) (chunks sz cnt l).
Proof.
  revert l. induction cnt as [|cnt IH]; intros l Hlen; simpl; [done|].
  constructor; [rewrite length_take; lia|].
  apply IH. rewrite length_drop. lia.
Qed.

Lemma concat_chunks (sz cnt : nat) l :
  length l = (cnt * sz)%nat → concat (chunks sz cnt l) = l.
Proof.
  intros Hlen. rewrite chunks_windows, concat_windows. apply take_ge. lia.
Qed.
End Chunks.

Lemma take_concat_uniform {A} (w n : nat) (ll : list (list A)) :
  Forall (λ row, length row = w) ll →
  take (n * w) (concat ll) = concat (take n ll).
Proof.
  intros Hall. revert n. induction Hall as [|row ll Hrow _ IH]; intros n.
  - simpl. by rewrite !take_nil.
  - destruct n as [|n]; [done|]. simpl.
    rewrite take_app_add' by done. by rewrite IH.
Qed.

Lemma drop_concat_uniform {A} (w n : nat) (ll : list (list A)) :
  Forall (λ row, length row = w) ll →
  drop (n * w) (concat ll) = concat (drop n ll).
Proof.
  intros Hall. revert n. induction Hall as [|row ll Hrow _ IH]; intros n.
  - simpl. by rewrite !drop_nil.
  - destruct n as [|n]; [done|]. simpl.
    rewrite drop_app_add' by done. by rewrite IH.
Qed.

(** Regrouping a flat buffer of rows of width [w] in blocks of [t] rows. *)
Lemma chunks_of_rows {A} (w t cnt : nat) (rows : list (list A)) :
  Forall (λ row, length row = w) rows →
  length rows = (cnt * t)%nat →
  chunks w t <$> chunks (t * w) cnt (concat rows) = chunks t cnt rows.
Proof.
  intros Hall. revert rows Hall. induction cnt as [|cnt IH]; intros rows Hall Hlen; [done|].
  simpl. rewrite take_concat_uniform, drop_concat_uniform by done.
  rewrite IH; [|by apply Forall_drop|rewrite length_drop; lia].
  f_equal. rewrite <- (chunks_concat w (take t rows)) at 2 by (by apply Forall_take).
  f_equal. rewrite length_take. lia.
Qed.

Lemma chunks_of_blocks {A} (t q : nat) (blocks : list (list A)) :
  Forall (λ blk, length blk = (q * t)%nat) blocks →
  chunks t (length blocks * q) (concat blocks) = concat (chunks t q <$> blocks).
Proof.
  induction 1 as [|blk blocks Hblk _ IH]; [done|].
  simpl. rewrite chunks_app by done. by rewrite IH.
Qed.

Lemma length_filter_mask {A} (P : A → bool) (l : list A) :
  length (filter (λ m, m = true) (P <$> l)) = length (filter (λ x, P x = true) l).
Proof.
  induction l as [|x l IH]; [done|].
  rewrite fmap_cons, !filter_cons. destruct (P x) eqn:HP.
  - rewrite decide_True by done. simpl. f_equal. exact IH.
  - rewrite decide_False by done. exact IH.
Qed.

Section TruncateRows.
Context `{RandomState}.
Implicit Types (self : ASSISTDataProvider.attrs) (x m : list (list scalar)).

Lemma padded_answers_shape self (final_dim t : nat) (row : list scalar) :
  (0 < t)%nat →
  length row = (ASSISTDataProvider.max_num_ans self * final_dim)%nat →
  let mna := ASSISTDataProvider.max_num_ans self in
  let blk := ASSISTDataProvider.pad_answers (t - mna `mod` t) final_dim
               (chunks final_dim mna row) in
  length blk = ((mna `div` t + 1) * t)%nat ∧
  Forall (λ answer, length answer = final_dim) blk.
Proof.
  intros Ht Hrow mna blk. subst blk. unfold ASSISTDataProvider.pad_answers.
  pose proof (Nat.div_mod_eq mna t) as Heq.
  pose proof (Nat.mod_upper_bound mna t ltac:(lia)) as Hlt.
  split.
  - rewrite length_app, length_chunks, length_replicate. nia.
  - apply Forall_app. split; [by apply chunks_widths|].
    apply Forall_replicate, length_replicate.
Qed.

Lemma truncate_step_run self (final_dim t : nat) x :
  (0 < t)%nat → (0 < final_dim)%nat →
  Forall (λ row, length row = (ASSISTDataProvider.max_num_ans self * final_dim)%nat) x →
  let kept := retained_rows (ASSISTDataProvider.max_num_ans self) final_dim t x in
  ASSISTDataProvider.truncate_step self final_dim (Z.of_nat t) x
  = if decide (kept = []) then Raise ValueError else Ok kept.
Proof.
  intros Ht Hfd Hrect kept. subst kept.
  set (mna := ASSISTDataProvider.max_num_ans self) in *.
  set (q := (mna `div` t + 1)%nat).
  unfold ASSISTDataProvider.truncate_step. fold mna.
  rewrite decide_True by done.
  unfold py_mod. rewrite decide_False by lia. run.
  rewrite decide_False by (pose proof (Z.mod_pos_bound (Z.of_nat mna) (Z.of_nat t)); lia).
  replace (Z.to_nat (Z.of_nat t - Z.of_nat mna `mod` Z.of_nat t))
    with (t - mna `mod` t)%nat by (rewrite <- Nat2Z.inj_mod; lia).
  rewrite Nat2Z.id.
  set (x3 := ASSISTDataProvider.pad_answers (t - mna `mod` t) final_dim
               <$> (chunks final_dim mna <$> x)).
  assert (Forall (λ blk, length blk = (q * t)%nat
                         ∧ Forall (λ answer, length answer = final_dim) blk) x3) as Hx3.
  { subst x3. rewrite <- list_fmap_compose. apply Forall_fmap.
    eapply Forall_impl; [exact Hrect|]. intros row Hrow. simpl.
    by apply padded_answers_shape. }
  assert (length x3 = length x) as Hlen3 by (subst x3; by rewrite !length_fmap).
  assert (Forall (λ answer, length answer = final_dim) (concat x3)) as Hw.
  { apply Forall_concat. eapply Forall_impl; [exact Hx3|]. by intros blk [_ ?]. }
  assert (length (concat x3) = (length x * q * t)%nat) as Hrows.
  { rewrite (length_concat_uniform (q * t)).
    - rewrite Hlen3. lia.
    - eapply Forall_impl; [exact Hx3|]. by intros blk [? _]. }
  assert (length (concat (concat x3)) = (length x * q * (t * final_dim))%nat) as Hflat.
  { rewrite (length_concat_uniform final_dim) by done. rewrite Hrows. lia. }
  unfold ASSISTDataProvider.reshape_blocks. rewrite Hflat.
  rewrite decide_False by (rewrite Nat.Div0.mod_mul; nia).
  rewrite Nat.div_mul by nia. run.
  rewrite chunks_of_rows by (done || lia).
  rewrite <- Hlen3.
  rewrite chunks_of_blocks by (eapply Forall_impl; [exact Hx3|]; by intros blk [? _]).
  assert (concat (chunks t q <$> x3) = concat (sub_blocks mna final_dim t <$> x)) as ->.
  { f_equal. subst x3. rewrite <- !list_fmap_compose. apply list_fmap_ext.
    intros _ row _. simpl. by rewrite chunks_windows. }
  rewrite length_filter_mask. unfold retained_rows.
  set (kept := filter _ _).
  by destruct kept as [|blk kept].
Qed.

Lemma retained_rows_app (mna final_dim t : nat) m1 m2 :
  retained_rows mna final_dim t (m1 ++ m2)
  = retained_rows mna final_dim t m1 ++ retained_rows mna final_dim t m2.
Proof. unfold retained_rows. by rewrite fmap_app, concat_app, filter_app, fmap_app. Qed.

Lemma retained_rows_concat (mna final_dim t : nat) (runs : list (list (list scalar))) :
  concat (retained_rows mna final_dim t <$> runs)
  = retained_rows mna final_dim t (concat runs).
Proof.
  induction runs as [|run runs IH]; [done|].
  simpl. rewrite retained_rows_app. f_equal. exact IH.
Qed.

Lemma for_in_collect {X Y : Type} (f : X → result Y) (g : X → Y) (l : list X)
    (acc : list Y) :
  Forall (λ e, f e = Ok (g e)) l →
  ASSISTDataProvider.for_in l (λ e acc, y ← f e; Ok (acc ++ [y])) acc
  = Ok (acc ++ (g <$> l)).
Proof.
  intros Hall. revert acc. induction Hall as [|e l Hx _ IH]; intros acc.
  - simpl. by rewrite app_nil_r.
  - cbn [ASSISTDataProvider.for_in]. rewrite Hx. run.
    rewrite IH. by rewrite <- app_assoc.
Qed.

Lemma truncate_inputs_or_ids_run self (final_dim t : nat) m :
  (0 < t)%nat → (0 < final_dim)%nat → m ≠ [] →
  Forall (λ row, length row = (ASSISTDataProvider.max_num_ans self * final_dim)%nat) m →
  every_run_retains (ASSISTDataProvider.max_num_ans self) final_dim t m →
  ASSISTDataProvider._truncate_inputs_or_ids self m final_dim (Z.of_nat t)
  = Ok (retained_rows (ASSISTDataProvider.max_num_ans self) final_dim t m).
Proof.
  intros Ht Hfd Hne Hrect Hruns.
  set (mna := ASSISTDataProvider.max_num_ans self) in *.
  unfold ASSISTDataProvider._truncate_inputs_or_ids.
  change (py_range 0 (Z.of_nat (length m)) 1000)
    with (py_range 0 (Z.of_nat (length m)) (Z.of_nat 1000)).
  rewrite (py_range_steps (length m) 1000) by lia.
  pose proof (slices_cover (length m) 1000 ltac:(lia)) as (Hcov & Hlast & Hup).
  cbv zeta in Hcov, Hlast, Hup.
  set (nb := ((length m + 1000 - 1) `div` 1000)%nat) in *. clearbody nb. run.
  assert (0 < length m)%nat as Hpos by (destruct m; [done|simpl; lia]).
  rewrite (for_in_collect
             (λ i, ASSISTDataProvider.truncate_step self final_dim (Z.of_nat t)
                     (py_slice i (i + 1000) m))
             (λ i, retained_rows mna final_dim t (py_slice i (i + 1000) m))).
  - rewrite app_nil_l, <- list_fmap_compose.
    assert (((λ i, retained_rows mna final_dim t (py_slice i (i + 1000) m))
               ∘ (λ k : nat, Z.of_nat (k * 1000))) <$> seq 0 nb
            = retained_rows mna final_dim t <$> ((λ k, window 1000 k m) <$> seq 0 nb)) as ->.
    { rewrite <- list_fmap_compose. apply list_fmap_ext. intros _ k _. simpl.
      replace (Z.of_nat (k * 1000) + 1000) with (Z.of_nat (k * 1000 + 1000)) by lia.
      rewrite py_slice_forward by lia. unfold window. do 2 f_equal. lia. }
    unfold ASSISTDataProvider.sp_vstack.
    destruct nb as [|nb'] eqn:Hnb; [lia|]. rewrite <- Hnb.
    assert (∀ l : list (list (list scalar)), l ≠ [] →
              match l with [] => Raise ValueError | _ :: _ => Ok (concat l) end
              = Ok (concat l)) as Hmatch by (by intros [|??]).
    rewrite Hmatch by (rewrite Hnb; done).
    rewrite retained_rows_concat, concat_windows, take_ge by lia. done.
  - apply Forall_fmap, Forall_forall. intros k Hk. apply elem_of_seq in Hk. simpl.
    replace (Z.of_nat (k * 1000) + 1000) with (Z.of_nat (k * 1000 + 1000)) by lia.
    rewrite py_slice_forward by lia.
    replace (k * 1000 + 1000 - k * 1000)%nat with 1000%nat by lia.
    fold (window 1000 k m).
    rewrite truncate_step_run; [|done|done|by apply Forall_take, Forall_drop].
    fold mna. rewrite decide_False; [done|].
    apply Hruns.
    assert (k * 1000 ≤ (nb - 1) * 1000)%nat by (apply Nat.mul_le_mono_r; lia).
    lia.
Qed.
End TruncateRows.

Lemma truncate_sequences_run `{Numeric}
    (self : ASSISTDataProvider.attrs) (inputs target_ids : list (list scalar))
    (targets : list (list Z)) (threshold : Z) :
  let mna := ASSISTDataProvider.max_num_ans self in
  let ed := ASSISTDataProvider.encoding_dim self in
  let mpsi := ASSISTDataProvider.max_prob_set_id self in
  let effective := Z.min (Z.of_nat mna) threshold in
  let t := Z.to_nat effective in
  1 ≤ threshold → (1 ≤ mna)%nat → (1 ≤ ed)%nat → (1 ≤ mpsi)%nat →
  inputs ≠ [] → target_ids ≠ [] →
  Forall (λ row, length row = (mna * ed)%nat) inputs →
  Forall (λ row, length row = (mna * mpsi)%nat) target_ids →
  every_run_retains mna ed t inputs →
  every_run_retains mna mpsi t target_ids →
  let targets' := concat ((λ student, (λ i, window t i student)
                             <$> seq 0 ((length student + t - 1) `div` t))
                            <$> targets) in
  ASSISTDataProvider._truncate_targets targets effective = Ok targets' ∧
  ASSISTDataProvider.truncate_sequences self inputs target_ids targets threshold
  = Ok (retained_rows mna ed t inputs, retained_rows mna mpsi t target_ids,
        targets', effective).
Proof.
  intros mna ed mpsi effective t Hth Hmna Hed Hmpsi Hi Hd Hri Hrd Hruni Hrund targets'.
  assert (effective = Z.of_nat t) as Heq by (subst t effective; lia).
  assert (0 < t)%nat as Hpos by (subst t effective; lia).
  pose proof (truncate_targets_run targets t [] Hpos) as Htargets.
  rewrite <- Heq in Htargets. fold (ASSISTDataProvider._truncate_targets targets effective)
    in Htargets.
  split; [exact Htargets|].
  unfold ASSISTDataProvider.truncate_sequences. fold mna ed mpsi effective.
  rewrite Htargets.
  replace (ASSISTDataProvider._truncate_inputs_or_ids self inputs ed effective)
    with (ASSISTDataProvider._truncate_inputs_or_ids self inputs ed (Z.of_nat t))
    by (by rewrite <- Heq).
  replace (ASSISTDataProvider._truncate_inputs_or_ids self target_ids mpsi effective)
    with (ASSISTDataProvider._truncate_inputs_or_ids self target_ids mpsi (Z.of_nat t))
    by (by rewrite <- Heq).
  rewrite !truncate_inputs_or_ids_run by (done || lia).
  done.
Qed.

(** C5.  [truncate_sequences] works with the threshold
    [min(max_num_ans, threshold)], and is written to keep, of the sub-blocks
    of the students, those with an entry that is not zero.  It does so in
    runs of 1000 rows, and misses the run in which no sub-block is kept:
    there the last reshape, to [(0, -1)], raises [ValueError].  On a thousand
    students of one answer each followed by one student without any answer,
    at the threshold 1, a thousand sub-blocks have an entry that is not zero
    (in [inputs] and in [target_ids]), and [truncate_sequences] raises
    [ValueError] instead of returning them; on the first thousand students
    alone it returns the thousand rows, and on the last student alone it
    raises too. *)
Theorem C5_truncate_sequences_raises_on_a_run_of_empty_students :
  let self := Tiny.thousand_and_one_attrs in
  Z.min (Z.of_nat (ASSISTDataProvider.max_num_ans self)) 1 = 1 ∧
  retained_rows (H := Tiny.numeric) 1 3 1 Tiny.thousand_and_one_inputs
  = replicate 1000 [0; 1; 0] ∧
  retained_rows (H := Tiny.numeric) 1 1 1 Tiny.thousand_and_one_target_ids
  = replicate 1000 [1] ∧
  ASSISTDataProvider.truncate_sequences self Tiny.thousand_and_one_inputs
    Tiny.thousand_and_one_target_ids Tiny.thousand_and_one_targets 1
  = Raise ValueError ∧
  ASSISTDataProvider.truncate_sequences self (take 1000 Tiny.thousand_and_one_inputs)
    (take 1000 Tiny.thousand_and_one_target_ids)
    (take 1000 Tiny.thousand_and_one_targets) 1
  = Ok (replicate 1000 [0; 1; 0], replicate 1000 [1], replicate 1000 [1], 1) ∧
  ASSISTDataProvider.truncate_sequences self (drop 1000 Tiny.thousand_and_one_inputs)
    (drop 1000 Tiny.thousand_and_one_target_ids)
    (drop 1000 Tiny.thousand_and_one_targets) 1
  = Raise ValueError.
Proof. repeat split; vm_compute; reflexivity. Qed.

Example truncate_two_students_by_one :
  ASSISTDataProvider.truncate_sequences Tiny.two_students_attrs
    Tiny.two_students_inputs [[1; 1]; [1; 0]] Tiny.two_students_targets 1
  = Ok ([[0; 1; 0]; [0; 0; 1]; [1; 0; 0]], [[1]; [1]; [1]], [[1]; [0]; [1]], 1).
Proof. reflexivity. Qed.

(** ** Row alignment *)

Lemma length_py_slice_eq {A B} (lo hi : Z) (l1 : list A) (l2 : list B) :
  length l1 = length l2 → length (py_slice lo hi l1) = length (py_slice lo hi l2).
Proof.
  intros Hlen. unfold py_slice. rewrite !length_take, !length_drop. by rewrite Hlen.
Qed.

Section Alignment.
Context `{RandomState}.
Implicit Types st : ASSISTDataProvider.t.

Lemma shuffle_aligned st :
  provider_aligned st →
  ∃ perm st1,
    ASSISTDataProvider.shuffle st = (Ok (), st1) ∧
    perm ≡ₚ seq 0 (length (DataProvider.inputs (ASSISTDataProvider.base st))) ∧
    DataProvider.inputs (ASSISTDataProvider.base st1)
      = pick (DataProvider.inputs (ASSISTDataProvider.base st)) perm ∧
    DataProvider.targets (ASSISTDataProvider.base st1)
      = pick (DataProvider.targets (ASSISTDataProvider.base st)) perm ∧
    ASSISTDataProvider.target_ids (ASSISTDataProvider.own st1)
      = pick (ASSISTDataProvider.target_ids (ASSISTDataProvider.own st)) perm ∧
    DataProvider.shuffle_order (ASSISTDataProvider.base st1)
      = DataProvider.shuffle_order (ASSISTDataProvider.base st) ∧
    provider_aligned st1.
Proof.
  intros [[Hit Htd] Ho].
  destruct (assist_shuffle_run st) as (perm & g & Hperm & Hrun); [congruence..|].
  exists perm. eexists. split; [exact Hrun|]. split; [done|]. simpl.
  do 4 (split; [done|]).
  pose proof (perm_seq_bound _ _ Hperm) as Hb.
  unfold provider_aligned, rows_aligned. simpl.
  rewrite !length_pick; [done|by rewrite ?Ho, <- ?Htd, <- ?Hit..].
Qed.

Lemma new_epoch_aligned st :
  provider_aligned st →
  ∃ idx st1,
    ASSISTDataProvider.new_epoch st = (Ok (), st1) ∧
    idx ≡ₚ seq 0 (length (DataProvider.inputs (ASSISTDataProvider.base st))) ∧
    holds_rows st1 (DataProvider.inputs (ASSISTDataProvider.base st))
      (DataProvider.targets (ASSISTDataProvider.base st))
      (ASSISTDataProvider.target_ids (ASSISTDataProvider.own st)) idx ∧
    provider_aligned st1 ∧
    length (DataProvider.inputs (ASSISTDataProvider.base st1))
      = length (DataProvider.inputs (ASSISTDataProvider.base st)).
Proof.
  intros Hal. unfold ASSISTDataProvider.new_epoch, ASSISTDataProvider.inherited. run.
  destruct (DataProvider.shuffle_order (ASSISTDataProvider.base st)) eqn:Hs.
  - destruct (shuffle_aligned
                (ASSISTDataProvider.set_base
                   (DataProvider.set__curr_batch 0 (ASSISTDataProvider.base st)) st) Hal)
      as (perm & st1 & Hrun & Hperm & Hi & Ht & Hd & _ & Hal1).
    exists perm, st1. split; [exact Hrun|]. split; [exact Hperm|].
    split; [by repeat split|]. split; [done|].
    rewrite Hi, length_pick by (by apply perm_seq_bound).
    rewrite Hperm, length_seq. done.
  - exists (seq 0 (length (DataProvider.inputs (ASSISTDataProvider.base st)))).
    eexists. split; [reflexivity|]. split; [done|].
    destruct Hal as [[Hit Htd] Ho]. split; [|by repeat split].
    unfold holds_rows. simpl. rewrite pick_seq.
    split; [done|]. rewrite Hit, pick_seq. split; [done|]. by rewrite Htd, pick_seq.
Qed.

Lemma reset_aligned st :
  provider_aligned st →
  ∃ idx st1,
    ASSISTDataProvider.reset st = (Ok (), st1) ∧
    idx ≡ₚ seq 0 (length (DataProvider.inputs (ASSISTDataProvider.base st))) ∧
    holds_rows st1 (DataProvider.inputs (ASSISTDataProvider.base st))
      (DataProvider.targets (ASSISTDataProvider.base st))
      (ASSISTDataProvider.target_ids (ASSISTDataProvider.own st)) idx ∧
    provider_aligned st1 ∧
    length (DataProvider.inputs (ASSISTDataProvider.base st1))
      = length (DataProvider.inputs (ASSISTDataProvider.base st)).
Proof.
  intros [[Hit Htd] Ho].
  set (b := ASSISTDataProvider.base st) in *.
  set (a := ASSISTDataProvider.own st) in *.
  set (inv_perm := argsort (DataProvider._current_order b)).
  pose proof (argsort_Permutation (DataProvider._current_order b)) as Hinv.
  fold inv_perm in Hinv. pose proof (perm_seq_bound _ _ Hinv) as Hb.
  assert (length inv_perm = length (DataProvider.inputs b)) as Hlen
    by (by rewrite Hinv, length_seq).
  set (restored :=
         ASSISTDataProvider.mk
           (DataProvider.mk (pick (DataProvider.inputs b) inv_perm)
              (pick (DataProvider.targets b) inv_perm)
              (DataProvider._batch_size b) (DataProvider._max_num_batches b)
              (DataProvider.num_batches b) (DataProvider.shuffle_order b)
              (pick (DataProvider._current_order b) inv_perm) (DataProvider.rng b)
              (DataProvider._curr_batch b))
           (ASSISTDataProvider.set_target_ids
              (pick (ASSISTDataProvider.target_ids a) inv_perm) a)).
  assert (provider_aligned restored) as Hal.
  { unfold provider_aligned, rows_aligned. simpl.
    rewrite !length_pick; [done|by rewrite ?Ho, <- ?Htd, <- ?Hit in *..]. }
  destruct (new_epoch_aligned restored Hal)
    as (idx & st1 & Hrun & Hidx & (Hi & Ht & Hd) & Hal1 & Hl1).
  simpl in Hidx, Hi, Ht, Hd, Hl1.
  rewrite length_pick in Hidx, Hl1 by (by rewrite Ho in Hb).
  pose proof (perm_seq_bound _ _ Hidx) as Hbound.
  exists (pick inv_perm idx), st1. split; [|split; [|split; [|split; [done|]]]].
  - unfold ASSISTDataProvider.reset, ASSISTDataProvider.inherited. run.
    fold b a inv_perm.
    rewrite !fancy_index_pick by (by rewrite ?Ho, <- ?Htd, <- ?Hit in * ).
    rewrite <- Hrun. f_equal.
  - rewrite (pick_Permutation inv_perm idx Hidx). by rewrite Hinv, Ho.
  - assert (Forall (λ i, i < length (DataProvider.inputs b))%nat inv_perm) as Hbi
      by (by rewrite <- Ho).
    unfold holds_rows. fold b a. rewrite Hi, Ht, Hd.
    by rewrite !pick_pick
      by first [done | by rewrite <- Hit | by rewrite <- Htd, <- Hit].
  - by rewrite Hl1, Hlen.
Qed.

Lemma reduce_data_run (self : ASSISTDataProvider.attrs)
    (inputs : list (list scalar)) (targets : list (list Z)) (fraction : number) :
  ASSISTDataProvider.reduce_data self inputs targets fraction
  = match ASSISTDataProvider.int_of_product (Z.of_nat (length inputs)) fraction with
    | Ok num_data =>
        Ok (py_slice_to num_data inputs, py_slice_to num_data targets,
            ASSISTDataProvider.set_target_ids
              (py_slice_to num_data (ASSISTDataProvider.target_ids self)) self)
    | Raise e => Raise e
    end.
Proof.
  unfold ASSISTDataProvider.reduce_data.
  by destruct (ASSISTDataProvider.int_of_product _ _).
Qed.

(** The product is the one of Python's floats, not of the rationals:
    [int(100 * 0.29)] is 28 and [int(10 * 0.7)] is 7. *)
Example int_of_product_rounds_as_doubles :
  ASSISTDataProvider.int_of_product 100 (PyFloat (S754_finite false 5224175567749775 (-54)))
  = Ok 28 ∧
  ASSISTDataProvider.int_of_product 10 (PyFloat (S754_finite false 6305039478318694 (-53)))
  = Ok 7 ∧
  ASSISTDataProvider.int_of_product 7 (PyInt 1) = Ok 7 ∧
  ASSISTDataProvider.int_of_product 7 (PyFloat S754_nan) = Raise ValueError ∧
  ASSISTDataProvider.int_of_product 7 (PyFloat (S754_infinity false)) = Raise OverflowError.
Proof. repeat split; reflexivity. Qed.

Lemma reduce_data_aligned (self : ASSISTDataProvider.attrs)
    (inputs : list (list scalar)) (targets : list (list Z)) (num_data : Z) :
  rows_aligned inputs targets (ASSISTDataProvider.target_ids self) →
  rows_aligned (py_slice_to num_data inputs) (py_slice_to num_data targets)
    (py_slice_to num_data (ASSISTDataProvider.target_ids self)).
Proof.
  intros [Hit Htd].
  unfold rows_aligned, py_slice_to. split; by apply length_py_slice_eq.
Qed.

Lemma fold_bundles_aligned st (train_index val_index : list nat) (threshold : option Z) :
  provider_aligned st →
  ASSISTDataProvider.is_truthy threshold = false →
  Forall (λ i, i < length (DataProvider.inputs (ASSISTDataProvider.base st)))%nat
    train_index →
  Forall (λ i, i < length (DataProvider.inputs (ASSISTDataProvider.base st)))%nat
    val_index →
  let b := ASSISTDataProvider.base st in
  let a := ASSISTDataProvider.own st in
  let rows_of (idx : list nat) :=
    ASSISTDataProvider.mk_bundle (pick (DataProvider.inputs b) idx)
      (pick (DataProvider.targets b) idx)
      (pick (ASSISTDataProvider.target_ids a) idx)
      (Z.to_nat (Z.of_nat (ASSISTDataProvider.max_num_ans a)))
      (ASSISTDataProvider.max_prob_set_id a) (ASSISTDataProvider.encoding_dim a) in
  ASSISTDataProvider.fold_bundles st (train_index, val_index) threshold
  = Ok (rows_of train_index, rows_of val_index,
        Z.of_nat (ASSISTDataProvider.max_num_ans a)) ∧
  rows_aligned (pick (DataProvider.inputs b) train_index)
    (pick (DataProvider.targets b) train_index)
    (pick (ASSISTDataProvider.target_ids a) train_index) ∧
  rows_aligned (pick (DataProvider.inputs b) val_index)
    (pick (DataProvider.targets b) val_index)
    (pick (ASSISTDataProvider.target_ids a) val_index).
Proof.
  intros [[Hit Htd] Ho] Hth Htrain Hval b a rows_of. fold b a in Hit, Htd, Htrain, Hval.
  split.
  - unfold ASSISTDataProvider.fold_bundles. fold b a.
    rewrite !fancy_index_pick by (by rewrite <- ?Htd, <- ?Hit).
    run. by rewrite Hth.
  - unfold rows_aligned.
    rewrite !length_pick by (by rewrite <- ?Htd, <- ?Hit). done.
Qed.
End Alignment.

Lemma filter_fmap_seq_prefix {A} (P : A → Prop) `{∀ x, Decision (P x)}
    (f : nat → A) (n q : nat) :
  (∀ k, (k < q)%nat → P (f k) ↔ (k < n)%nat) →
  filter P (f <$> seq 0 q) = f <$> seq 0 (n `min` q).
Proof.
  induction q as [|q IH]; intros HP.
  - by rewrite Nat.min_0_r.
  - rewrite seq_S, fmap_app, filter_app, IH by (intros k Hk; apply HP; lia).
    simpl. destruct (decide (q < n)%nat) as [Hlt|Hge].
    + rewrite filter_cons_True by (apply HP; lia).
      rewrite filter_nil. replace (n `min` q)%nat with q by lia.
      replace (n `min` S q)%nat with (S q) by lia.
      by rewrite seq_S, fmap_app.
    + rewrite filter_cons_False by (rewrite HP; lia).
      rewrite filter_nil, app_nil_r. f_equal. f_equal. lia.
Qed.

Section Padding.
Context `{Numeric}.
Hypothesis nonzero_zero : nonzero zero = false.

Lemma existsb_nonzero_zeros (n : nat) : existsb nonzero (replicate n zero) = false.
Proof. induction n as [|n IH]; [done|]. simpl. by rewrite nonzero_zero, IH. Qed.

Lemma existsb_lookup {A} (f : A → bool) (l : list A) :
  existsb f l = true ↔ ∃ i x, l !! i = Some x ∧ f x = true.
Proof.
  rewrite existsb_exists. split.
  - intros (x & Hin & Hf). apply list_elem_of_In, list_elem_of_lookup in Hin as [i Hi].
    by exists i, x.
  - intros (i & x & Hi & Hf). exists x. split; [|done].
    apply list_elem_of_In, list_elem_of_lookup. by exists i.
Qed.

Lemma sub_block_nonzero (mna final_dim t count k : nat) (row : list scalar) :
  (0 < t)%nat →
  answers_marked mna final_dim count row →
  let padded := chunks final_dim mna row
                  ++ replicate (t - mna `mod` t) (replicate final_dim zero) in
  any_nonzero (window t k padded) = true ↔ (k * t < count)%nat.
Proof.
  intros Ht [Hle Hmark] padded. unfold any_nonzero, window.
  rewrite existsb_lookup. split.
  - intros (i & answer & Hi & Hnz).
    apply lookup_take_Some in Hi as [Hi Hit]. rewrite lookup_drop in Hi.
    destruct (decide (k * t + i < mna)%nat) as [Hin|Hout].
    + subst padded. rewrite lookup_app_l in Hi by (by rewrite length_chunks).
      rewrite chunks_windows, list_lookup_fmap, lookup_seq_lt in Hi by done.
      simpl in Hi. injection Hi as <-. apply Hmark in Hnz; lia.
    + subst padded. rewrite lookup_app_r in Hi by (rewrite length_chunks; lia).
      apply lookup_replicate in Hi as [-> _].
      by rewrite existsb_nonzero_zeros in Hnz.
  - intros Hk. exists 0%nat, (window final_dim (k * t) row). split.
    + rewrite lookup_take_lt by done. rewrite lookup_drop, Nat.add_0_r.
      subst padded. rewrite lookup_app_l by (rewrite length_chunks; lia).
      rewrite chunks_windows, list_lookup_fmap, lookup_seq_lt by lia. done.
    + apply Hmark; lia.
Qed.

Lemma sub_blocks_retained (mna final_dim t count : nat) (row : list scalar) :
  (0 < t)%nat →
  answers_marked mna final_dim count row →
  length (filter (λ blk, any_nonzero blk = true) (sub_blocks mna final_dim t row))
  = ((count + t - 1) `div` t)%nat.
Proof.
  intros Ht Hmark. unfold sub_blocks.
  rewrite (filter_fmap_seq_prefix _ _ ((count + t - 1) `div` t)).
  - rewrite length_fmap, length_seq.
    pose proof (slices_cover count t Ht) as (Hcov & Hlast & Hup). cbv zeta in Hcov, Hlast, Hup.
    destruct Hmark as [Hle _].
    pose proof (Nat.div_mod_eq mna t) as Heq.
    pose proof (Nat.mod_upper_bound mna t ltac:(lia)) as Hlt.
    apply Nat.min_l.
    nia.
  - intros k _. rewrite sub_block_nonzero by done.
    pose proof (slices_cover count t Ht) as (Hcov & Hlast & Hup). cbv zeta in Hcov, Hlast, Hup.
    set (n := ((count + t - 1) `div` t)%nat) in *. clearbody n.
    split; intros Hk.
    + destruct (decide (k < n)%nat); [done|]. nia.
    + assert (k * t + t ≤ n * t)%nat by nia. lia.
Qed.

Lemma retained_rows_count (mna final_dim t : nat) (m : list (list scalar))
    (targets : list (list Z)) :
  (0 < t)%nat →
  Forall2 (λ row student, answers_marked mna final_dim (length student) row) m targets →
  length (retained_rows mna final_dim t m)
  = sum_list ((λ student, (length student + t - 1) `div` t)%nat <$> targets).
Proof.
  intros Ht Hall. unfold retained_rows. rewrite length_fmap.
  induction Hall as [|row student m targets Hmark _ IH]; [done|].
  rewrite !fmap_cons, concat_cons, filter_app, length_app, IH.
  by rewrite (sub_blocks_retained mna final_dim t (length student)).
Qed.
End Padding.

(** ** Construction from a fold bundle *)

Section Construction.
Context `{RandomState}.

Lemma validate_inputs_run (w : os) (which_set which_year data_path : string) :
  ASSISTDataProvider._validate_inputs which_set which_year data_path w
  = (if bool_decide (which_set ∈ ["train"; "test"])
          && bool_decide (which_year ∈ ["09"; "15"])
          && isfile w (data_path +:+ "-inputs.npz")
          && isfile w (data_path +:+ "-targets.npz")
     then Ok () else Raise AssertionError, w).
Proof.
  unfold ASSISTDataProvider._validate_inputs. run.
  destruct (bool_decide (which_set ∈ _)); [|done].
  destruct (bool_decide (which_year ∈ _)); [|done].
  destruct (isfile w (data_path +:+ "-inputs.npz")); [|done].
  by destruct (isfile w (data_path +:+ "-targets.npz")).
Qed.

(** The attributes a provider built from the bundle [d] has. *)
Lemma init_from_bundle_run (w : os) (data_dir which_set which_year : string)
    (fraction : number) (use_plus_minus_feats use_compressed_sensing : bool)
    (batch_size max_num_batches : Z) (shuffle_order : bool) (rng : option rng_t)
    (d : ASSISTDataProvider.bundle) :
  let data_path := path_join (expanduser w data_dir) (assist_name which_year which_set) in
  let self :=
    ASSISTDataProvider.mk_attrs which_set which_year (expanduser w data_dir) 2 fraction
      use_plus_minus_feats use_compressed_sensing (ASSISTDataProvider.b_target_ids d)
      (ASSISTDataProvider.b_max_num_ans d) (ASSISTDataProvider.b_max_prob_set_id d)
      (ASSISTDataProvider.b_encoding_dim d) None None in
  ASSISTDataProvider.__init__ data_dir which_set which_year fraction
    use_plus_minus_feats use_compressed_sensing batch_size max_num_batches
    shuffle_order rng (Some d) w
  = (if bool_decide (which_set ∈ ["train"; "test"])
          && bool_decide (which_year ∈ ["09"; "15"])
          && isfile w (data_path +:+ "-inputs.npz")
          && isfile w (data_path +:+ "-targets.npz")
     then ASSISTDataProvider.super__init__ self (ASSISTDataProvider.b_inputs d)
            (ASSISTDataProvider.b_targets d) batch_size max_num_batches
            shuffle_order rng
     else Raise AssertionError, w).
Proof.
  intros data_path self. unfold ASSISTDataProvider.__init__.
  unfold mbind at 1, M_bind at 1, get. cbv beta iota. fold data_path.
  unfold mbind at 1, M_bind at 1. rewrite validate_inputs_run.
  destruct (_ && _ && _ && _); [|done]. run.
  by destruct (ASSISTDataProvider.super__init__ _ _ _ _ _ _ _).
Qed.
End Construction.

(** C10.  A provider built from a fold bundle still needs the two data files
    of its split: when [-inputs.npz] or [-targets.npz] is not a file at the
    path made of [data_dir], [which_year] and [which_set], the constructor
    fails on the assertion of [_validate_inputs] and touches nothing.  The
    files are looked for and never read: two file systems that agree on which
    paths are files build the same provider, and when the validation passes
    the provider is the one [DataProvider.__init__] builds from the rows of
    the bundle. *)
Theorem C10_bundle_construction_requires_files `{RandomState} (w : os)
    (data_dir which_set which_year : string) (fraction : number)
    (use_plus_minus_feats use_compressed_sensing : bool)
    (batch_size max_num_batches : Z) (shuffle_order : bool) (rng : option rng_t)
    (d : ASSISTDataProvider.bundle) :
  let data_path := path_join (expanduser w data_dir) (assist_name which_year which_set) in
  let construct (w : os) :=
    ASSISTDataProvider.__init__ data_dir which_set which_year fraction
      use_plus_minus_feats use_compressed_sensing batch_size max_num_batches
      shuffle_order rng (Some d) w in
  (isfile w (data_path +:+ "-inputs.npz") = false
   ∨ isfile w (data_path +:+ "-targets.npz") = false →
   construct w = (Raise AssertionError, w)) ∧
  (∀ w' : os,
     expanduser w' = expanduser w → (∀ path, isfile w' path = isfile w path) →
     (construct w').1 = (construct w).1) ∧
  (which_set ∈ ["train"; "test"] → which_year ∈ ["09"; "15"] →
   isfile w (data_path +:+ "-inputs.npz") = true →
   isfile w (data_path +:+ "-targets.npz") = true →
   construct w
   = (ASSISTDataProvider.super__init__
        (ASSISTDataProvider.mk_attrs which_set which_year (expanduser w data_dir) 2
           fraction use_plus_minus_feats use_compressed_sensing
           (ASSISTDataProvider.b_target_ids d) (ASSISTDataProvider.b_max_num_ans d)
           (ASSISTDataProvider.b_max_prob_set_id d)
           (ASSISTDataProvider.b_encoding_dim d) None None)
        (ASSISTDataProvider.b_inputs d) (ASSISTDataProvider.b_targets d)
        batch_size max_num_batches shuffle_order rng, w)).
Proof.
  intros data_path construct. subst construct. cbv beta.
  split; [|split].
  - intros Hmissing. rewrite init_from_bundle_run. fold data_path.
    destruct Hmissing as [-> | ->]; by rewrite ?andb_false_r.
  - intros w' Hhome Hfiles. rewrite !init_from_bundle_run. simpl.
    rewrite Hhome, !Hfiles. fold data_path.
    by destruct (_ && _ && _ && _).
  - intros Hset Hyear Hinputs Htargets. rewrite init_from_bundle_run. fold data_path.
    by rewrite Hinputs, Htargets, !bool_decide_eq_true_2.
Qed.

Lemma C10_witness :
  let construct (w : os) :=
    ASSISTDataProvider.__init__ "data" "train" "09" (PyInt 1)
      false false 2 (-1) false None (Some Tiny.two_students_bundle) w in
  construct Tiny.no_files = (Raise AssertionError, Tiny.no_files) ∧
  construct Tiny.junk_files = (Ok Tiny.two_students, Tiny.junk_files).
Proof.
  split.
  - apply (C10_bundle_construction_requires_files Tiny.no_files "data" "train" "09"
             (PyInt 1) false false 2 (-1) false None
             Tiny.two_students_bundle).
    left. reflexivity.
  - apply (C10_bundle_construction_requires_files Tiny.junk_files "data" "train" "09"
             (PyInt 1) false false 2 (-1) false None
             Tiny.two_students_bundle); try reflexivity.
    + apply list_elem_of_In. simpl. tauto.
    + apply list_elem_of_In. simpl. tauto.
Defined.

(** ** Compressed sensing on the test split *)

Lemma concat_fmap_concat {X Y} (f : X → list Y) (L : list (list X)) :
  concat (f <$> concat L) = concat ((λ blk, concat (f <$> blk)) <$> L).
Proof.
  induction L as [|l L IH]; [done|].
  simpl. by rewrite fmap_app, concat_app, IH.
Qed.

Section Compress.
Context `{Numeric}.

Lemma length_dot_row (c : list (list scalar)) (ncols : nat) (row : list scalar) :
  length (dot_row c ncols row) = ncols.
Proof. unfold dot_row. by rewrite length_fmap, length_seq. Qed.

Lemma length_compressed_row (c : list (list scalar)) (mna ed : nat) (row : list scalar) :
  length (compressed_row c mna ed row) = (mna * shape1 c)%nat.
Proof.
  unfold compressed_row. rewrite (length_concat_uniform (shape1 c)).
  - by rewrite length_fmap, length_chunks.
  - apply Forall_fmap, Forall_forall. intros answer _. apply length_dot_row.
Qed.

Lemma compress_inputs_run (self : ASSISTDataProvider.attrs)
    (inputs c : list (list scalar)) (d : nat) :
  let mna := ASSISTDataProvider.max_num_ans self in
  let ed := ASSISTDataProvider.encoding_dim self in
  ASSISTDataProvider.compress_matrix self = Some c →
  ASSISTDataProvider.compress_dim self = Some d →
  length c = ed → (1 ≤ ed)%nat → inputs ≠ [] →
  Forall (λ row, length row = (mna * ed)%nat) inputs →
  ASSISTDataProvider.compress_inputs self inputs
  = Ok (compressed_row c mna ed <$> inputs, ASSISTDataProvider.set_encoding_dim d self).
Proof.
  intros mna ed Hc Hd Hrows Hed Hne Hshape.
  unfold ASSISTDataProvider.compress_inputs. rewrite Hc, Hd. fold mna ed.
  assert (length (concat inputs) = (length inputs * mna * ed)%nat) as Hflat.
  { rewrite (length_concat_uniform (mna * ed)) by done. lia. }
  unfold reshape_rows_of. rewrite Hflat.
  rewrite decide_False
    by (intros [?|Hm]; [lia|]; apply Hm; by rewrite Nat.Div0.mod_mul).
  rewrite Nat.div_mul by lia.
  rewrite (chunks_of_blocks ed mna inputs) by done.
  unfold mbind at 1, result_bind at 1.
  set (answers := concat (chunks ed mna <$> inputs)).
  assert (Forall (λ row, length row = length c) answers) as Hans.
  { subst answers. apply Forall_concat, Forall_fmap, Forall_forall.
    intros row Hrow. simpl. rewrite Hrows. apply chunks_widths.
    by apply (Forall_forall (λ row, length row = (mna * ed)%nat) inputs). }
  unfold np_dot. rewrite decide_True by done.
  unfold mbind at 1, result_bind at 1.
  subst answers. rewrite concat_fmap_concat, <- list_fmap_compose.
  change (concat ((_ ∘ _) <$> inputs))
    with (concat (compressed_row c mna ed <$> inputs)).
  set (rows := compressed_row c mna ed <$> inputs).
  assert (length rows = length inputs) as Hlen by (subst rows; by rewrite length_fmap).
  assert (Forall (λ row, length row = (mna * shape1 c)%nat) rows) as Hw.
  { subst rows. apply Forall_fmap, Forall_forall. intros row _.
    apply length_compressed_row. }
  assert (length inputs ≠ 0%nat) as Hn by (by destruct inputs).
  unfold reshape_cols_of.
  rewrite (length_concat_uniform (mna * shape1 c)) by done.
  rewrite Hlen.
  rewrite decide_False
    by (intros [?|Hm]; [lia|]; apply Hm; by rewrite Nat.mul_comm, Nat.Div0.mod_mul).
  rewrite (Nat.mul_comm (length inputs)), Nat.div_mul by done.
  rewrite <- Hlen, chunks_concat by done. done.
Qed.
End Compress.

Lemma load_data_encoding_dim `{RandomState} w self (data_path : string)
    (use_plus_minus_feats : bool) inputs targets self' :
  (ASSISTDataProvider.load_data self data_path use_plus_minus_feats w).1
  = Ok (inputs, targets, self') →
  (1 ≤ ASSISTDataProvider.encoding_dim self')%nat.
Proof.
  unfold ASSISTDataProvider.load_data, np_load, sp_load_npz, np_load. run.
  destruct (files w !! (data_path +:+ "-targets.npz")) as [[mna mpsi tg| |]|]; try done.
  destruct use_plus_minus_feats; simpl.
  - destruct (files w !! (data_path +:+ "-inputs-plus-minus.npz")) as [[| |]|]; try done.
    simpl. destruct (files w !! (data_path +:+ "-targetids.npz")) as [[| |]|]; try done.
    simpl. intros [= <- <- <-]. simpl. lia.
  - destruct (files w !! (data_path +:+ "-inputs.npz")) as [[| |]|]; try done.
    simpl. destruct (files w !! (data_path +:+ "-targetids.npz")) as [[| |]|]; try done.
    simpl. intros [= <- <- <-]. simpl. lia.
Qed.

Section Compression.
Context `{RandomState}.
Implicit Types (w : os) (self : ASSISTDataProvider.attrs).

Lemma load_data_state w self (data_path : string) (use_plus_minus_feats : bool) :
  (ASSISTDataProvider.load_data self data_path use_plus_minus_feats w).2 = w.
Proof.
  unfold ASSISTDataProvider.load_data, np_load, sp_load_npz, np_load. run.
  destruct (files w !! (data_path +:+ "-targets.npz")) as [[mna mpsi targets| |]|]; try done.
  destruct use_plus_minus_feats; simpl.
  - destruct (files w !! (data_path +:+ "-inputs-plus-minus.npz")) as [[| |]|]; try done.
    simpl. by destruct (files w !! (data_path +:+ "-targetids.npz")) as [[| |]|].
  - destruct (files w !! (data_path +:+ "-inputs.npz")) as [[| |]|]; try done.
    simpl. by destruct (files w !! (data_path +:+ "-targetids.npz")) as [[| |]|].
Qed.

Lemma apply_compressed_sensing_test w self (inputs : list (list scalar))
    (rng : option rng_t) :
  ASSISTDataProvider.which_set self = "test" →
  let train_path := path_join (ASSISTDataProvider.data_dir self)
                      (assist_name (ASSISTDataProvider.which_year self) "train") in
  ASSISTDataProvider.apply_compressed_sensing self inputs rng w
  = (match files w !! (train_path +:+ "-compression-matrix.npz") with
     | None => Raise FileNotFoundError
     | Some (CompressionNpz c) =>
         match ASSISTDataProvider.compress_inputs
                 (ASSISTDataProvider.set_compress_dim (Some (shape1 c))
                    (ASSISTDataProvider.set_compress_matrix (Some c) self)) inputs with
         | Ok (z, self') => Ok (z, self', rng)
         | Raise e => Raise e
         end
     | Some _ => Raise KeyError
     end, w).
Proof.
  intros Htest train_path. unfold ASSISTDataProvider.apply_compressed_sensing.
  fold train_path. rewrite Htest. simpl bool_decide. cbv iota.
  unfold np_load. run.
  destruct (files w !! (train_path +:+ "-compression-matrix.npz")) as [[| |c]|]; try done.
  simpl. by destruct (ASSISTDataProvider.compress_inputs _ _) as [[z self']|e].
Qed.

Lemma load_data_attrs w self (data_path : string) (use_plus_minus_feats : bool)
    inputs targets self' :
  (ASSISTDataProvider.load_data self data_path use_plus_minus_feats w).1
  = Ok (inputs, targets, self') →
  ASSISTDataProvider.which_set self' = ASSISTDataProvider.which_set self ∧
  ASSISTDataProvider.which_year self' = ASSISTDataProvider.which_year self ∧
  ASSISTDataProvider.data_dir self' = ASSISTDataProvider.data_dir self.
Proof.
  unfold ASSISTDataProvider.load_data, np_load, sp_load_npz, np_load. run.
  destruct (files w !! (data_path +:+ "-targets.npz")) as [[mna mpsi tg| |]|]; try done.
  destruct use_plus_minus_feats; simpl.
  - destruct (files w !! (data_path +:+ "-inputs-plus-minus.npz")) as [[| |]|]; try done.
    simpl. destruct (files w !! (data_path +:+ "-targetids.npz")) as [[| |]|]; try done.
    simpl. by intros [= <- <- <-].
  - destruct (files w !! (data_path +:+ "-inputs.npz")) as [[| |]|]; try done.
    simpl. destruct (files w !! (data_path +:+ "-targetids.npz")) as [[| |]|]; try done.
    simpl. by intros [= <- <- <-].
Qed.

(** The constructor on the test split with compressed sensing, after the
    validation: the steps it goes through. *)
Lemma init_test_compressed_run w (data_dir which_year : string)
    (fraction : number) (use_plus_minus_feats : bool)
    (batch_size max_num_batches : Z) (shuffle_order : bool) (rng : option rng_t) :
  let expanded := expanduser w data_dir in
  let test_path := path_join expanded (assist_name which_year "test") in
  let train_path := path_join expanded (assist_name which_year "train") in
  let self0 := ASSISTDataProvider.mk_attrs "test" which_year expanded 2 fraction
                 use_plus_minus_feats true [] 0 0 0 None None in
  ASSISTDataProvider.__init__ data_dir "test" which_year fraction
    use_plus_minus_feats true batch_size max_num_batches shuffle_order rng None w
  = (if bool_decide (which_year ∈ ["09"; "15"])
          && isfile w (test_path +:+ "-inputs.npz")
          && isfile w (test_path +:+ "-targets.npz")
     then
       match (ASSISTDataProvider.load_data self0 test_path use_plus_minus_feats w).1 with
       | Ok (inputs, targets, self1) =>
           match ASSISTDataProvider.reduce_data self1 inputs targets fraction with
           | Ok (inputs, targets, self2) =>
               match files w !! (train_path +:+ "-compression-matrix.npz") with
               | None => Raise FileNotFoundError
               | Some (CompressionNpz c) =>
                   match ASSISTDataProvider.compress_inputs
                           (ASSISTDataProvider.set_compress_dim (Some (shape1 c))
                              (ASSISTDataProvider.set_compress_matrix (Some c) self2))
                           inputs with
                   | Ok (z, self3) =>
                       ASSISTDataProvider.super__init__ self3 z targets batch_size
                         max_num_batches shuffle_order rng
                   | Raise e => Raise e
                   end
               | Some _ => Raise KeyError
               end
           | Raise e => Raise e
           end
       | Raise e => Raise e
       end
     else Raise AssertionError, w).
Proof.
  intros expanded test_path train_path self0. unfold ASSISTDataProvider.__init__.
  unfold mbind at 1, M_bind at 1, get. cbv beta iota. fold expanded test_path.
  unfold mbind at 1, M_bind at 1. rewrite validate_inputs_run.
  rewrite (bool_decide_eq_true_2 ("test" ∈ ["train"; "test"]))
    by (apply list_elem_of_In; simpl; tauto).
  rewrite andb_true_l.
  destruct (_ && _ && _); [|done]. cbv beta iota. fold self0.
  unfold mbind at 1, M_bind at 1. unfold mbind at 1, M_bind at 1.
  pose proof (load_data_state w self0 test_path use_plus_minus_feats) as Hstate.
  pose proof (load_data_attrs w self0 test_path use_plus_minus_feats) as Hattrs.
  destruct (ASSISTDataProvider.load_data self0 test_path use_plus_minus_feats w)
    as [[[[inputs targets] self1]|e] w1]; simpl in Hstate; subst w1; [|done].
  destruct (Hattrs _ _ _ eq_refl) as (Hset & Hyear & Hdir). simpl.
  rewrite reduce_data_run.
  unfold mbind at 1, M_bind at 1, lift.
  destruct (ASSISTDataProvider.int_of_product _ _) as [num_data|e]; [|done].
  cbv beta iota. unfold mbind at 1, M_bind at 1.
  set (self2 := ASSISTDataProvider.set_target_ids _ self1).
  rewrite (apply_compressed_sensing_test w self2) by (subst self2; simpl; by rewrite Hset).
  replace (ASSISTDataProvider.data_dir self2) with expanded
    by (subst self2; simpl; by rewrite Hdir).
  replace (ASSISTDataProvider.which_year self2) with which_year
    by (subst self2; simpl; by rewrite Hyear).
  fold train_path.
  destruct (files w !! (train_path +:+ "-compression-matrix.npz")) as [[| |c]|]; try done.
  destruct (ASSISTDataProvider.compress_inputs _ _) as [[z self3]|e]; [|done].
  run. by destruct (ASSISTDataProvider.super__init__ _ _ _ _ _ _ _).
Qed.
End Compression.

(** C8.  On the test split, [apply_compressed_sensing] reads the projection
    matrix from the file of the training split's path and compresses the
    inputs with it: every answer of every student, a vector of
    [encoding_dim] entries, is multiplied by the matrix [c] of the file
    ([compressed_row]), and [encoding_dim] becomes the number of columns of
    [c].  When that file is missing it raises [FileNotFoundError].  It draws
    no matrix and writes no file: whatever the constructor returns on the
    test split with compressed sensing enabled, the files and numpy's
    generator are as before.  Without the matrix file the constructor fails,
    with [FileNotFoundError] once the validation, the loading and the
    reduction of the dataset have passed; with it, the provider is the one
    [super().__init__] builds from the loaded rows, cut by [fraction] and
    multiplied by [c]. *)
Theorem C8_test_split_needs_persisted_matrix `{RandomState} (w : os)
    (data_dir which_year : string) (fraction : number)
    (use_plus_minus_feats : bool) (batch_size max_num_batches : Z)
    (shuffle_order : bool) (rng : option rng_t) :
  let expanded := expanduser w data_dir in
  let test_path := path_join expanded (assist_name which_year "test") in
  let train_path := path_join expanded (assist_name which_year "train") in
  let matrix_file := train_path +:+ "-compression-matrix.npz" in
  let self0 := ASSISTDataProvider.mk_attrs "test" which_year expanded 2 fraction
                 use_plus_minus_feats true [] 0 0 0 None None in
  let construct :=
    ASSISTDataProvider.__init__ data_dir "test" which_year fraction
      use_plus_minus_feats true batch_size max_num_batches shuffle_order rng None in
  let loaded inputs targets self1 :=
    which_year ∈ ["09"; "15"] ∧
    isfile w (test_path +:+ "-inputs.npz") = true ∧
    isfile w (test_path +:+ "-targets.npz") = true ∧
    (ASSISTDataProvider.load_data self0 test_path use_plus_minus_feats w).1
    = Ok (inputs, targets, self1) in
  let with_matrix c self :=
    ASSISTDataProvider.set_compress_dim (Some (shape1 c))
      (ASSISTDataProvider.set_compress_matrix (Some c) self) in
  (∀ self inputs,
     ASSISTDataProvider.which_set self = "test" →
     ASSISTDataProvider.data_dir self = expanded →
     ASSISTDataProvider.which_year self = which_year →
     ASSISTDataProvider.apply_compressed_sensing self inputs rng w
     = (match files w !! matrix_file with
        | None => Raise FileNotFoundError
        | Some (CompressionNpz c) =>
            match ASSISTDataProvider.compress_inputs (with_matrix c self) inputs with
            | Ok (z, self') => Ok (z, self', rng)
            | Raise e => Raise e
            end
        | Some _ => Raise KeyError
        end, w)) ∧
  (∀ self inputs c,
     ASSISTDataProvider.which_set self = "test" →
     ASSISTDataProvider.data_dir self = expanded →
     ASSISTDataProvider.which_year self = which_year →
     files w !! matrix_file = Some (CompressionNpz c) →
     length c = ASSISTDataProvider.encoding_dim self →
     (1 ≤ ASSISTDataProvider.encoding_dim self)%nat →
     inputs ≠ [] →
     Forall (λ row, length row = (ASSISTDataProvider.max_num_ans self
                                  * ASSISTDataProvider.encoding_dim self)%nat) inputs →
     ASSISTDataProvider.apply_compressed_sensing self inputs rng w
     = (Ok (compressed_row c (ASSISTDataProvider.max_num_ans self)
              (ASSISTDataProvider.encoding_dim self) <$> inputs,
            ASSISTDataProvider.set_encoding_dim (shape1 c) (with_matrix c self),
            rng), w)) ∧
  (construct w).2 = w ∧
  (files w !! matrix_file = None → ∃ e, (construct w).1 = Raise e) ∧
  (∀ inputs targets self1 num_data,
     files w !! matrix_file = None → loaded inputs targets self1 →
     ASSISTDataProvider.int_of_product (Z.of_nat (length inputs)) fraction
     = Ok num_data →
     construct w = (Raise FileNotFoundError, w)) ∧
  (∀ c inputs targets self1 inputs' targets' self2,
     files w !! matrix_file = Some (CompressionNpz c) → loaded inputs targets self1 →
     ASSISTDataProvider.reduce_data self1 inputs targets fraction
     = Ok (inputs', targets', self2) →
     construct w
     = (match ASSISTDataProvider.compress_inputs (with_matrix c self2) inputs' with
        | Ok (z, self3) =>
            ASSISTDataProvider.super__init__ self3 z targets' batch_size
              max_num_batches shuffle_order rng
        | Raise e => Raise e
        end, w)) ∧
  (∀ c inputs targets self1 num_data,
     files w !! matrix_file = Some (CompressionNpz c) → loaded inputs targets self1 →
     ASSISTDataProvider.int_of_product (Z.of_nat (length inputs)) fraction
     = Ok num_data →
     length c = ASSISTDataProvider.encoding_dim self1 →
     py_slice_to num_data inputs ≠ [] →
     Forall (λ row, length row = (ASSISTDataProvider.max_num_ans self1
                                  * ASSISTDataProvider.encoding_dim self1)%nat)
       (py_slice_to num_data inputs) →
     construct w
     = (ASSISTDataProvider.super__init__
          (ASSISTDataProvider.set_encoding_dim (shape1 c)
             (with_matrix c
                (ASSISTDataProvider.set_target_ids
                   (py_slice_to num_data (ASSISTDataProvider.target_ids self1)) self1)))
          (compressed_row c (ASSISTDataProvider.max_num_ans self1)
             (ASSISTDataProvider.encoding_dim self1) <$> py_slice_to num_data inputs)
          (py_slice_to num_data targets) batch_size max_num_batches shuffle_order rng,
        w)).
Proof.
  intros expanded test_path train_path matrix_file self0 construct loaded with_matrix.
  subst construct loaded with_matrix. cbv beta.
  pose proof (init_test_compressed_run w data_dir which_year fraction
                use_plus_minus_feats batch_size max_num_batches shuffle_order rng) as Hrun.
  cbv zeta in Hrun. fold expanded test_path train_path matrix_file self0 in Hrun.
  split; [|split; [|split; [|split; [|split; [|split]]]]].
  - intros self inputs Hset Hdir Hyear.
    rewrite (apply_compressed_sensing_test w self) by done.
    by rewrite Hdir, Hyear.
  - intros self inputs c Hset Hdir Hyear Hfile Hc Hed Hne Hshape.
    rewrite (apply_compressed_sensing_test w self) by done.
    rewrite Hdir, Hyear. fold train_path matrix_file. rewrite Hfile.
    by rewrite (compress_inputs_run _ inputs c (shape1 c)).
  - by rewrite Hrun.
  - intros Hmissing. rewrite Hrun, Hmissing. simpl.
    destruct (_ && _ && _); [|by eexists].
    destruct (ASSISTDataProvider.load_data _ _ _ _).1 as [[[inputs targets] self1]|e];
      [|by eexists].
    destruct (ASSISTDataProvider.reduce_data _ _ _ _) as [[[inputs' targets'] self2]|e];
      by eexists.
  - intros inputs targets self1 num_data Hmissing (Hyear & Hinputs & Htargets & Hload) Hnum.
    rewrite Hrun, Hmissing, Hload, Hinputs, Htargets, reduce_data_run, Hnum.
    by rewrite bool_decide_eq_true_2.
  - intros c inputs targets self1 inputs' targets' self2 Hfile
      (Hyear & Hinputs & Htargets & Hload) Hred.
    rewrite Hrun, Hfile, Hload, Hinputs, Htargets, Hred.
    by rewrite bool_decide_eq_true_2.
  - intros c inputs targets self1 num_data Hfile (Hyear & Hinputs & Htargets & Hload)
      Hnum Hc Hne Hshape.
    pose proof (load_data_encoding_dim _ _ _ _ _ _ _ Hload) as Hed.
    rewrite Hrun, Hfile, Hload, Hinputs, Htargets, reduce_data_run, Hnum.
    rewrite bool_decide_eq_true_2 by done. simpl.
    by rewrite (compress_inputs_run _ (py_slice_to num_data inputs) c (shape1 c)).
Qed.

Lemma C8_witness :
  let construct :=
    ASSISTDataProvider.__init__ "data" "test" "09" (PyInt 1)
      false true 2 (-1) false None None in
  construct Tiny.test_without_matrix = (Raise FileNotFoundError, Tiny.test_without_matrix) ∧
  ∃ st,
    construct Tiny.test_with_matrix = (Ok st, Tiny.test_with_matrix) ∧
    DataProvider.inputs (ASSISTDataProvider.base st) = [[0; 1; 1; 1]; [1; 0; 0; 0]] ∧
    DataProvider.targets (ASSISTDataProvider.base st) = Tiny.two_students_targets ∧
    ASSISTDataProvider.encoding_dim (ASSISTDataProvider.own st) = 2%nat ∧
    ASSISTDataProvider.compress_matrix (ASSISTDataProvider.own st)
    = Some [[1; 0]; [0; 1]; [1; 1]].
Proof.
  set (self1 :=
         ASSISTDataProvider.set_target_ids (H := Tiny.numeric) [[1; 1]; [1; 0]]
           (ASSISTDataProvider.set_sizes 2 1 3
              (ASSISTDataProvider.mk_attrs "test" "09" "data" 2
                 (PyInt 1) false true [] 0 0 0 None None))).
  split.
  - destruct (C8_test_split_needs_persisted_matrix Tiny.test_without_matrix "data" "09"
                (PyInt 1) false 2 (-1) false None)
      as (_ & _ & _ & _ & Hmissing & _).
    apply (Hmissing Tiny.two_students_inputs Tiny.two_students_targets self1 2).
    + reflexivity.
    + split; [apply list_elem_of_In; simpl; tauto|]. repeat split; reflexivity.
    + reflexivity.
  - destruct (C8_test_split_needs_persisted_matrix Tiny.test_with_matrix "data" "09"
                (PyInt 1) false 2 (-1) false None)
      as (_ & _ & _ & _ & _ & _ & Hloaded).
    eexists. split.
    + rewrite (Hloaded [[1; 0]; [0; 1]; [1; 1]] Tiny.two_students_inputs
                 Tiny.two_students_targets self1 2).
      * reflexivity.
      * reflexivity.
      * split; [apply list_elem_of_In; simpl; tauto|]. repeat split; reflexivity.
      * reflexivity.
      * reflexivity.
      * done.
      * repeat constructor.
    + repeat split; reflexivity.
Defined.

Example test_split_with_matrix :
  (ASSISTDataProvider.__init__ "data" "test" "09" (PyInt 1)
     false true 2 (-1) false None None Tiny.test_with_matrix).2
  = Tiny.test_with_matrix ∧
  match (ASSISTDataProvider.__init__ "data" "test" "09" (PyInt 1)
           false true 2 (-1) false None None Tiny.test_with_matrix).1 with
  | Ok st =>
      DataProvider.inputs (ASSISTDataProvider.base st) = [[0; 1; 1; 1]; [1; 0; 0; 0]] ∧
      ASSISTDataProvider.encoding_dim (ASSISTDataProvider.own st) = 2%nat
  | Raise _ => False
  end.
Proof. split; [reflexivity|]. split; reflexivity. Qed.

(** ** Fold splitting *)

Section Folds.
Variables k n : nat.

Let start := ASSISTDataProvider.fold_start k n.

Lemma fold_start_0 : start 0 = 0%nat.
Proof. subst start. unfold ASSISTDataProvider.fold_start. lia. Qed.

Lemma fold_start_S i :
  start (S i) = (start i + ASSISTDataProvider.fold_size k n i)%nat.
Proof.
  subst start. unfold ASSISTDataProvider.fold_start, ASSISTDataProvider.fold_size.
  case_decide; lia.
Qed.

Lemma fold_start_k : (0 < k)%nat → start k = n.
Proof.
  intros Hk. subst start. unfold ASSISTDataProvider.fold_start.
  pose proof (Nat.div_mod_eq n k). pose proof (Nat.mod_upper_bound n k ltac:(lia)).
  lia.
Qed.

Lemma fold_start_mono i j : (i ≤ j)%nat → (start i ≤ start j)%nat.
Proof.
  intros Hle. subst start. unfold ASSISTDataProvider.fold_start.
  apply Nat.add_le_mono; [by apply Nat.mul_le_mono_r|lia].
Qed.

Lemma fold_of_row row j :
  (row < start j)%nat → ∃ i, (i < j)%nat ∧ (start i ≤ row < start (S i))%nat.
Proof.
  induction j as [|j IH]; intros Hrow.
  - rewrite fold_start_0 in Hrow. lia.
  - destruct (decide (row < start j)%nat) as [Hlt|Hge].
    + destruct IH as (i & Hi & Hin); [done|]. exists i. split; [lia|done].
    + exists j. split; lia.
Qed.

Lemma fold_of_row_unique row i j :
  (start i ≤ row < start (S i))%nat → (start j ≤ row < start (S j))%nat → i = j.
Proof.
  intros Hi Hj.
  destruct (decide (i < j)%nat) as [Hlt|?].
  { pose proof (fold_start_mono (S i) j ltac:(lia)). lia. }
  destruct (decide (j < i)%nat) as [Hlt|?]; [|lia].
  pose proof (fold_start_mono (S j) i ltac:(lia)). lia.
Qed.
End Folds.

Lemma filter_none {A} (P : A → Prop) `{∀ x, Decision (P x)} (l : list A) :
  Forall (λ x, ¬ P x) l → filter P l = [].
Proof.
  induction 1 as [|x l Hx _ IH]; [done|]. by rewrite filter_cons_False.
Qed.

Lemma count_singleton (P : nat → Prop) `{∀ i, Decision (P i)} (k i0 : nat) :
  (i0 < k)%nat → (∀ i, (i < k)%nat → P i ↔ i = i0) →
  length (filter P (seq 0 k)) = 1%nat.
Proof.
  intros Hi0 HP.
  assert (filter P (seq 0 k) = [i0]) as ->; [|done].
  replace k with (i0 + S (k - S i0))%nat by lia.
  rewrite seq_app, filter_app. simpl.
  rewrite filter_cons_True by (apply HP; lia).
  rewrite (filter_none P (seq 0 i0)), (filter_none P (seq (S i0) _)); [done| |].
  - apply Forall_forall. intros i Hi. apply elem_of_seq in Hi. rewrite HP; lia.
  - apply Forall_forall. intros i Hi. apply elem_of_seq in Hi. rewrite HP; lia.
Qed.

Lemma length_filter_fmap {A B} (Q : B → Prop) `{∀ y, Decision (Q y)} (f : A → B)
    (l : list A) :
  length (filter Q (f <$> l)) = length (filter (λ x, Q (f x)) l).
Proof.
  induction l as [|x l IH]; [done|].
  rewrite fmap_cons, !filter_cons. case_decide; simpl; by rewrite IH.
Qed.

Lemma filter_ext_in {A} (P1 P2 : A → Prop)
    `{∀ x, Decision (P1 x), ∀ x, Decision (P2 x)} (l : list A) :
  Forall (λ x, P1 x ↔ P2 x) l → filter P1 l = filter P2 l.
Proof.
  induction 1 as [|x l Hiff _ IH]; [done|].
  destruct (decide (P1 x)).
  - rewrite !filter_cons_True by tauto. by rewrite IH.
  - rewrite !filter_cons_False by tauto. by rewrite IH.
Qed.

Lemma length_filter_complement {A} (P : A → Prop) `{∀ x, Decision (P x)} (l : list A) :
  (length (filter P l) + length (filter (λ x, ¬ P x) l) = length l)%nat.
Proof. by rewrite <- length_app, filter_app_complement. Qed.

Section FoldRows.
Variables k n : nat.

Let fold_rows := ASSISTDataProvider.KFold_fold k n.

Lemma elem_of_fold_val i row :
  row ∈ (fold_rows i).2
  ↔ (ASSISTDataProvider.fold_start k n i ≤ row
     < ASSISTDataProvider.fold_start k n (S i))%nat.
Proof. unfold fold_rows, ASSISTDataProvider.KFold_fold. simpl. rewrite elem_of_seq, fold_start_S. lia. Qed.

Lemma elem_of_fold_train i row :
  (i < k)%nat → (row < n)%nat →
  row ∈ (fold_rows i).1 ↔ ¬ row ∈ (fold_rows i).2.
Proof.
  intros Hi Hrow. rewrite elem_of_fold_val. unfold fold_rows, ASSISTDataProvider.KFold_fold. simpl.
  rewrite elem_of_app, !elem_of_seq, <- fold_start_S.
  pose proof (fold_start_mono k n (S i) k ltac:(lia)) as Hle.
  rewrite fold_start_k in Hle by lia. lia.
Qed.

Lemma fold_rows_cover i :
  (i < k)%nat → (fold_rows i).1 ++ (fold_rows i).2 ≡ₚ seq 0 n.
Proof.
  intros Hi. unfold fold_rows, ASSISTDataProvider.KFold_fold. simpl. rewrite <- fold_start_S.
  pose proof (fold_start_mono k n i (S i) ltac:(lia)) as Hle1.
  pose proof (fold_start_mono k n (S i) k ltac:(lia)) as Hle2.
  rewrite fold_start_k in Hle2 by lia.
  set (a := ASSISTDataProvider.fold_start k n i) in *.
  set (b := ASSISTDataProvider.fold_start k n (S i)) in *.
  assert (n = a + ((b - a) + (n - b)))%nat as Hn by lia.
  transitivity (seq 0 (a + ((b - a) + (n - b)))); [|by rewrite <- Hn].
  rewrite !seq_app. simpl. replace (a + (b - a))%nat with b by lia.
  rewrite <- app_assoc. apply Permutation_app_head, Permutation_app_comm.
Qed.

Lemma fold_rows_counts row :
  (0 < k)%nat → (row < n)%nat →
  length (filter (λ fold, row ∈ fold.2) (fold_rows <$> seq 0 k)) = 1%nat ∧
  length (filter (λ fold, row ∈ fold.1) (fold_rows <$> seq 0 k)) = (k - 1)%nat.
Proof.
  intros Hk Hrow.
  destruct (fold_of_row k n row k) as (i0 & Hi0 & Hin); [by rewrite fold_start_k|].
  assert (length (filter (λ i, row ∈ (fold_rows i).2) (seq 0 k)) = 1%nat) as Hval.
  { apply (count_singleton _ k i0); [done|]. intros i Hi.
    rewrite elem_of_fold_val. split.
    - intros Hi'. by apply (fold_of_row_unique k n row i i0).
    - by intros ->. }
  rewrite !length_filter_fmap. split; [done|].
  pose proof (length_filter_complement (λ i, row ∈ (fold_rows i).2) (seq 0 k)) as Hsum.
  rewrite Hval, length_seq in Hsum.
  assert (filter (λ i, row ∈ (fold_rows i).1) (seq 0 k)
          = filter (λ i, ¬ row ∈ (fold_rows i).2) (seq 0 k)) as ->; [|lia].
  apply filter_ext_in, Forall_forall. intros i Hi. apply elem_of_seq in Hi.
  apply elem_of_fold_train; [lia|done].
Qed.
End FoldRows.

(** C6.  The generator [_get_k_folds(k)] of a train provider of [n ≥ k ≥ 2]
    rows takes its rows by the [k] pairs of index arrays of the k-fold
    scheme.  In every pair the training and the validation indices have no
    row in common and together are all the rows, once each; and every row is
    a validation row in exactly one of the [k] pairs and a training row in
    the [k - 1] others. *)
Theorem C6_k_folds_partition `{RandomState} (st : ASSISTDataProvider.t) (k : nat) :
  let n := length (DataProvider.inputs (ASSISTDataProvider.base st)) in
  ASSISTDataProvider.which_set (ASSISTDataProvider.own st) = "train" →
  (2 ≤ k)%nat → (k ≤ n)%nat →
  ∃ folds,
    ASSISTDataProvider.KFold_split k n = Ok folds ∧
    (∀ threshold w,
       ASSISTDataProvider._get_k_folds st k threshold w
       = ASSISTDataProvider.fold_turns st folds
           (threshold, DataProvider.rng (ASSISTDataProvider.base st)) w) ∧
    length folds = k ∧
    Forall (λ fold, (∀ row, row ∈ fold.1 → row ∉ fold.2)
                    ∧ fold.1 ++ fold.2 ≡ₚ seq 0 n) folds ∧
    ∀ row, (row < n)%nat →
      length (filter (λ fold, row ∈ fold.2) folds) = 1%nat ∧
      length (filter (λ fold, row ∈ fold.1) folds) = (k - 1)%nat.
Proof.
  intros n Hset Hk Hn.
  exists (ASSISTDataProvider.KFold_fold k n <$> seq 0 k).
  assert (ASSISTDataProvider.KFold_split k n
          = Ok (ASSISTDataProvider.KFold_fold k n <$> seq 0 k)) as Hsplit.
  { unfold ASSISTDataProvider.KFold_split. by rewrite !decide_False by lia. }
  split; [done|]. split.
  { intros threshold w. unfold ASSISTDataProvider._get_k_folds.
    rewrite Hset. fold n. rewrite Hsplit. done. }
  split; [by rewrite length_fmap, length_seq|]. split.
  - apply Forall_fmap, Forall_forall. intros i Hi. apply elem_of_seq in Hi.
    pose proof (fold_rows_cover k n i ltac:(lia)) as Hcover. simpl.
    split; [|done]. intros row Htrain Hval.
    assert (NoDup (seq 0 n)) as Hnodup by apply NoDup_seq.
    rewrite <- Hcover in Hnodup. apply NoDup_app in Hnodup as (_ & Hdisj & _).
    by apply (Hdisj row).
  - intros row Hrow. apply fold_rows_counts; [lia|done].
Qed.

Lemma C6_witness :
  ∃ folds,
    ASSISTDataProvider.KFold_split 2 4 = Ok folds ∧
    (∀ threshold w,
       ASSISTDataProvider._get_k_folds Tiny.four_students_shuffling 2 threshold w
       = ASSISTDataProvider.fold_turns Tiny.four_students_shuffling folds
           (threshold, 1%nat) w) ∧
    length folds = 2%nat ∧
    Forall (λ fold, (∀ row, row ∈ fold.1 → row ∉ fold.2)
                    ∧ fold.1 ++ fold.2 ≡ₚ seq 0 4) folds ∧
    ∀ row, (row < 4)%nat →
      length (filter (λ fold, row ∈ fold.2) folds) = 1%nat ∧
      length (filter (λ fold, row ∈ fold.1) folds) = (2 - 1)%nat.
Proof.
  apply (C6_k_folds_partition Tiny.four_students_shuffling 2);
    [reflexivity | simpl; lia | simpl; lia].
Defined.

Example five_folds_of_seven_rows :
  ASSISTDataProvider.KFold_split 5 7
  = Ok [([2; 3; 4; 5; 6], [0; 1]); ([0; 1; 4; 5; 6], [2; 3]);
        ([0; 1; 2; 3; 5; 6], [4]); ([0; 1; 2; 3; 4; 6], [5]);
        ([0; 1; 2; 3; 4; 5], [6])]%nat.
Proof. reflexivity. Qed.

(** ** Row alignment of the providers a fold turn builds *)

Section FoldProviders.
Context `{RandomState}.

Lemma super_init_aligned (self : ASSISTDataProvider.attrs)
    (inputs : list (list scalar)) (targets : list (list Z))
    (batch_size max_num_batches : Z) (shuffle_order : bool) (rng : option rng_t) :
  rows_aligned inputs targets (ASSISTDataProvider.target_ids self) →
  1 ≤ batch_size → max_num_batches = -1 ∨ 0 < max_num_batches →
  ∃ idx st,
    ASSISTDataProvider.super__init__ self inputs targets batch_size max_num_batches
      shuffle_order rng = Ok st ∧
    provider_aligned st ∧
    length (DataProvider.inputs (ASSISTDataProvider.base st)) = length inputs ∧
    idx ≡ₚ seq 0 (length inputs) ∧
    holds_rows st inputs targets (ASSISTDataProvider.target_ids self) idx.
Proof.
  intros Hal Hb Hm. unfold ASSISTDataProvider.super__init__.
  rewrite !decide_False by lia.
  set (b := DataProvider.mk _ _ _ _ _ _ _ _ _).
  unfold mbind at 1, M_bind at 1, ASSISTDataProvider.inherited at 1.
  cbn [ASSISTDataProvider.base].
  rewrite (update_num_batches_run b) by (subst b; simpl; lia).
  cbv beta iota.
  set (st0 := ASSISTDataProvider.set_base _ _).
  assert (provider_aligned st0) as Hal0.
  { split; [exact Hal|]. subst st0 b. simpl. by rewrite length_seq. }
  destruct (new_epoch_aligned st0 Hal0) as (idx & st & Hrun & Hidx & Hrows & Hal1 & Hlen).
  rewrite Hrun. exists idx, st. split; [done|]. split; [done|]. split; [by rewrite Hlen|].
  done.
Qed.

Lemma fold_turn_from_bundles (st : ASSISTDataProvider.t) (split : list nat * list nat)
    (threshold : option Z) (rng : rng_t) (w : os)
    (train val : ASSISTDataProvider.bundle) (th : Z) :
  let b := ASSISTDataProvider.base st in
  let a := ASSISTDataProvider.own st in
  let data_path :=
    path_join (expanduser w (ASSISTDataProvider.data_dir a))
      (assist_name (ASSISTDataProvider.which_year a) (ASSISTDataProvider.which_set a)) in
  ASSISTDataProvider.fold_bundles st split threshold = Ok (train, val, th) →
  rows_aligned (ASSISTDataProvider.b_inputs train) (ASSISTDataProvider.b_targets train)
    (ASSISTDataProvider.b_target_ids train) →
  rows_aligned (ASSISTDataProvider.b_inputs val) (ASSISTDataProvider.b_targets val)
    (ASSISTDataProvider.b_target_ids val) →
  ASSISTDataProvider.which_set a ∈ ["train"; "test"] →
  ASSISTDataProvider.which_year a ∈ ["09"; "15"] →
  isfile w (data_path +:+ "-inputs.npz") = true →
  isfile w (data_path +:+ "-targets.npz") = true →
  1 ≤ DataProvider._batch_size b →
  DataProvider._max_num_batches b = -1 ∨ 0 < DataProvider._max_num_batches b →
  ∃ train_dp val_dp rng',
    ASSISTDataProvider.fold_turn st split (threshold, rng) w
    = (Ok (train_dp, val_dp, (Some th, rng')), w) ∧
    provider_aligned train_dp ∧ provider_aligned val_dp ∧
    length (DataProvider.inputs (ASSISTDataProvider.base train_dp))
      = length (ASSISTDataProvider.b_inputs train) ∧
    length (DataProvider.inputs (ASSISTDataProvider.base val_dp))
      = length (ASSISTDataProvider.b_inputs val) ∧
    (∃ idx, idx ≡ₚ seq 0 (length (ASSISTDataProvider.b_inputs train)) ∧
            holds_rows train_dp (ASSISTDataProvider.b_inputs train)
              (ASSISTDataProvider.b_targets train)
              (ASSISTDataProvider.b_target_ids train) idx) ∧
    (∃ idx, idx ≡ₚ seq 0 (length (ASSISTDataProvider.b_inputs val)) ∧
            holds_rows val_dp (ASSISTDataProvider.b_inputs val)
              (ASSISTDataProvider.b_targets val)
              (ASSISTDataProvider.b_target_ids val) idx).
Proof.
  intros b a data_path Hbundles Haltrain Halval Hset Hyear Hinputs Htargets Hb Hm.
  unfold ASSISTDataProvider.fold_turn. fold b a.
  unfold mbind at 1, M_bind at 1, lift at 1. rewrite Hbundles. cbv beta iota.
  unfold mbind at 1, M_bind at 1. rewrite init_from_bundle_run. fold data_path.
  rewrite Hinputs, Htargets, !bool_decide_eq_true_2 by done. simpl andb. cbv iota.
  match goal with
  | |- context [ASSISTDataProvider.super__init__ ?self ?i ?t ?bs ?mnb ?so ?g] =>
      destruct (super_init_aligned self i t bs mnb so g Haltrain Hb Hm)
        as (idx & train_dp & Htrain_dp & Haldp & Hlen & Hidx & Hrows)
  end.
  rewrite Htrain_dp. cbv beta iota.
  unfold mbind at 1, M_bind at 1. rewrite init_from_bundle_run. fold data_path.
  rewrite Hinputs, Htargets, !bool_decide_eq_true_2 by done. simpl andb. cbv iota.
  match goal with
  | |- context [ASSISTDataProvider.super__init__ ?self ?i ?t ?bs ?mnb ?so ?g] =>
      destruct (super_init_aligned self i t bs mnb so g Halval Hb Hm)
        as (idxv & val_dp & Hval_dp & Halvdp & Hlenv & Hidxv & Hrowsv)
  end.
  rewrite Hval_dp. cbv beta iota.
  eexists train_dp, val_dp, _. split; [reflexivity|].
  do 4 (split; [done|]). split; [by exists idx|by exists idxv].
Qed.

Lemma fold_turn_aligned (st : ASSISTDataProvider.t) (train_index val_index : list nat)
    (threshold : option Z) (rng : rng_t) (w : os) :
  let b := ASSISTDataProvider.base st in
  let a := ASSISTDataProvider.own st in
  let data_path :=
    path_join (expanduser w (ASSISTDataProvider.data_dir a))
      (assist_name (ASSISTDataProvider.which_year a) (ASSISTDataProvider.which_set a)) in
  provider_aligned st →
  ASSISTDataProvider.is_truthy threshold = false →
  Forall (λ i, i < length (DataProvider.inputs b))%nat train_index →
  Forall (λ i, i < length (DataProvider.inputs b))%nat val_index →
  ASSISTDataProvider.which_set a ∈ ["train"; "test"] →
  ASSISTDataProvider.which_year a ∈ ["09"; "15"] →
  isfile w (data_path +:+ "-inputs.npz") = true →
  isfile w (data_path +:+ "-targets.npz") = true →
  1 ≤ DataProvider._batch_size b →
  DataProvider._max_num_batches b = -1 ∨ 0 < DataProvider._max_num_batches b →
  ∃ train_dp val_dp st' train_rows val_rows,
    ASSISTDataProvider.fold_turn st (train_index, val_index) (threshold, rng) w
    = (Ok (train_dp, val_dp, st'), w) ∧
    train_rows ≡ₚ train_index ∧ val_rows ≡ₚ val_index ∧
    holds_rows train_dp (DataProvider.inputs b) (DataProvider.targets b)
      (ASSISTDataProvider.target_ids a) train_rows ∧
    holds_rows val_dp (DataProvider.inputs b) (DataProvider.targets b)
      (ASSISTDataProvider.target_ids a) val_rows ∧
    provider_aligned train_dp ∧ provider_aligned val_dp ∧
    length (DataProvider.inputs (ASSISTDataProvider.base train_dp)) = length train_index ∧
    length (DataProvider.inputs (ASSISTDataProvider.base val_dp)) = length val_index.
Proof.
  intros b a data_path Hal Hth Htrain Hval Hset Hyear Hinputs Htargets Hb Hm.
  destruct (fold_bundles_aligned st train_index val_index threshold Hal Hth Htrain Hval)
    as (Hbundles & Haltrain & Halval).
  cbv zeta in Hbundles. fold b a in Hbundles, Haltrain, Halval.
  destruct (fold_turn_from_bundles st _ threshold rng w _ _ _ Hbundles Haltrain Halval
              Hset Hyear Hinputs Htargets Hb Hm)
    as (train_dp & val_dp & rng' & Hrun & Haldp & Halvdp & Hlen & Hlenv
        & (idx & Hidx & Hi & Ht & Hd) & (idxv & Hidxv & Hiv & Htv & Hdv)).
  simpl in Hlen, Hlenv, Hidx, Hi, Ht, Hd, Hidxv, Hiv, Htv, Hdv.
  fold b a in Hlen, Hlenv, Hidx, Hi, Ht, Hd, Hidxv, Hiv, Htv, Hdv.
  destruct Hal as [[Hit Htd] Ho]. fold b a in Hit, Htd.
  rewrite length_pick in Hidx, Hidxv by done.
  pose proof (perm_seq_bound _ _ Hidx) as Hbt.
  pose proof (perm_seq_bound _ _ Hidxv) as Hbv.
  eexists train_dp, val_dp, _, (pick train_index idx), (pick val_index idxv).
  split; [exact Hrun|].
  split; [by apply pick_Permutation|]. split; [by apply pick_Permutation|].
  split; [|split; [|split; [done|split; [done|]]]].
  - unfold holds_rows. rewrite Hi, Ht, Hd.
    by rewrite !pick_pick
      by first [done | by rewrite <- Hit | by rewrite <- Htd, <- Hit].
  - unfold holds_rows. rewrite Hiv, Htv, Hdv.
    by rewrite !pick_pick
      by first [done | by rewrite <- Hit | by rewrite <- Htd, <- Hit].
  - rewrite Hlen, Hlenv, !length_pick by done. done.
Qed.
End FoldProviders.

(** C9 as stated fails for the truncation: from one student with two
    targets, two ids and one answer set in the inputs, [truncate_sequences]
    returns one row of inputs, two of target ids and two of targets. *)
Lemma C9_counterexample :
  rows_aligned Tiny.uneven_inputs Tiny.uneven_targets Tiny.uneven_target_ids ∧
  ASSISTDataProvider.truncate_sequences Tiny.two_students_attrs Tiny.uneven_inputs
    Tiny.uneven_target_ids Tiny.uneven_targets 1
  = Ok ([[0; 1; 0]], [[1]; [1]], [[1]; [0]], 1) ∧
  ¬ rows_aligned [[0; 1; 0]] [[1]; [0]] [[1]; [1]].
Proof.
  split; [by split|]. split; [reflexivity|]. intros [Hlen _]. discriminate.
Qed.

Lemma truncate_sequences_aligned `{Numeric}
    (self : ASSISTDataProvider.attrs) (inputs target_ids : list (list scalar))
    (targets : list (list Z)) (threshold : Z) :
  let mna := ASSISTDataProvider.max_num_ans self in
  let ed := ASSISTDataProvider.encoding_dim self in
  let mpsi := ASSISTDataProvider.max_prob_set_id self in
  let effective := Z.min (Z.of_nat mna) threshold in
  nonzero zero = false →
  1 ≤ threshold → (1 ≤ mna)%nat → (1 ≤ ed)%nat → (1 ≤ mpsi)%nat →
  inputs ≠ [] → target_ids ≠ [] →
  Forall (λ row, length row = (mna * ed)%nat) inputs →
  Forall (λ row, length row = (mna * mpsi)%nat) target_ids →
  every_run_retains mna ed (Z.to_nat effective) inputs →
  every_run_retains mna mpsi (Z.to_nat effective) target_ids →
  Forall2 (λ row student, answers_marked mna ed (length student) row) inputs targets →
  Forall2 (λ row student, answers_marked mna mpsi (length student) row)
    target_ids targets →
  ∃ inputs' target_ids' targets',
    ASSISTDataProvider.truncate_sequences self inputs target_ids targets threshold
    = Ok (inputs', target_ids', targets', effective) ∧
    rows_aligned inputs' targets' target_ids'.
Proof.
  intros mna ed mpsi effective Hzero Hth Hmna Hed Hmpsi Hi Hd Hri Hrd Hruni Hrund
    Hmi Hmd.
  destruct (truncate_sequences_run self inputs target_ids targets threshold
              Hth Hmna Hed Hmpsi Hi Hd Hri Hrd Hruni Hrund) as [_ Hrun].
  fold mna ed mpsi effective in Hrun.
  do 3 eexists. split; [exact Hrun|].
  assert (0 < Z.to_nat effective)%nat as Hpos by (subst effective; lia).
  unfold rows_aligned.
  rewrite (retained_rows_count Hzero mna ed _ inputs targets Hpos Hmi).
  rewrite (retained_rows_count Hzero mna mpsi _ target_ids targets Hpos Hmd).
  rewrite length_concat_sum, <- list_fmap_compose.
  assert (∀ student : list Z,
            (length ∘ (λ student : list Z,
                         (λ i, window (Z.to_nat effective) i student)
                           <$> seq 0 ((length student + Z.to_nat effective - 1)
                                      `div` Z.to_nat effective))) student
            = ((length student + Z.to_nat effective - 1) `div` Z.to_nat effective)%nat)
    as Hcount by (intros student; simpl; by rewrite length_fmap, length_seq).
  rewrite (list_fmap_ext _ _ targets (λ _ student _, Hcount student)).
  done.
Qed.

Lemma truncate_sequences_padded `{Numeric}
    (self : ASSISTDataProvider.attrs) (inputs target_ids : list (list scalar))
    (targets : list (list Z)) (threshold : Z) :
  let mna := ASSISTDataProvider.max_num_ans self in
  let ed := ASSISTDataProvider.encoding_dim self in
  let mpsi := ASSISTDataProvider.max_prob_set_id self in
  nonzero zero = false →
  1 ≤ threshold → (1 ≤ mna)%nat → (1 ≤ ed)%nat → (1 ≤ mpsi)%nat →
  padded_data self threshold inputs target_ids targets →
  ∃ inputs' target_ids' targets',
    ASSISTDataProvider.truncate_sequences self inputs target_ids targets threshold
    = Ok (inputs', target_ids', targets', Z.min (Z.of_nat mna) threshold) ∧
    rows_aligned inputs' targets' target_ids'.
Proof.
  intros mna ed mpsi Hzero Hth Hmna Hed Hmpsi (Hi & Hri & Hrd & Hruni & Hrund & Hmi & Hmd).
  apply truncate_sequences_aligned; try done.
  intros ->. apply Forall2_nil_inv_l in Hmd. subst targets.
  apply Forall2_nil_inv_r in Hmi. done.
Qed.

Section TruncatingFolds.
Context `{RandomState}.

Lemma fold_bundles_truncated (st : ASSISTDataProvider.t)
    (train_index val_index : list nat) (threshold : Z) :
  let b := ASSISTDataProvider.base st in
  let a := ASSISTDataProvider.own st in
  let rows_of (idx : list nat) :=
    (pick (DataProvider.inputs b) idx, pick (ASSISTDataProvider.target_ids a) idx,
     pick (DataProvider.targets b) idx) in
  provider_aligned st →
  nonzero zero = false →
  1 ≤ threshold →
  (1 ≤ ASSISTDataProvider.max_num_ans a)%nat →
  (1 ≤ ASSISTDataProvider.encoding_dim a)%nat →
  (1 ≤ ASSISTDataProvider.max_prob_set_id a)%nat →
  Forall (λ i, i < length (DataProvider.inputs b))%nat train_index →
  Forall (λ i, i < length (DataProvider.inputs b))%nat val_index →
  padded_data a threshold (rows_of train_index).1.1 (rows_of train_index).1.2
    (rows_of train_index).2 →
  padded_data a threshold (rows_of val_index).1.1 (rows_of val_index).1.2
    (rows_of val_index).2 →
  ∃ train val,
    ASSISTDataProvider.fold_bundles st (train_index, val_index) (Some threshold)
    = Ok (train, val, Z.min (Z.of_nat (ASSISTDataProvider.max_num_ans a)) threshold) ∧
    rows_aligned (ASSISTDataProvider.b_inputs train) (ASSISTDataProvider.b_targets train)
      (ASSISTDataProvider.b_target_ids train) ∧
    rows_aligned (ASSISTDataProvider.b_inputs val) (ASSISTDataProvider.b_targets val)
      (ASSISTDataProvider.b_target_ids val).
Proof.
  intros b a rows_of [[Hit Htd] Ho] Hzero Hth Hmna Hed Hmpsi Htrain Hval Hptrain Hpval.
  fold b a in Hit, Htd. simpl in Hptrain, Hpval.
  set (effective := Z.min (Z.of_nat (ASSISTDataProvider.max_num_ans a)) threshold).
  destruct (truncate_sequences_padded a _ _ _ threshold Hzero Hth Hmna Hed Hmpsi Hptrain)
    as (i1 & d1 & t1 & Hrun1 & Hal1).
  assert (padded_data a effective (pick (DataProvider.inputs b) val_index)
            (pick (ASSISTDataProvider.target_ids a) val_index)
            (pick (DataProvider.targets b) val_index)) as Hpval'.
  { unfold padded_data in *.
    replace (Z.min (Z.of_nat (ASSISTDataProvider.max_num_ans a)) effective)
      with effective by (subst effective; lia).
    exact Hpval. }
  destruct (truncate_sequences_padded a _ _ _ effective Hzero ltac:(subst effective; lia)
              Hmna Hed Hmpsi Hpval')
    as (i2 & d2 & t2 & Hrun2 & Hal2).
  replace (Z.min (Z.of_nat (ASSISTDataProvider.max_num_ans a)) effective)
    with effective in Hrun2 by (subst effective; lia).
  fold effective in Hrun1.
  unfold ASSISTDataProvider.fold_bundles. fold b a.
  rewrite !fancy_index_pick by (by rewrite <- ?Htd, <- ?Hit).
  unfold ASSISTDataProvider.is_truthy. rewrite bool_decide_eq_false_2 by lia.
  unfold mbind, result_bind. cbv beta iota. simpl negb. cbv iota.
  simpl default. rewrite Hrun1. cbv beta iota. rewrite Hrun2. cbv beta iota.
  do 2 eexists. split; [reflexivity|]. done.
Qed.

Lemma fold_turn_truncating_aligned (st : ASSISTDataProvider.t)
    (train_index val_index : list nat) (threshold : Z) (rng : rng_t) (w : os) :
  let b := ASSISTDataProvider.base st in
  let a := ASSISTDataProvider.own st in
  let data_path :=
    path_join (expanduser w (ASSISTDataProvider.data_dir a))
      (assist_name (ASSISTDataProvider.which_year a) (ASSISTDataProvider.which_set a)) in
  let rows_of (idx : list nat) :=
    (pick (DataProvider.inputs b) idx, pick (ASSISTDataProvider.target_ids a) idx,
     pick (DataProvider.targets b) idx) in
  provider_aligned st →
  nonzero zero = false →
  1 ≤ threshold →
  (1 ≤ ASSISTDataProvider.max_num_ans a)%nat →
  (1 ≤ ASSISTDataProvider.encoding_dim a)%nat →
  (1 ≤ ASSISTDataProvider.max_prob_set_id a)%nat →
  Forall (λ i, i < length (DataProvider.inputs b))%nat train_index →
  Forall (λ i, i < length (DataProvider.inputs b))%nat val_index →
  padded_data a threshold (rows_of train_index).1.1 (rows_of train_index).1.2
    (rows_of train_index).2 →
  padded_data a threshold (rows_of val_index).1.1 (rows_of val_index).1.2
    (rows_of val_index).2 →
  ASSISTDataProvider.which_set a ∈ ["train"; "test"] →
  ASSISTDataProvider.which_year a ∈ ["09"; "15"] →
  isfile w (data_path +:+ "-inputs.npz") = true →
  isfile w (data_path +:+ "-targets.npz") = true →
  1 ≤ DataProvider._batch_size b →
  DataProvider._max_num_batches b = -1 ∨ 0 < DataProvider._max_num_batches b →
  ∃ train_dp val_dp rng',
    ASSISTDataProvider.fold_turn st (train_index, val_index) (Some threshold, rng) w
    = (Ok (train_dp, val_dp,
           (Some (Z.min (Z.of_nat (ASSISTDataProvider.max_num_ans a)) threshold), rng')),
       w) ∧
    provider_aligned train_dp ∧ provider_aligned val_dp.
Proof.
  intros b a data_path rows_of Hal Hzero Hth Hmna Hed Hmpsi Htrain Hval Hptrain Hpval
    Hset Hyear Hinputs Htargets Hb Hm.
  destruct (fold_bundles_truncated st train_index val_index threshold Hal Hzero Hth
              Hmna Hed Hmpsi Htrain Hval Hptrain Hpval)
    as (train & val & Hbundles & Haltrain & Halval).
  destruct (fold_turn_from_bundles st _ (Some threshold) rng w _ _ _ Hbundles Haltrain
              Halval Hset Hyear Hinputs Htargets Hb Hm)
    as (train_dp & val_dp & rng' & Hrun & Haldp & Halvdp & _).
  by exists train_dp, val_dp, rng'.
Qed.
End TruncatingFolds.

(** C9, as the code has it.  On a provider with one row per student in
    [inputs], [targets] and [target_ids] (and in [_current_order]):
    [shuffle()] applies one permutation to the three arrays; [reset()]
    leaves the three arrays as the rows of one index array, a permutation of
    all the rows; [reduce_data] cuts the three arrays at one slice bound,
    [int(rows * fraction)]; and a turn of the fold generator that does not
    truncate gives each of its two providers the rows of one index array, a
    permutation of the partition's, in the three arrays.  So the provider,
    the reduced arrays and the two providers have again one row per student
    in each array.  [truncate_sequences] keeps the sub-blocks of [inputs] and
    of [target_ids] that are not zero and slices the targets by their length:
    the three results have as many rows as one another when the data are
    padded as the files are, the first [len(targets)] answers of a student,
    and no others, being non-zero in both arrays, and every run of 1000 rows
    keeps a sub-block; and so have the two providers of a turn that
    truncates, when the rows of each partition are. *)
Theorem C9_operations_keep_rows_aligned `{RandomState}
    (st : ASSISTDataProvider.t) (fraction : number)
    (train_index val_index : list nat) (rng : rng_t) (w : os) :
  let b := ASSISTDataProvider.base st in
  let a := ASSISTDataProvider.own st in
  let n := length (DataProvider.inputs b) in
  let mna := ASSISTDataProvider.max_num_ans a in
  let data_path :=
    path_join (expanduser w (ASSISTDataProvider.data_dir a))
      (assist_name (ASSISTDataProvider.which_year a) (ASSISTDataProvider.which_set a)) in
  provider_aligned st →
  Forall (λ i, i < n)%nat train_index →
  Forall (λ i, i < n)%nat val_index →
  (∃ perm st1,
     ASSISTDataProvider.shuffle st = (Ok (), st1) ∧
     perm ≡ₚ seq 0 n ∧
     DataProvider.inputs (ASSISTDataProvider.base st1) = pick (DataProvider.inputs b) perm ∧
     DataProvider.targets (ASSISTDataProvider.base st1)
       = pick (DataProvider.targets b) perm ∧
     ASSISTDataProvider.target_ids (ASSISTDataProvider.own st1)
       = pick (ASSISTDataProvider.target_ids a) perm ∧
     provider_aligned st1) ∧
  (∃ idx st1,
     ASSISTDataProvider.reset st = (Ok (), st1) ∧
     idx ≡ₚ seq 0 n ∧
     holds_rows st1 (DataProvider.inputs b) (DataProvider.targets b)
       (ASSISTDataProvider.target_ids a) idx ∧
     provider_aligned st1 ∧
     length (DataProvider.inputs (ASSISTDataProvider.base st1)) = n) ∧
  match ASSISTDataProvider.int_of_product (Z.of_nat n) fraction with
  | Ok num_data =>
      ASSISTDataProvider.reduce_data a (DataProvider.inputs b) (DataProvider.targets b)
        fraction
      = Ok (py_slice_to num_data (DataProvider.inputs b),
            py_slice_to num_data (DataProvider.targets b),
            ASSISTDataProvider.set_target_ids
              (py_slice_to num_data (ASSISTDataProvider.target_ids a)) a) ∧
      rows_aligned (py_slice_to num_data (DataProvider.inputs b))
        (py_slice_to num_data (DataProvider.targets b))
        (py_slice_to num_data (ASSISTDataProvider.target_ids a))
  | Raise e =>
      ASSISTDataProvider.reduce_data a (DataProvider.inputs b) (DataProvider.targets b)
        fraction
      = Raise e
  end ∧
  (∀ threshold,
     nonzero zero = false →
     1 ≤ threshold → (1 ≤ mna)%nat →
     (1 ≤ ASSISTDataProvider.encoding_dim a)%nat →
     (1 ≤ ASSISTDataProvider.max_prob_set_id a)%nat →
     padded_data a threshold (DataProvider.inputs b) (ASSISTDataProvider.target_ids a)
       (DataProvider.targets b) →
     ∃ inputs' target_ids' targets',
       ASSISTDataProvider.truncate_sequences a (DataProvider.inputs b)
         (ASSISTDataProvider.target_ids a) (DataProvider.targets b) threshold
       = Ok (inputs', target_ids', targets', Z.min (Z.of_nat mna) threshold) ∧
       rows_aligned inputs' targets' target_ids') ∧
  (ASSISTDataProvider.which_set a ∈ ["train"; "test"] →
   ASSISTDataProvider.which_year a ∈ ["09"; "15"] →
   isfile w (data_path +:+ "-inputs.npz") = true →
   isfile w (data_path +:+ "-targets.npz") = true →
   1 ≤ DataProvider._batch_size b →
   DataProvider._max_num_batches b = -1 ∨ 0 < DataProvider._max_num_batches b →
   (∀ threshold,
      ASSISTDataProvider.is_truthy threshold = false →
      ∃ train_dp val_dp st' train_rows val_rows,
        ASSISTDataProvider.fold_turn st (train_index, val_index) (threshold, rng) w
        = (Ok (train_dp, val_dp, st'), w) ∧
        train_rows ≡ₚ train_index ∧ val_rows ≡ₚ val_index ∧
        holds_rows train_dp (DataProvider.inputs b) (DataProvider.targets b)
          (ASSISTDataProvider.target_ids a) train_rows ∧
        holds_rows val_dp (DataProvider.inputs b) (DataProvider.targets b)
          (ASSISTDataProvider.target_ids a) val_rows ∧
        provider_aligned train_dp ∧ provider_aligned val_dp ∧
        length (DataProvider.inputs (ASSISTDataProvider.base train_dp))
          = length train_index ∧
        length (DataProvider.inputs (ASSISTDataProvider.base val_dp))
          = length val_index) ∧
   (∀ threshold,
      nonzero zero = false →
      1 ≤ threshold → (1 ≤ mna)%nat →
      (1 ≤ ASSISTDataProvider.encoding_dim a)%nat →
      (1 ≤ ASSISTDataProvider.max_prob_set_id a)%nat →
      padded_data a threshold (pick (DataProvider.inputs b) train_index)
        (pick (ASSISTDataProvider.target_ids a) train_index)
        (pick (DataProvider.targets b) train_index) →
      padded_data a threshold (pick (DataProvider.inputs b) val_index)
        (pick (ASSISTDataProvider.target_ids a) val_index)
        (pick (DataProvider.targets b) val_index) →
      ∃ train_dp val_dp rng',
        ASSISTDataProvider.fold_turn st (train_index, val_index) (Some threshold, rng) w
        = (Ok (train_dp, val_dp, (Some (Z.min (Z.of_nat mna) threshold), rng')), w) ∧
        provider_aligned train_dp ∧ provider_aligned val_dp)).
Proof.
  intros b a n mna data_path Hal Htrain Hval.
  split; [|split; [|split; [|split]]].
  - destruct (shuffle_aligned st Hal)
      as (perm & st1 & Hrun & Hperm & Hi & Ht & Hd & _ & Hal1).
    by exists perm, st1.
  - destruct (reset_aligned st Hal) as (idx & st1 & Hrun & Hidx & Hrows & Hal1 & Hlen).
    by exists idx, st1.
  - rewrite reduce_data_run. fold n.
    destruct (ASSISTDataProvider.int_of_product (Z.of_nat n) fraction) as [num_data|e];
      [|done].
    split; [done|]. apply reduce_data_aligned, Hal.
  - intros threshold Hzero Hth Hmna Hed Hmpsi Hpad.
    by apply truncate_sequences_padded.
  - intros Hset Hyear Hinputs Htargets Hb Hm. split.
    + intros threshold Hth. by apply fold_turn_aligned.
    + intros threshold Hzero Hth Hmna Hed Hmpsi Hptrain Hpval.
      by apply fold_turn_truncating_aligned.
Qed.

Lemma C9_witness :
  provider_aligned Tiny.two_students ∧
  (∃ idx st1,
     ASSISTDataProvider.reset Tiny.two_students = (Ok (), st1) ∧
     idx ≡ₚ seq 0 2 ∧
     holds_rows st1 Tiny.two_students_inputs Tiny.two_students_targets
       [[1; 1]; [1; 0]] idx ∧
     provider_aligned st1 ∧
     length (DataProvider.inputs (ASSISTDataProvider.base st1)) = 2%nat) ∧
  (ASSISTDataProvider.reduce_data Tiny.two_students_attrs Tiny.two_students_inputs
     Tiny.two_students_targets (PyFloat (S754_finite false 4503599627370496 (-53)))
   = Ok (py_slice_to 1 Tiny.two_students_inputs, py_slice_to 1 Tiny.two_students_targets,
         ASSISTDataProvider.set_target_ids (H := Tiny.numeric)
           (py_slice_to 1 [[1; 1]; [1; 0]]) Tiny.two_students_attrs) ∧
   rows_aligned (py_slice_to 1 Tiny.two_students_inputs)
     (py_slice_to 1 Tiny.two_students_targets)
     (py_slice_to (A := list Z) 1 [[1; 1]; [1; 0]])) ∧
  (∃ inputs' target_ids' targets',
     ASSISTDataProvider.truncate_sequences Tiny.two_students_attrs
       Tiny.two_students_inputs [[1; 1]; [1; 0]] Tiny.two_students_targets 1
     = Ok (inputs', target_ids', targets', 1) ∧
     rows_aligned inputs' targets' target_ids') ∧
  (∃ train_dp val_dp st' train_rows val_rows,
     ASSISTDataProvider.fold_turn Tiny.two_students ([1%nat], [0%nat]) (None, 0%nat)
       Tiny.junk_files
     = (Ok (train_dp, val_dp, st'), Tiny.junk_files) ∧
     train_rows ≡ₚ [1%nat] ∧ val_rows ≡ₚ [0%nat] ∧
     holds_rows train_dp Tiny.two_students_inputs Tiny.two_students_targets
       [[1; 1]; [1; 0]] train_rows ∧
     holds_rows val_dp Tiny.two_students_inputs Tiny.two_students_targets
       [[1; 1]; [1; 0]] val_rows ∧
     provider_aligned train_dp ∧ provider_aligned val_dp ∧
     length (DataProvider.inputs (ASSISTDataProvider.base train_dp)) = 1%nat ∧
     length (DataProvider.inputs (ASSISTDataProvider.base val_dp)) = 1%nat) ∧
  (∃ train_dp val_dp rng',
     ASSISTDataProvider.fold_turn Tiny.two_students ([1%nat], [0%nat]) (Some 1, 0%nat)
       Tiny.junk_files
     = (Ok (train_dp, val_dp, (Some 1, rng')), Tiny.junk_files) ∧
     provider_aligned train_dp ∧ provider_aligned val_dp).
Proof.
  assert (provider_aligned Tiny.two_students) as Hal by (by repeat split).
  assert (∀ (ed : nat) (m : list (list Z)) (k : nat),
            retained_rows (H := Tiny.numeric) 2 ed 1 (window 1000 0 m) ≠ [] →
            (k * 1000 < length m)%nat → (length m ≤ 1000)%nat →
            retained_rows (H := Tiny.numeric) 2 ed 1 (window 1000 k m) ≠ []) as Hrun.
  { intros ed m k Hkeep Hk Hm. by assert (k = 0%nat) as -> by lia. }
  assert (∀ (ed count : nat) (row : list Z),
            (count ≤ 2)%nat →
            (existsb (nonzero (Numeric := Tiny.numeric)) (window ed 0 row) = true
               ↔ (0 < count)%nat) →
            (existsb (nonzero (Numeric := Tiny.numeric)) (window ed 1 row) = true
               ↔ (1 < count)%nat) →
            answers_marked (H := Tiny.numeric) 2 ed count row) as Hmark.
  { intros ed count row Hle H0 H1. split; [done|].
    intros [|[|j]] Hj; [done|done|lia]. }
  assert (padded_data (H := Tiny.numeric) Tiny.two_students_attrs 1
            Tiny.two_students_inputs [[1; 1]; [1; 0]] Tiny.two_students_targets)
    as Hpad.
  { split; [done|]. split; [repeat constructor|]. split; [repeat constructor|].
    split; [intros k Hk; apply Hrun; [by vm_compute|done|simpl; lia]|].
    split; [intros k Hk; apply Hrun; [by vm_compute|done|simpl; lia]|].
    split; repeat (constructor; [apply Hmark; [simpl; lia|marked_iff..]|]);
      constructor. }
  assert (padded_data (H := Tiny.numeric) Tiny.two_students_attrs 1
            [[1; 0; 0; 0; 0; 0]] [[1; 0]] [[1]]) as Hpad_train.
  { split; [done|]. split; [repeat constructor|]. split; [repeat constructor|].
    split; [intros k Hk; apply Hrun; [by vm_compute|done|simpl; lia]|].
    split; [intros k Hk; apply Hrun; [by vm_compute|done|simpl; lia]|].
    split; repeat (constructor; [apply Hmark; [simpl; lia|marked_iff..]|]);
      constructor. }
  assert (padded_data (H := Tiny.numeric) Tiny.two_students_attrs 1
            [[0; 1; 0; 0; 0; 1]] [[1; 1]] [[1; 0]]) as Hpad_val.
  { split; [done|]. split; [repeat constructor|]. split; [repeat constructor|].
    split; [intros k Hk; apply Hrun; [by vm_compute|done|simpl; lia]|].
    split; [intros k Hk; apply Hrun; [by vm_compute|done|simpl; lia]|].
    split; repeat (constructor; [apply Hmark; [simpl; lia|marked_iff..]|]);
      constructor. }
  destruct (C9_operations_keep_rows_aligned Tiny.two_students
              (PyFloat (S754_finite false 4503599627370496 (-53)))
              [1%nat] [0%nat] 0%nat Tiny.junk_files Hal)
    as (_ & Hreset & Hreduce & Htruncate & Hfold).
  { repeat constructor. }
  { repeat constructor. }
  destruct Hfold as [Hplain Htruncating];
    [apply list_elem_of_In; simpl; tauto | apply list_elem_of_In; simpl; tauto
    | reflexivity | reflexivity | simpl; lia | by left |].
  split; [exact Hal|]. split; [exact Hreset|]. split; [exact Hreduce|]. split; [|split].
  - apply (Htruncate 1); [reflexivity | lia | simpl; lia.. | exact Hpad].
  - by apply Hplain.
  - apply (Htruncating 1);
      [reflexivity | lia | simpl; lia.. | exact Hpad_train | exact Hpad_val].
Defined.

(** * Further properties *)

(** ** A provider in service *)

Lemma Forall_pick {A} (P : A → Prop) (a : list A) (idx : list nat) :
  Forall P a → Forall P (pick a idx).
Proof.
  intros Ha. apply Forall_forall. intros x Hx. unfold pick in Hx.
  apply list_elem_of_omap in Hx as (i & _ & Hi).
  by apply (Forall_lookup_1 P a i x).
Qed.

Lemma call_all_cons {S X} (m : M S X) (ms : list (M S X)) (s : S) :
  call_all (m :: ms) s
  = let '(r, s') := m s in
    let '(rs, s'') := call_all ms s' in
    (r :: rs, s'').
Proof. done. Qed.

Section Service.
Context `{RandomState}.
Implicit Types st : ASSISTDataProvider.t.

Lemma assist_shuffle_in_service st inputs0 targets0 target_ids0 :
  in_service st inputs0 targets0 target_ids0 →
  ∃ st1,
    ASSISTDataProvider.shuffle st = (Ok (), st1) ∧
    in_service st1 inputs0 targets0 target_ids0 ∧
    same_settings st st1 ∧
    DataProvider._curr_batch (ASSISTDataProvider.base st1)
    = DataProvider._curr_batch (ASSISTDataProvider.base st).
Proof.
  intros (Htr & Hshape & Hb & Hn & Hc).
  pose proof (tracks_lengths _ _ _ _ Htr) as (Hlt & Hlo & Hli & Hlt' & Hld).
  destruct (assist_shuffle_tracks st _ _ _ Htr) as (st1 & Hrun & Htr1 & _ & Hc1).
  destruct (assist_shuffle_run st) as (perm & g & _ & Hrun'); [congruence..|].
  rewrite Hrun in Hrun'. injection Hrun' as ->.
  eexists. split; [exact Hrun|]. split; [|split; [|done]].
  - split; [exact Htr1|]. by repeat split.
  - unfold same_settings. simpl. by destruct (ASSISTDataProvider.own st).
Qed.

Lemma same_settings_refl st : same_settings st st.
Proof. unfold same_settings. by destruct (ASSISTDataProvider.own st). Qed.

Lemma same_settings_trans st st1 st2 :
  same_settings st st1 → same_settings st1 st2 → same_settings st st2.
Proof.
  unfold same_settings. intros (-> & -> & -> & -> & Ho1) (-> & -> & -> & -> & Ho2).
  repeat split. rewrite Ho2, Ho1. by destruct (ASSISTDataProvider.own st).
Qed.

Lemma assist_new_epoch_in_service st inputs0 targets0 target_ids0 :
  in_service st inputs0 targets0 target_ids0 →
  ∃ st1,
    ASSISTDataProvider.new_epoch st = (Ok (), st1) ∧
    in_service st1 inputs0 targets0 target_ids0 ∧
    same_settings st st1 ∧
    DataProvider._curr_batch (ASSISTDataProvider.base st1) = 0.
Proof.
  intros (Htr & Hshape & Hb & Hn & Hc).
  set (st0 := ASSISTDataProvider.set_base
                (DataProvider.set__curr_batch 0 (ASSISTDataProvider.base st)) st).
  assert (in_service st0 inputs0 targets0 target_ids0) as Hin0.
  { split; [exact Htr|]. split; [exact Hshape|]. split; [exact Hb|].
    split; [exact Hn|]. simpl. lia. }
  assert (same_settings st st0) as Hs0.
  { unfold same_settings. subst st0. simpl. by destruct (ASSISTDataProvider.own st). }
  unfold ASSISTDataProvider.new_epoch, ASSISTDataProvider.inherited. run. fold st0.
  destruct (DataProvider.shuffle_order (ASSISTDataProvider.base st)) eqn:Hs.
  - destruct (assist_shuffle_in_service st0 _ _ _ Hin0)
      as (st1 & Hrun & Hin1 & Hsame & Hc1).
    exists st1. split; [exact Hrun|]. split; [exact Hin1|].
    split; [by apply (same_settings_trans st st0 st1)|by rewrite Hc1].
  - exists st0. split; [done|]. split; [exact Hin0|done].
Qed.

Lemma assist_reset_run st inputs0 targets0 target_ids0 :
  tracks st inputs0 targets0 target_ids0 →
  let b := ASSISTDataProvider.base st in
  ASSISTDataProvider.reset st
  = ASSISTDataProvider.new_epoch
      (ASSISTDataProvider.mk
         (DataProvider.mk inputs0 targets0
            (DataProvider._batch_size b) (DataProvider._max_num_batches b)
            (DataProvider.num_batches b) (DataProvider.shuffle_order b)
            (seq 0 (length inputs0)) (DataProvider.rng b)
            (DataProvider._curr_batch b))
         (ASSISTDataProvider.set_target_ids target_ids0 (ASSISTDataProvider.own st))).
Proof.
  intros Htr. pose proof (tracks_lengths _ _ _ _ Htr) as (Hlt & Hlo & Hli & Hlt' & Hld).
  destruct Htr as (Ht & Hd & Hp & Hi & Htg & Hids).
  intros b. fold b in Hlt, Hlo, Hli, Hlt', Hp, Hi, Htg, Hids.
  set (a := ASSISTDataProvider.own st) in *.
  pose proof (argsort_Permutation (DataProvider._current_order b)) as Hinv.
  rewrite Hlo in Hinv. pose proof (perm_seq_bound _ _ Hinv) as Hib.
  pose proof (pick_argsort _ _ Hp) as Hsorted.
  unfold ASSISTDataProvider.reset, ASSISTDataProvider.inherited. run. fold b a.
  rewrite !fancy_index_pick by (by rewrite ?Hlo, ?Hli, ?Hlt', ?Hld).
  rewrite Hi, Htg, Hids.
  rewrite !pick_pick by (by rewrite ?Ht, ?Hd, ?Hlo).
  rewrite Hsorted.
  assert (pick targets0 (seq 0 (length inputs0)) = targets0) as ->
    by (by rewrite <- Ht, pick_seq).
  assert (pick target_ids0 (seq 0 (length inputs0)) = target_ids0) as ->
    by (by rewrite <- Hd, pick_seq).
  rewrite pick_seq. f_equal.
Qed.

Lemma assist_reset_in_service st inputs0 targets0 target_ids0 :
  in_service st inputs0 targets0 target_ids0 →
  ∃ st1,
    ASSISTDataProvider.reset st = (Ok (), st1) ∧
    in_service st1 inputs0 targets0 target_ids0 ∧
    same_settings st st1 ∧
    DataProvider._curr_batch (ASSISTDataProvider.base st1) = 0.
Proof.
  intros (Htr & Hshape & Hb & Hn & Hc).
  rewrite (assist_reset_run st _ _ _ Htr).
  match goal with
  | |- context [ASSISTDataProvider.new_epoch ?r] => set (restored := r)
  end.
  assert (in_service restored inputs0 targets0 target_ids0) as Hin.
  { destruct Htr as (Ht & Hd & Hp & Hi & Htg & Hids).
    split; [|by repeat split].
    unfold tracks. simpl. split; [done|]. split; [done|]. split; [done|].
    split; [by rewrite pick_seq|].
    split; [by rewrite <- Ht, pick_seq|by rewrite <- Hd, pick_seq]. }
  destruct (assist_new_epoch_in_service restored _ _ _ Hin)
    as (st1 & Hrun & Hin1 & Hsame & Hc1).
  exists st1. split; [done|]. split; [done|]. split; [|done].
  apply (same_settings_trans st restored st1); [|done].
  unfold same_settings. subst restored. simpl.
  by destruct (ASSISTDataProvider.own st).
Qed.

Lemma assist_next_in_service st inputs0 targets0 target_ids0 :
  in_service st inputs0 targets0 target_ids0 →
  ∃ r st1,
    ASSISTDataProvider.next st = (r, st1) ∧
    in_service st1 inputs0 targets0 target_ids0 ∧
    same_settings st st1 ∧
    (r = Raise StopIteration ∨ ∃ batch, r = Ok batch).
Proof.
  intros Hin. pose proof Hin as (Htr & Hshape & Hb & Hn & Hc).
  pose proof (tracks_lengths _ _ _ _ Htr) as (Hlt & Hlo & Hli & Hlt' & Hld).
  set (b := ASSISTDataProvider.base st) in *.
  destruct (decide (DataProvider._curr_batch b + 1 > DataProvider.num_batches b))
    as [Hend|Hmore].
  - destruct (assist_new_epoch_in_service st _ _ _ Hin)
      as (st1 & Hrun & Hin1 & Hsame & _).
    exists (Raise StopIteration), st1. split; [|split; [done|split; [done|by left]]].
    unfold ASSISTDataProvider.next.
    unfold mbind at 1, M_bind at 1, get. cbv beta iota. fold b.
    rewrite decide_True by done.
    unfold mbind, M_bind. by rewrite Hrun.
  - set (c := Z.to_nat (DataProvider._curr_batch b)).
    assert (DataProvider._curr_batch b = Z.of_nat c) as Hcb by (subst c; lia).
    assert (Z.of_nat c + 1 ≤ DataProvider.num_batches b) as Hfit by lia.
    pose proof (assist_next_emit st c Hcb Hfit Hb) as Hemit.
    cbv zeta in Hemit. fold b in Hemit.
    rewrite Hemit.
    + do 2 eexists. split; [reflexivity|].
      split; [|split; [|right; by eexists]].
      * split; [exact Htr|]. repeat split; try done; simpl; lia.
      * unfold same_settings. simpl. by destruct (ASSISTDataProvider.own st).
    + rewrite Hli. exact Hn.
    + by rewrite Hlt', Hli.
    + by rewrite Hld, Hli.
    + destruct Htr as (_ & _ & _ & Hi & _). fold b in Hi. rewrite Hi.
      by apply Forall_pick.
Qed.

Lemma assist_method_in_service st inputs0 targets0 target_ids0 (m : method) :
  in_service st inputs0 targets0 target_ids0 →
  ∃ r st1,
    assist_method m st = (r, st1) ∧
    in_service st1 inputs0 targets0 target_ids0 ∧
    same_settings st st1 ∧
    (r = Raise StopIteration ∨ ∃ x, r = Ok x).
Proof.
  intros Hin. destruct m; unfold assist_method, mbind, M_bind.
  - destruct (assist_next_in_service st _ _ _ Hin) as (r & st1 & -> & Hin1 & Hs & Hr).
    destruct Hr as [->|[batch ->]].
    + do 2 eexists. split; [reflexivity|]. split; [done|]. split; [done|by left].
    + do 2 eexists. split; [reflexivity|]. split; [done|].
      split; [done|right; by eexists].
  - destruct (assist_shuffle_in_service st _ _ _ Hin) as (st1 & -> & Hin1 & Hs & _).
    do 2 eexists. split; [reflexivity|]. split; [done|].
    split; [done|right; by eexists].
  - destruct (assist_reset_in_service st _ _ _ Hin) as (st1 & -> & Hin1 & Hs & _).
    do 2 eexists. split; [reflexivity|]. split; [done|].
    split; [done|right; by eexists].
  - destruct (assist_new_epoch_in_service st _ _ _ Hin) as (st1 & -> & Hin1 & Hs & _).
    do 2 eexists. split; [reflexivity|]. split; [done|].
    split; [done|right; by eexists].
Qed.

Lemma call_all_in_service st inputs0 targets0 target_ids0 (ms : list method) :
  in_service st inputs0 targets0 target_ids0 →
  ∃ rs st1,
    call_all (assist_method <$> ms) st = (rs, st1) ∧
    in_service st1 inputs0 targets0 target_ids0 ∧
    same_settings st st1 ∧
    length rs = length ms ∧
    Forall (λ r, r = Raise StopIteration ∨ ∃ x, r = Ok x) rs.
Proof.
  revert st. induction ms as [|m ms IH]; intros st Hin.
  - exists [], st. split; [done|]. split; [done|].
    split; [apply same_settings_refl|]. by split.
  - destruct (assist_method_in_service st _ _ _ m Hin) as (r & st1 & Hrun & Hin1 & Hs1 & Hr).
    destruct (IH st1 Hin1) as (rs & st2 & Hrest & Hin2 & Hs2 & Hlen & Hrs).
    exists (r :: rs), st2. rewrite fmap_cons, call_all_cons, Hrun, Hrest.
    split; [done|]. split; [done|].
    split; [by apply (same_settings_trans st st1 st2)|].
    split; [simpl; by rewrite Hlen|by constructor].
Qed.

Lemma super_init_in_service (self : ASSISTDataProvider.attrs)
    (inputs : list (list scalar)) (targets : list (list Z))
    (batch_size max_num_batches : Z) (shuffle_order : bool) (rng : option rng_t) :
  rows_aligned inputs targets (ASSISTDataProvider.target_ids self) →
  Forall (λ row, length row = (ASSISTDataProvider.max_num_ans self
                               * ASSISTDataProvider.encoding_dim self)%nat) inputs →
  1 ≤ batch_size → max_num_batches = -1 ∨ 0 < max_num_batches →
  ∃ st,
    ASSISTDataProvider.super__init__ self inputs targets batch_size max_num_batches
      shuffle_order rng = Ok st ∧
    in_service st inputs targets (ASSISTDataProvider.target_ids self) ∧
    DataProvider._curr_batch (ASSISTDataProvider.base st) = 0 ∧
    DataProvider.num_batches (ASSISTDataProvider.base st)
    = expected_num_batches (Z.of_nat (length inputs)) batch_size max_num_batches ∧
    DataProvider._batch_size (ASSISTDataProvider.base st) = batch_size ∧
    ASSISTDataProvider.own st
    = ASSISTDataProvider.set_target_ids
        (ASSISTDataProvider.target_ids (ASSISTDataProvider.own st)) self.
Proof.
  intros [Hit Htd] Hshape Hb Hm. unfold ASSISTDataProvider.super__init__.
  rewrite !decide_False by lia.
  set (b := DataProvider.mk _ _ _ _ _ _ _ _ _).
  unfold mbind at 1, M_bind at 1, ASSISTDataProvider.inherited at 1.
  cbn [ASSISTDataProvider.base].
  rewrite (update_num_batches_run b) by (subst b; simpl; lia).
  cbv beta iota.
  set (st0 := ASSISTDataProvider.set_base _ _).
  pose proof (expected_num_batches_bounds (Z.of_nat (length inputs)) batch_size
                max_num_batches ltac:(lia) Hb Hm) as [Hpos Hle].
  assert (in_service st0 inputs targets (ASSISTDataProvider.target_ids self)) as Hin0.
  { split.
    - unfold tracks. subst st0 b. simpl. split; [done|]. split; [congruence|].
      split; [done|]. split; [by rewrite pick_seq|].
      split; [by rewrite Hit, pick_seq|by rewrite Hit, Htd, pick_seq].
    - subst st0 b. simpl. split; [done|]. split; [done|]. split; [|done].
      unfold DataProvider.shape0. simpl. lia. }
  destruct (assist_new_epoch_in_service st0 _ _ _ Hin0)
    as (st & Hrun & Hin1 & (Hbs & Hmnb & Hnb & Hso & Hown) & Hc).
  rewrite Hrun. exists st. split; [done|]. split; [done|]. split; [done|].
  split; [by rewrite Hnb|]. split; [by rewrite Hbs|by rewrite Hown].
Qed.

End Service.

(** X1.  A provider built on aligned rows of [max_num_ans] answers of
    [encoding_dim] entries, with a valid [batch_size] and [max_num_batches],
    serves every sequence of [next()], [shuffle()], [reset()] and
    [new_epoch()] calls: each call returns or raises [StopIteration], and no
    other exception; afterwards the provider still holds the rows of its
    construction, [inputs], [targets] and [target_ids] in one and the same
    order, and its settings are those of the construction. *)
Theorem calls_raise_only_StopIteration `{RandomState}
    (self : ASSISTDataProvider.attrs) (inputs : list (list scalar))
    (targets : list (list Z)) (batch_size max_num_batches : Z)
    (shuffle_order : bool) (rng : option rng_t) (ms : list method) :
  rows_aligned inputs targets (ASSISTDataProvider.target_ids self) →
  Forall (λ row, length row = (ASSISTDataProvider.max_num_ans self
                               * ASSISTDataProvider.encoding_dim self)%nat) inputs →
  1 ≤ batch_size →
  max_num_batches = -1 ∨ 0 < max_num_batches →
  ∃ st rs st',
    ASSISTDataProvider.super__init__ self inputs targets batch_size max_num_batches
      shuffle_order rng = Ok st ∧
    call_all (assist_method <$> ms) st = (rs, st') ∧
    length rs = length ms ∧
    Forall (λ r, r = Raise StopIteration ∨ ∃ x, r = Ok x) rs ∧
    tracks st' inputs targets (ASSISTDataProvider.target_ids self) ∧
    same_settings st st'.
Proof.
  intros Hal Hshape Hb Hm.
  destruct (super_init_in_service self inputs targets batch_size max_num_batches
              shuffle_order rng Hal Hshape Hb Hm) as (st & Hinit & Hin & _).
  destruct (call_all_in_service st _ _ _ ms Hin) as (rs & st' & Hrun & Hin' & Hs & Hlen & Hrs).
  exists st, rs, st'. split; [done|]. split; [done|]. split; [done|].
  split; [done|]. split; [apply Hin'|done].
Qed.

Lemma calls_raise_only_StopIteration_witness :
  ∃ (st : ASSISTDataProvider.t (H0 := Tiny.random_state)) rs st',
    ASSISTDataProvider.super__init__ Tiny.two_students_attrs Tiny.two_students_inputs
      Tiny.two_students_targets 1 (-1) true None = Ok st ∧
    call_all (assist_method <$> [call_next; call_next; call_next; call_shuffle;
                                 call_reset; call_next]) st = (rs, st') ∧
    length rs = 6%nat ∧
    Forall (λ r, r = Raise StopIteration ∨ ∃ x, r = Ok x) rs ∧
    tracks st' Tiny.two_students_inputs Tiny.two_students_targets [[1; 1]; [1; 0]] ∧
    same_settings st st'.
Proof.
  apply (calls_raise_only_StopIteration Tiny.two_students_attrs
           Tiny.two_students_inputs Tiny.two_students_targets 1 (-1) true None
           [call_next; call_next; call_next; call_shuffle; call_reset; call_next]);
    [by split | repeat constructor | lia | by left].
Defined.

(** The third call of [next] on the two students, one per batch, is the one
    that ends the pass. *)
Example two_students_one_by_one :
  ∃ st : ASSISTDataProvider.t (H0 := Tiny.random_state),
    ASSISTDataProvider.super__init__ Tiny.two_students_attrs Tiny.two_students_inputs
      Tiny.two_students_targets 1 (-1) false None = Ok st ∧
    (call_all (assist_method <$> [call_next; call_next; call_next; call_next]) st).1
    = [Ok (Some ([[[0; 1; 0]; [0; 0; 1]]], [1; 0], [1; 1]));
       Ok (Some ([[[1; 0; 0]; [0; 0; 0]]], [1], [1; 0]));
       Raise StopIteration;
       Ok (Some ([[[0; 1; 0]; [0; 0; 1]]], [1; 0], [1; 1]))].
Proof. eexists. split; reflexivity. Qed.

(** ** The batches of the ASSISTments provider *)

Section BatchShape.
Context `{RandomState}.
Implicit Types st : ASSISTDataProvider.t.

Lemma assist_next_transform st (c : nat) :
  let b := ASSISTDataProvider.base st in
  let a := ASSISTDataProvider.own st in
  let size := Z.to_nat (DataProvider._batch_size b) in
  DataProvider._curr_batch b = Z.of_nat c →
  Z.of_nat c + 1 ≤ DataProvider.num_batches b →
  1 ≤ DataProvider._batch_size b →
  DataProvider.num_batches b * DataProvider._batch_size b
    ≤ Z.of_nat (length (DataProvider.inputs b)) →
  length (DataProvider.targets b) = length (DataProvider.inputs b) →
  length (ASSISTDataProvider.target_ids a) = length (DataProvider.inputs b) →
  ASSISTDataProvider.next st
  = (match reshape3 size (ASSISTDataProvider.max_num_ans a)
             (ASSISTDataProvider.encoding_dim a)
             (concat (window size c (DataProvider.inputs b))) with
     | Ok batch_inputs =>
         Ok (batch_inputs,
             float32 <$> concat (window size c (DataProvider.targets b)),
             int32 <$> concat (window size c (ASSISTDataProvider.target_ids a)))
     | Raise e => Raise e
     end,
     ASSISTDataProvider.set_base
       (DataProvider.set__curr_batch (Z.of_nat (S c)) b) st).
Proof.
  intros b a size Hc Hn Hb Hrows Ht Hids.
  unfold ASSISTDataProvider.next, DataProvider.batch_slice. run.
  fold b a. case_decide; [lia|]. rewrite Hc.
  replace (Z.of_nat c * DataProvider._batch_size b) with (Z.of_nat (c * size)) by lia.
  replace ((Z.of_nat c + 1) * DataProvider._batch_size b)
    with (Z.of_nat ((c + 1) * size)) by lia.
  assert ((c + 1) * size ≤ length (DataProvider.inputs b))%nat by nia.
  rewrite !py_slice_inside by lia.
  replace ((c + 1) * size - c * size)%nat with size by lia.
  fold (window size c (DataProvider.inputs b)).
  fold (window size c (DataProvider.targets b)).
  fold (window size c (ASSISTDataProvider.target_ids a)).
  unfold ASSISTDataProvider.inherited, ASSISTDataProvider.transform_batch.
  run. fold b a size.
  replace (Z.of_nat c + 1) with (Z.of_nat (S c)) by lia.
  by destruct (reshape3 _ _ _ _).
Qed.

End BatchShape.

(** X2.  The inputs of a batch are the rows of its students, reshaped and
    otherwise untouched: [batch_size] students of [max_num_ans] answers of
    [encoding_dim] entries each, which flattened student by student are the
    rows of the slice again.  The call moves the batch counter and nothing
    else. *)
Theorem batch_inputs_are_the_rows_of_the_slice `{RandomState}
    (st : ASSISTDataProvider.t) (c : nat) :
  let b := ASSISTDataProvider.base st in
  let a := ASSISTDataProvider.own st in
  let size := Z.to_nat (DataProvider._batch_size b) in
  DataProvider._curr_batch b = Z.of_nat c →
  Z.of_nat c + 1 ≤ DataProvider.num_batches b →
  1 ≤ DataProvider._batch_size b →
  DataProvider.num_batches b * DataProvider._batch_size b
    ≤ Z.of_nat (length (DataProvider.inputs b)) →
  length (DataProvider.targets b) = length (DataProvider.inputs b) →
  length (ASSISTDataProvider.target_ids a) = length (DataProvider.inputs b) →
  Forall (λ row, length row = (ASSISTDataProvider.max_num_ans a
                               * ASSISTDataProvider.encoding_dim a)%nat)
    (DataProvider.inputs b) →
  ∃ batch_inputs batch_targets batch_target_ids,
    ASSISTDataProvider.next st
    = (Ok (batch_inputs, batch_targets, batch_target_ids),
       ASSISTDataProvider.set_base
         (DataProvider.set__curr_batch (Z.of_nat c + 1) b) st) ∧
    length batch_inputs = size ∧
    Forall (λ student,
              length student = ASSISTDataProvider.max_num_ans a ∧
              Forall (λ answer, length answer = ASSISTDataProvider.encoding_dim a)
                student) batch_inputs ∧
    (λ student, concat student) <$> batch_inputs = window size c (DataProvider.inputs b).
Proof.
  intros b a size Hc Hn Hb Hrows Ht Hids Hrect.
  pose proof (assist_next_emit st c Hc Hn Hb Hrows Ht Hids Hrect) as Hemit.
  cbv zeta in Hemit. fold b a size in Hemit.
  assert ((c + 1) * size ≤ length (DataProvider.inputs b))%nat as Hfit
    by (subst size; nia).
  set (rows := window size c (DataProvider.inputs b)) in *.
  assert (length rows = size) as Hlen by (by apply length_window).
  assert (Forall (λ row, length row = (ASSISTDataProvider.max_num_ans a
                                       * ASSISTDataProvider.encoding_dim a)%nat) rows)
    as Hrect' by (by apply Forall_take, Forall_drop).
  rewrite <- Hlen in Hemit at 1. rewrite chunks_concat in Hemit by done.
  replace (Z.of_nat (S c)) with (Z.of_nat c + 1) in Hemit by lia.
  do 3 eexists. split; [exact Hemit|].
  split; [by rewrite length_fmap|]. split.
  - apply Forall_fmap. eapply Forall_impl; [exact Hrect'|].
    intros row Hrow. simpl. split; [apply length_chunks|].
    by apply chunks_widths.
  - rewrite <- list_fmap_compose.
    rewrite <- (list_fmap_id rows) at 2.
    apply Forall_fmap_ext. eapply Forall_impl; [exact Hrect'|].
    intros row Hrow. simpl. by apply concat_chunks.
Qed.

Lemma batch_inputs_are_the_rows_of_the_slice_witness :
  ∃ batch_inputs batch_targets batch_target_ids,
    ASSISTDataProvider.next Tiny.two_students
    = (Ok (batch_inputs, batch_targets, batch_target_ids),
       ASSISTDataProvider.set_base
         (DataProvider.set__curr_batch (Z.of_nat 0 + 1)
            (ASSISTDataProvider.base Tiny.two_students)) Tiny.two_students) ∧
    length batch_inputs = 2%nat ∧
    Forall (λ student,
              length student = 2%nat ∧ Forall (λ answer, length answer = 3%nat) student)
      batch_inputs ∧
    (λ student, concat student) <$> batch_inputs = window 2 0 Tiny.two_students_inputs.
Proof.
  apply (batch_inputs_are_the_rows_of_the_slice Tiny.two_students 0);
    [reflexivity | simpl; lia | simpl; lia | simpl; lia | reflexivity | reflexivity
    | repeat constructor].
Defined.

(** X3.  A batch whose rows do not hold [batch_size * max_num_ans *
    encoding_dim] entries cannot be reshaped: [next()] raises [ValueError].
    The batch counter has moved by then, so the batch is passed over and the
    call after this one goes on with the batch that follows. *)
Theorem next_passes_over_a_batch_it_cannot_reshape `{RandomState}
    (st : ASSISTDataProvider.t) (c : nat) :
  let b := ASSISTDataProvider.base st in
  let a := ASSISTDataProvider.own st in
  let size := Z.to_nat (DataProvider._batch_size b) in
  DataProvider._curr_batch b = Z.of_nat c →
  Z.of_nat c + 1 ≤ DataProvider.num_batches b →
  1 ≤ DataProvider._batch_size b →
  DataProvider.num_batches b * DataProvider._batch_size b
    ≤ Z.of_nat (length (DataProvider.inputs b)) →
  length (DataProvider.targets b) = length (DataProvider.inputs b) →
  length (ASSISTDataProvider.target_ids a) = length (DataProvider.inputs b) →
  length (concat (window size c (DataProvider.inputs b)))
    ≠ (size * ASSISTDataProvider.max_num_ans a * ASSISTDataProvider.encoding_dim a)%nat →
  ASSISTDataProvider.next st
  = (Raise ValueError,
     ASSISTDataProvider.set_base (DataProvider.set__curr_batch (Z.of_nat c + 1) b) st).
Proof.
  intros b a size Hc Hn Hb Hrows Ht Hids Hsize.
  pose proof (assist_next_transform st c Hc Hn Hb Hrows Ht Hids) as Hrun.
  cbv zeta in Hrun. fold b a size in Hrun. rewrite Hrun.
  unfold reshape3. rewrite decide_False by done.
  by replace (Z.of_nat (S c)) with (Z.of_nat c + 1) by lia.
Qed.

Lemma next_passes_over_a_batch_it_cannot_reshape_witness :
  let st :=
    ASSISTDataProvider.mk
      (DataProvider.mk (H0 := Tiny.random_state) Tiny.two_students_inputs
         Tiny.two_students_targets 2 (-1) 1 false [0; 1]%nat 0%nat 0)
      (ASSISTDataProvider.set_sizes 3 1 3 Tiny.two_students_attrs) in
  ASSISTDataProvider.next st
  = (Raise ValueError,
     ASSISTDataProvider.set_base
       (DataProvider.set__curr_batch (Z.of_nat 0 + 1) (ASSISTDataProvider.base st)) st).
Proof.
  apply (next_passes_over_a_batch_it_cannot_reshape
           (ASSISTDataProvider.mk
              (DataProvider.mk (H0 := Tiny.random_state) Tiny.two_students_inputs
                 Tiny.two_students_targets 2 (-1) 1 false [0; 1]%nat 0%nat 0)
              (ASSISTDataProvider.set_sizes 3 1 3 Tiny.two_students_attrs)) 0);
    [reflexivity | simpl; lia | simpl; lia | simpl; lia | reflexivity | reflexivity
    | simpl; lia].
Defined.

(** ** The generic provider in service *)

Lemma take_pick {A} (a : list A) (idx : list nat) (n : nat) :
  Forall (λ i, i < length a)%nat idx → take n (pick a idx) = pick a (take n idx).
Proof.
  intros Hidx. revert n. induction Hidx as [|i idx Hi _ IH]; intros n.
  - unfold pick. simpl. by rewrite !take_nil.
  - destruct (lookup_lt_is_Some_2 a i Hi) as [x Hx].
    destruct n as [|n]; [done|].
    unfold pick in *. simpl. rewrite Hx. simpl. by rewrite IH.
Qed.

Lemma drop_pick {A} (a : list A) (idx : list nat) (n : nat) :
  Forall (λ i, i < length a)%nat idx → drop n (pick a idx) = pick a (drop n idx).
Proof.
  intros Hidx. revert n. induction Hidx as [|i idx Hi _ IH]; intros n.
  - unfold pick. simpl. by rewrite !drop_nil.
  - destruct (lookup_lt_is_Some_2 a i Hi) as [x Hx].
    destruct n as [|n]; [done|].
    unfold pick in *. simpl. rewrite Hx. simpl. by rewrite IH.
Qed.

Lemma window_pick {A} (a : list A) (idx : list nat) (size c : nat) :
  Forall (λ i, i < length a)%nat idx →
  window size c (pick a idx) = pick a (window size c idx).
Proof.
  intros Hidx. unfold window.
  rewrite drop_pick by done. by rewrite take_pick by (by apply Forall_drop).
Qed.

Section Serving.
Context `{RandomState} {A B : Type}.
Implicit Types dp : DataProvider.t A B.

Lemma serving_lengths dp (size0 : Z) (inputs0 : list A) (targets0 : list B) :
  serving dp size0 inputs0 targets0 →
  Forall (λ i, i < length inputs0)%nat (DataProvider._current_order dp) ∧
  length (DataProvider._current_order dp) = length inputs0 ∧
  length (DataProvider.inputs dp) = length inputs0 ∧
  length (DataProvider.targets dp) = length inputs0.
Proof.
  intros (Ht & Hp & Hi & Htg & _).
  pose proof (perm_seq_bound _ _ Hp) as Hlt.
  assert (length (DataProvider._current_order dp) = length inputs0) as Hlen
    by (by rewrite Hp, length_seq).
  rewrite Hi, Htg, !length_pick by (by rewrite ?Ht). done.
Qed.

Lemma shuffle_serving dp size0 inputs0 targets0 :
  serving dp size0 inputs0 targets0 →
  ∃ dp1,
    DataProvider.shuffle dp = (Ok (), dp1) ∧
    serving dp1 size0 inputs0 targets0 ∧
    DataProvider._curr_batch dp1 = DataProvider._curr_batch dp ∧
    DataProvider.shuffle_order dp1 = DataProvider.shuffle_order dp.
Proof.
  intros Hin. pose proof (serving_lengths _ _ _ _ Hin) as (Hlt & Hlo & Hli & Hlt').
  destruct Hin as (Ht & Hp & Hi & Htg & Hbs & Hb & Hn & Hc).
  destruct (shuffle_run dp) as (perm & g & Hperm & Hrun); [congruence..|].
  rewrite Hli in Hperm. pose proof (perm_seq_bound _ _ Hperm) as Hpb.
  eexists. split; [exact Hrun|]. split; [|done].
  unfold serving. simpl. rewrite Hi, Htg.
  rewrite !pick_pick by (by rewrite ?Ht, ?Hlo).
  split; [done|]. split; [|done].
  rewrite pick_Permutation by (by rewrite Hlo). done.
Qed.

Lemma new_epoch_serving dp size0 inputs0 targets0 :
  serving dp size0 inputs0 targets0 →
  ∃ dp1,
    DataProvider.new_epoch dp = (Ok (), dp1) ∧
    serving dp1 size0 inputs0 targets0 ∧
    DataProvider._curr_batch dp1 = 0 ∧
    DataProvider.shuffle_order dp1 = DataProvider.shuffle_order dp ∧
    (DataProvider.shuffle_order dp = false →
     dp1 = DataProvider.set__curr_batch 0 dp).
Proof.
  intros Hin. pose proof Hin as (Ht & Hp & Hi & Htg & Hbs & Hb & Hn & Hc).
  set (dp0 := DataProvider.set__curr_batch 0 dp).
  assert (serving dp0 size0 inputs0 targets0) as Hin0.
  { split; [done|]. split; [done|]. split; [done|]. split; [done|].
    split; [done|]. split; [done|]. split; [done|]. simpl. lia. }
  unfold DataProvider.new_epoch. run. fold dp0.
  destruct (DataProvider.shuffle_order dp) eqn:Hs.
  - destruct (shuffle_serving dp0 _ _ _ Hin0) as (dp1 & Hrun & Hin1 & Hc1 & Hs1).
    exists dp1. split; [exact Hrun|]. split; [exact Hin1|].
    split; [by rewrite Hc1|]. split; [by rewrite Hs1|done].
  - exists dp0. split; [done|]. split; [exact Hin0|]. by repeat split.
Qed.

Lemma reset_serving dp size0 inputs0 targets0 :
  serving dp size0 inputs0 targets0 →
  ∃ dp1,
    DataProvider.reset dp = (Ok (), dp1) ∧
    serving dp1 size0 inputs0 targets0 ∧
    DataProvider._curr_batch dp1 = 0 ∧
    DataProvider.shuffle_order dp1 = DataProvider.shuffle_order dp ∧
    (DataProvider.shuffle_order dp = false →
     DataProvider.inputs dp1 = inputs0 ∧
     DataProvider.targets dp1 = targets0 ∧
     DataProvider._current_order dp1 = seq 0 (length inputs0)).
Proof.
  intros Hin. pose proof (serving_lengths _ _ _ _ Hin) as (Hlt & Hlo & Hli & Hlt').
  destruct Hin as (Ht & Hp & Hi & Htg & Hbs & Hb & Hn & Hc).
  pose proof (argsort_Permutation (DataProvider._current_order dp)) as Hinv.
  rewrite Hlo in Hinv. pose proof (perm_seq_bound _ _ Hinv) as Hib.
  pose proof (pick_argsort _ _ Hp) as Hsorted.
  set (restored :=
         DataProvider.mk inputs0 targets0
           (DataProvider._batch_size dp) (DataProvider._max_num_batches dp)
           (DataProvider.num_batches dp) (DataProvider.shuffle_order dp)
           (seq 0 (length inputs0)) (DataProvider.rng dp)
           (DataProvider._curr_batch dp)).
  assert (serving restored size0 inputs0 targets0) as Hin.
  { unfold serving. simpl. split; [done|]. split; [done|].
    split; [by rewrite pick_seq|]. split; [by rewrite <- Ht, pick_seq|done]. }
  destruct (new_epoch_serving restored _ _ _ Hin) as (dp1 & Hrun & Hin1 & Hc1 & Hso & Hoff).
  exists dp1. split.
  - unfold DataProvider.reset. run.
    rewrite !fancy_index_pick by (by rewrite ?Hlo, ?Hli, ?Hlt').
    rewrite Hi, Htg.
    rewrite !pick_pick by (by rewrite ?Ht, ?Hlo).
    rewrite Hsorted.
    assert (pick targets0 (seq 0 (length inputs0)) = targets0) as ->
      by (by rewrite <- Ht, pick_seq).
    rewrite pick_seq, <- Hrun. f_equal.
  - split; [done|]. split; [done|]. split; [done|].
    intros Hs. by rewrite (Hoff Hs).
Qed.

Lemma next_serving dp size0 inputs0 targets0 :
  serving dp size0 inputs0 targets0 →
  ∃ r dp1,
    DataProvider.next dp = (r, dp1) ∧
    serving dp1 size0 inputs0 targets0 ∧
    DataProvider.shuffle_order dp1 = DataProvider.shuffle_order dp ∧
    served inputs0 targets0 (Z.to_nat size0) (batch ← r; Ok (Some batch)).
Proof.
  intros Hin. pose proof (serving_lengths _ _ _ _ Hin) as (Hlt & Hlo & Hli & Hlt').
  pose proof Hin as (Ht & Hp & Hi & Htg & Hbs & Hb & Hn & Hc).
  destruct (decide (DataProvider._curr_batch dp + 1 > DataProvider.num_batches dp))
    as [Hend|Hmore].
  - destruct (new_epoch_serving dp _ _ _ Hin) as (dp1 & Hrun & Hin1 & _ & Hso & _).
    exists (Raise StopIteration), dp1. split; [|split; [done|split; [done|by left]]].
    destruct (next_stop dp (length inputs0) Hend Hli Hlt' Hlo) as (dp' & Hrun' & ->).
    congruence.
  - set (c := Z.to_nat (DataProvider._curr_batch dp)).
    assert (DataProvider._curr_batch dp = Z.of_nat c) as Hcb by (subst c; lia).
    assert (Z.of_nat c + 1 ≤ DataProvider.num_batches dp) as Hfit by lia.
    rewrite (next_emit dp c Hcb Hfit) by (by rewrite ?Hli, ?Hlt', ?Hbs).
    rewrite Hbs. set (size := Z.to_nat size0).
    assert ((c + 1) * size ≤ length inputs0)%nat as Hrows by (subst size; nia).
    do 2 eexists. split; [reflexivity|]. split.
    + split; [done|]. split; [done|]. split; [done|]. split; [done|].
      split; [done|]. split; [done|]. split; [done|]. simpl. lia.
    + split; [done|].
      right. right. exists (window size c (DataProvider._current_order dp)).
      split; [|split; [|split]].
      * simpl. rewrite Hi, Htg, !window_pick by (by rewrite ?Ht). done.
      * apply length_window. by rewrite Hlo.
      * apply (sublist_NoDup _ (DataProvider._current_order dp)).
        -- rewrite Hp. apply NoDup_seq.
        -- unfold window. etrans; [apply sublist_take|apply sublist_drop].
      * by apply Forall_take, Forall_drop.
Qed.

Lemma provider_method_serving dp size0 inputs0 targets0 (m : method) :
  serving dp size0 inputs0 targets0 →
  ∃ r dp1,
    provider_method m dp = (r, dp1) ∧
    serving dp1 size0 inputs0 targets0 ∧
    DataProvider.shuffle_order dp1 = DataProvider.shuffle_order dp ∧
    served inputs0 targets0 (Z.to_nat size0) r.
Proof.
  intros Hin. destruct m; unfold provider_method, mbind, M_bind.
  - destruct (next_serving dp _ _ _ Hin) as (r & dp1 & -> & Hin1 & Hso & Hr).
    destruct r as [batch|e]; do 2 eexists; (split; [reflexivity|]); by split.
  - destruct (shuffle_serving dp _ _ _ Hin) as (dp1 & -> & Hin1 & _ & Hso).
    do 2 eexists. split; [reflexivity|]. split; [done|]. split; [done|right; by left].
  - destruct (reset_serving dp _ _ _ Hin) as (dp1 & -> & Hin1 & _ & Hso & _).
    do 2 eexists. split; [reflexivity|]. split; [done|]. split; [done|right; by left].
  - destruct (new_epoch_serving dp _ _ _ Hin) as (dp1 & -> & Hin1 & _ & Hso & _).
    do 2 eexists. split; [reflexivity|]. split; [done|]. split; [done|right; by left].
Qed.

Lemma call_all_serving dp size0 inputs0 targets0 (ms : list method) :
  serving dp size0 inputs0 targets0 →
  ∃ rs dp1,
    call_all (provider_method <$> ms) dp = (rs, dp1) ∧
    serving dp1 size0 inputs0 targets0 ∧
    DataProvider.shuffle_order dp1 = DataProvider.shuffle_order dp ∧
    length rs = length ms ∧
    Forall (served inputs0 targets0 (Z.to_nat size0)) rs.
Proof.
  revert dp. induction ms as [|m ms IH]; intros dp Hin.
  - exists [], dp. split; [done|]. split; [done|]. split; [done|]. by split.
  - destruct (provider_method_serving dp _ _ _ m Hin)
      as (r & dp1 & Hrun & Hin1 & Hso1 & Hr).
    destruct (IH dp1 Hin1) as (rs & dp2 & Hrest & Hin2 & Hso2 & Hlen & Hrs).
    exists (r :: rs), dp2. rewrite fmap_cons, call_all_cons, Hrun, Hrest.
    split; [done|]. split; [done|]. split; [by rewrite Hso2|].
    split; [simpl; by rewrite Hlen|by constructor].
Qed.

Lemma init_serving (inputs0 : list A) (targets0 : list B)
    (batch_size max_num_batches : Z) (shuffle_order0 : bool) (rng0 : option rng_t) :
  length targets0 = length inputs0 →
  1 ≤ batch_size → max_num_batches = -1 ∨ 0 < max_num_batches →
  ∃ dp,
    DataProvider.__init__ inputs0 targets0 batch_size max_num_batches
      shuffle_order0 rng0 = Ok dp ∧
    serving dp batch_size inputs0 targets0 ∧
    DataProvider.shuffle_order dp = shuffle_order0.
Proof.
  intros Hlen Hb Hm. unfold DataProvider.__init__.
  rewrite !decide_False by lia.
  set (dp := DataProvider.mk _ _ _ _ _ _ _ _ _).
  unfold mbind at 1, M_bind at 1.
  rewrite (update_num_batches_run dp) by (subst dp; simpl; lia).
  cbv beta iota.
  set (dp0 := DataProvider.set_num_batches _ _).
  pose proof (expected_num_batches_bounds (Z.of_nat (length inputs0)) batch_size
                max_num_batches ltac:(lia) Hb Hm) as [Hpos Hle].
  assert (serving dp0 batch_size inputs0 targets0) as Hin0.
  { unfold serving. subst dp0 dp. simpl. split; [done|]. split; [done|].
    split; [by rewrite pick_seq|]. split; [by rewrite <- Hlen, pick_seq|].
    split; [done|]. split; [done|]. split; [|done].
    unfold DataProvider.shape0. simpl. lia. }
  destruct (new_epoch_serving dp0 _ _ _ Hin0) as (dp1 & Hrun & Hin1 & _ & Hs & _).
  rewrite Hrun. exists dp1. split; [done|]. split; [done|]. by rewrite Hs.
Qed.
End Serving.

(** X4.  A generic provider built on as many targets as inputs, with a valid
    [batch_size] and [max_num_batches], serves every sequence of [next()],
    [shuffle()], [reset()] and [new_epoch()] calls without an exception
    other than [StopIteration].  Every batch it returns holds [batch_size]
    distinct rows of the construction, and the i-th target of the batch is
    the target of its i-th input. *)
Theorem batches_pair_each_input_with_its_target `{RandomState} {A B : Type}
    (inputs0 : list A) (targets0 : list B) (batch_size max_num_batches : Z)
    (shuffle_order0 : bool) (rng0 : option rng_t) (ms : list method) :
  length targets0 = length inputs0 →
  1 ≤ batch_size →
  max_num_batches = -1 ∨ 0 < max_num_batches →
  ∃ dp rs dp',
    DataProvider.__init__ inputs0 targets0 batch_size max_num_batches
      shuffle_order0 rng0 = Ok dp ∧
    call_all (provider_method <$> ms) dp = (rs, dp') ∧
    length rs = length ms ∧
    Forall (served inputs0 targets0 (Z.to_nat batch_size)) rs ∧
    serving dp' batch_size inputs0 targets0.
Proof.
  intros Hlen Hb Hm.
  destruct (init_serving inputs0 targets0 batch_size max_num_batches shuffle_order0
              rng0 Hlen Hb Hm) as (dp & Hinit & Hin & _).
  destruct (call_all_serving dp _ _ _ ms Hin) as (rs & dp' & Hrun & Hin' & _ & Hl & Hrs).
  by exists dp, rs, dp'.
Qed.

Lemma batches_pair_each_input_with_its_target_witness :
  ∃ (dp : DataProvider.t (H0 := Tiny.random_state) Z Z) rs dp',
    DataProvider.__init__ [10; 11; 12; 13; 14] [0; 1; 0; 1; 1] 2 (-1) true None = Ok dp ∧
    call_all (provider_method <$> [call_next; call_shuffle; call_next; call_next;
                                   call_reset; call_next]) dp = (rs, dp') ∧
    length rs = 6%nat ∧
    Forall (served [10; 11; 12; 13; 14] [0; 1; 0; 1; 1] (Z.to_nat 2)) rs ∧
    serving dp' 2 [10; 11; 12; 13; 14] [0; 1; 0; 1; 1].
Proof.
  apply (batches_pair_each_input_with_its_target (H0 := Tiny.random_state)
           [10; 11; 12; 13; 14] [0; 1; 0; 1; 1] 2 (-1) true None
           [call_next; call_shuffle; call_next; call_next; call_reset; call_next]);
    [reflexivity | lia | by left].
Defined.

(** X5.  Whatever calls a generic provider has served, [reset()] with
    [shuffle_order] off leaves [inputs] and [targets] exactly as they were
    given to the constructor, and the batch counter at zero. *)
Theorem reset_restores_the_rows_of_the_construction `{RandomState} {A B : Type}
    (inputs0 : list A) (targets0 : list B) (batch_size max_num_batches : Z)
    (rng0 : option rng_t) (ms : list method) :
  length targets0 = length inputs0 →
  1 ≤ batch_size →
  max_num_batches = -1 ∨ 0 < max_num_batches →
  ∃ dp dp1 dp2,
    DataProvider.__init__ inputs0 targets0 batch_size max_num_batches false rng0
      = Ok dp ∧
    (call_all (provider_method <$> ms) dp).2 = dp1 ∧
    DataProvider.reset dp1 = (Ok (), dp2) ∧
    DataProvider.inputs dp2 = inputs0 ∧
    DataProvider.targets dp2 = targets0 ∧
    DataProvider._current_order dp2 = seq 0 (length inputs0) ∧
    DataProvider._curr_batch dp2 = 0.
Proof.
  intros Hlen Hb Hm.
  destruct (init_serving inputs0 targets0 batch_size max_num_batches false
              rng0 Hlen Hb Hm) as (dp & Hinit & Hin & Hso).
  destruct (call_all_serving dp _ _ _ ms Hin) as (rs & dp1 & Hrun & Hin1 & Hso1 & _).
  destruct (reset_serving dp1 _ _ _ Hin1) as (dp2 & Hreset & _ & Hc & _ & Hoff).
  destruct Hoff as (Hi & Ht & Ho); [by rewrite Hso1|].
  exists dp, dp1, dp2. rewrite Hrun. by repeat split.
Qed.

Lemma reset_restores_the_rows_of_the_construction_witness :
  ∃ (dp : DataProvider.t (H0 := Tiny.random_state) Z Z) dp1 dp2,
    DataProvider.__init__ [10; 11; 12; 13; 14] [0; 1; 0; 1; 1] 2 (-1) false None
      = Ok dp ∧
    (call_all (provider_method <$> [call_next; call_shuffle; call_shuffle; call_next])
       dp).2 = dp1 ∧
    DataProvider.reset dp1 = (Ok (), dp2) ∧
    DataProvider.inputs dp2 = [10; 11; 12; 13; 14] ∧
    DataProvider.targets dp2 = [0; 1; 0; 1; 1] ∧
    DataProvider._current_order dp2 = seq 0 5 ∧
    DataProvider._curr_batch dp2 = 0.
Proof.
  apply (reset_restores_the_rows_of_the_construction (H0 := Tiny.random_state)
           [10; 11; 12; 13; 14] [0; 1; 0; 1; 1] 2 (-1) None
           [call_next; call_shuffle; call_shuffle; call_next]);
    [reflexivity | lia | by left].
Defined.

(** ** The property setters *)

Lemma expected_num_batches_fits (rows batch_size max_num_batches : Z) :
  0 ≤ rows → 1 ≤ batch_size →
  expected_num_batches rows batch_size max_num_batches * batch_size ≤ rows.
Proof.
  intros Hrows Hb. unfold expected_num_batches.
  assert (rows `div` batch_size * batch_size ≤ rows)
    by (rewrite Z.mul_comm; apply Z.mul_div_le; lia).
  case_decide; [done|nia].
Qed.

(** X6.  Assigning to [batch_size] or to [max_num_batches] checks the value
    as the constructor does and recomputes [num_batches] from the rows the
    provider holds; the rows, their order and the batch counter stay, so a
    provider in service goes on serving, with batches of the new size.  A
    value the constructor would refuse raises [ValueError] and changes
    nothing. *)
Theorem setters_refit_num_batches `{RandomState} {A B : Type}
    (dp : DataProvider.t A B) (size0 : Z) (inputs0 : list A) (targets0 : list B)
    (value : Z) :
  serving dp size0 inputs0 targets0 →
  (value < 1 → DataProvider.batch_size_setter value dp = (Raise ValueError, dp)) ∧
  (value = 0 ∨ value < -1 →
   DataProvider.max_num_batches_setter value dp = (Raise ValueError, dp)) ∧
  (1 ≤ value →
   ∃ dp',
     DataProvider.batch_size_setter value dp = (Ok (), dp') ∧
     dp' = DataProvider.set_num_batches
             (expected_num_batches (Z.of_nat (length inputs0)) value
                (DataProvider._max_num_batches dp))
             (DataProvider.set__batch_size value dp) ∧
     serving dp' value inputs0 targets0) ∧
  (value = -1 ∨ 0 < value →
   ∃ dp',
     DataProvider.max_num_batches_setter value dp = (Ok (), dp') ∧
     dp' = DataProvider.set_num_batches
             (expected_num_batches (Z.of_nat (length inputs0)) size0 value)
             (DataProvider.set__max_num_batches value dp) ∧
     serving dp' size0 inputs0 targets0).
Proof.
  intros Hin. pose proof (serving_lengths _ _ _ _ Hin) as (Hlt & Hlo & Hli & Hlt').
  destruct Hin as (Ht & Hp & Hi & Htg & Hbs & Hb & Hn & Hc).
  split; [|split; [|split]].
  - intros Hv. unfold DataProvider.batch_size_setter. by rewrite decide_True.
  - intros Hv. unfold DataProvider.max_num_batches_setter. by rewrite decide_True.
  - intros Hv. unfold DataProvider.batch_size_setter.
    rewrite decide_False by lia. unfold mbind, M_bind, modify.
    rewrite update_num_batches_run by (simpl; lia).
    unfold DataProvider.shape0. simpl. rewrite Hli.
    eexists. split; [reflexivity|]. split; [reflexivity|].
    unfold serving. simpl. repeat split; try done.
    apply expected_num_batches_fits; lia.
  - intros Hv. unfold DataProvider.max_num_batches_setter.
    rewrite decide_False by lia. unfold mbind, M_bind, modify.
    rewrite update_num_batches_run by (simpl; lia).
    unfold DataProvider.shape0. simpl. rewrite Hli, Hbs.
    eexists. split; [reflexivity|]. split; [reflexivity|].
    unfold serving. simpl. repeat split; try done.
    apply expected_num_batches_fits; lia.
Qed.

Lemma setters_refit_num_batches_witness :
  let dp := DataProvider.mk (H0 := Tiny.random_state) [10; 11; 12; 13; 14]
              [0; 1; 0; 1; 1] 2 (-1) 2 false (seq 0 5) 0%nat 1 in
  ∃ dp',
    DataProvider.batch_size_setter 3 dp = (Ok (), dp') ∧
    dp' = DataProvider.set_num_batches (expected_num_batches (Z.of_nat 5) 3 (-1))
            (DataProvider.set__batch_size 3 dp) ∧
    serving dp' 3 [10; 11; 12; 13; 14] [0; 1; 0; 1; 1].
Proof.
  apply (setters_refit_num_batches
           (DataProvider.mk (H0 := Tiny.random_state) [10; 11; 12; 13; 14]
              [0; 1; 0; 1; 1] 2 (-1) 2 false (seq 0 5) 0%nat 1)
           2 [10; 11; 12; 13; 14] [0; 1; 0; 1; 1] 3).
  - unfold serving. simpl. repeat split; first [done | lia].
  - lia.
Defined.

(** ** Compressed sensing *)

(** X7.  [compress_inputs] multiplies every answer of every student by the
    compression matrix, one answer at a time, and keeps the students and
    their order: a row of [max_num_ans] answers of [encoding_dim] entries
    becomes a row of [max_num_ans] answers of as many entries as the matrix
    has columns, and [encoding_dim] becomes [compress_dim].  It raises
    [ValueError] on a dataset without students, and on a matrix that has not
    [encoding_dim] rows. *)
Theorem compress_inputs_multiplies_every_answer `{Numeric}
    (self : ASSISTDataProvider.attrs) (inputs c : list (list scalar)) (d : nat) :
  let mna := ASSISTDataProvider.max_num_ans self in
  let ed := ASSISTDataProvider.encoding_dim self in
  ASSISTDataProvider.compress_matrix self = Some c →
  ASSISTDataProvider.compress_dim self = Some d →
  (1 ≤ ed)%nat →
  Forall (λ row, length row = (mna * ed)%nat) inputs →
  (inputs = [] → ASSISTDataProvider.compress_inputs self inputs = Raise ValueError) ∧
  (inputs ≠ [] → length c = ed →
   ASSISTDataProvider.compress_inputs self inputs
   = Ok (compressed_row c mna ed <$> inputs, ASSISTDataProvider.set_encoding_dim d self) ∧
   Forall (λ row, length row = (mna * shape1 c)%nat)
     (compressed_row c mna ed <$> inputs)) ∧
  (inputs ≠ [] → (1 ≤ mna)%nat → length c ≠ ed →
   ASSISTDataProvider.compress_inputs self inputs = Raise ValueError).
Proof.
  intros mna ed Hc Hd Hed Hshape. split; [|split].
  - intros ->. unfold ASSISTDataProvider.compress_inputs. rewrite Hc, Hd.
    fold ed. unfold reshape_rows_of. simpl.
    rewrite decide_False by (intros [?|Hm]; [lia|]; by rewrite Nat.Div0.mod_0_l in Hm).
    rewrite Nat.Div0.div_0_l. done.
  - intros Hne Hrows. split; [by apply compress_inputs_run|].
    apply Forall_fmap, Forall_forall. intros row _. apply length_compressed_row.
  - intros Hne Hmna Hrows.
    unfold ASSISTDataProvider.compress_inputs. rewrite Hc, Hd. fold mna ed.
    assert (length (concat inputs) = (length inputs * mna * ed)%nat) as Hflat.
    { rewrite (length_concat_uniform (mna * ed)) by done. lia. }
    unfold reshape_rows_of. rewrite Hflat.
    rewrite decide_False
      by (intros [?|Hm]; [lia|]; apply Hm; by rewrite Nat.Div0.mod_mul).
    rewrite Nat.div_mul by lia.
    rewrite (chunks_of_blocks ed mna inputs) by done.
    unfold mbind at 1, result_bind at 1. unfold np_dot.
    rewrite decide_False; [done|]. intros Hall.
    destruct inputs as [|row inputs]; [done|].
    apply Forall_cons in Hshape as [Hrow _].
    simpl in Hall. apply Forall_app in Hall as [Hall _].
    pose proof (chunks_widths ed mna row Hrow) as Hw.
    destruct (chunks ed mna row) as [|answer answers] eqn:Hchunks.
    + apply (f_equal length) in Hchunks. rewrite length_chunks in Hchunks.
      simpl in Hchunks. lia.
    + apply Forall_cons in Hall as [Ha _]. apply Forall_cons in Hw as [Hw _].
      congruence.
Qed.

Lemma compress_inputs_multiplies_every_answer_witness :
  let self :=
    ASSISTDataProvider.set_compress_dim (Some 2%nat)
      (ASSISTDataProvider.set_compress_matrix (H := Tiny.numeric)
         (Some [[1; 0]; [0; 1]; [1; 1]])
         Tiny.two_students_attrs) in
  ASSISTDataProvider.compress_inputs self Tiny.two_students_inputs
  = Ok (compressed_row (H := Tiny.numeric) [[1; 0]; [0; 1]; [1; 1]] 2 3
          <$> Tiny.two_students_inputs,
        ASSISTDataProvider.set_encoding_dim 2 self) ∧
  Forall (λ row, length row = (2 * 2)%nat)
    (compressed_row (H := Tiny.numeric) [[1; 0]; [0; 1]; [1; 1]] 2 3
       <$> Tiny.two_students_inputs).
Proof.
  destruct (compress_inputs_multiplies_every_answer
              (ASSISTDataProvider.set_compress_dim (Some 2%nat)
                 (ASSISTDataProvider.set_compress_matrix (H := Tiny.numeric)
         (Some [[1; 0]; [0; 1]; [1; 1]])
                    Tiny.two_students_attrs))
              Tiny.two_students_inputs ([[1; 0]; [0; 1]; [1; 1]] : list (list Z)) 2)
    as (_ & Hrun & _); [reflexivity | reflexivity | simpl; lia | repeat constructor |].
  apply Hrun; [done | reflexivity].
Defined.

(** The two students compressed by that matrix: each answer of three entries
    becomes one of two. *)
Example two_students_compressed :
  compressed_row (H := Tiny.numeric) [[1; 0]; [0; 1]; [1; 1]] 2 3
    <$> Tiny.two_students_inputs
  = [[0; 1; 1; 1]; [1; 0; 0; 0]].
Proof. reflexivity. Qed.


Section MatrixRoundTrip.
Context `{RandomState}.

End MatrixRoundTrip.




(** ** Construction from the data files *)

Section FromFiles.
Context `{RandomState}.

Lemma load_data_run (w : os) (self : ASSISTDataProvider.attrs) (data_path : string)
    (use_plus_minus_feats : bool) :
  let inputs_file :=
    data_path +:+ (if use_plus_minus_feats then "-inputs-plus-minus.npz"
                   else "-inputs.npz") in
  (ASSISTDataProvider.load_data self data_path use_plus_minus_feats w).1
  = match files w !! (data_path +:+ "-targets.npz") with
    | None => Raise FileNotFoundError
    | Some (TargetsNpz mna mpsi targets) =>
        match files w !! inputs_file with
        | None => Raise FileNotFoundError
        | Some (SparseNpz inputs) =>
            match files w !! (data_path +:+ "-targetids.npz") with
            | None => Raise FileNotFoundError
            | Some (SparseNpz ids) =>
                Ok (inputs, targets,
                    ASSISTDataProvider.set_target_ids ids
                      (ASSISTDataProvider.set_sizes mna mpsi
                         (if use_plus_minus_feats then mpsi + 1 else 2 * mpsi + 1)%nat
                         self))
            | Some _ => Raise ValueError
            end
        | Some _ => Raise ValueError
        end
    | Some _ => Raise KeyError
    end.
Proof.
  intros inputs_file. subst inputs_file.
  unfold ASSISTDataProvider.load_data, np_load, sp_load_npz, np_load. run.
  destruct (files w !! (data_path +:+ "-targets.npz")) as [[mna mpsi targets| |]|]; try done.
  destruct use_plus_minus_feats; simpl.
  - destruct (files w !! (data_path +:+ "-inputs-plus-minus.npz")) as [[| |]|]; try done.
    simpl. by destruct (files w !! (data_path +:+ "-targetids.npz")) as [[| |]|].
  - destruct (files w !! (data_path +:+ "-inputs.npz")) as [[| |]|]; try done.
    simpl. by destruct (files w !! (data_path +:+ "-targetids.npz")) as [[| |]|].
Qed.

Lemma init_plain_run (w : os) (data_dir which_set which_year : string)
    (fraction : number) (use_plus_minus_feats : bool)
    (batch_size max_num_batches : Z) (shuffle_order : bool) (rng : option rng_t) :
  let expanded := expanduser w data_dir in
  let data_path := path_join expanded (assist_name which_year which_set) in
  let self0 := ASSISTDataProvider.mk_attrs which_set which_year expanded 2 fraction
                 use_plus_minus_feats false [] 0 0 0 None None in
  ASSISTDataProvider.__init__ data_dir which_set which_year fraction
    use_plus_minus_feats false batch_size max_num_batches shuffle_order rng None w
  = (if bool_decide (which_set ∈ ["train"; "test"])
          && bool_decide (which_year ∈ ["09"; "15"])
          && isfile w (data_path +:+ "-inputs.npz")
          && isfile w (data_path +:+ "-targets.npz")
     then
       match (ASSISTDataProvider.load_data self0 data_path use_plus_minus_feats w).1 with
       | Ok (inputs, targets, self1) =>
           match ASSISTDataProvider.reduce_data self1 inputs targets fraction with
           | Ok (inputs, targets, self2) =>
               ASSISTDataProvider.super__init__ self2 inputs targets batch_size
                 max_num_batches shuffle_order rng
           | Raise e => Raise e
           end
       | Raise e => Raise e
       end
     else Raise AssertionError, w).
Proof.
  intros expanded data_path self0. unfold ASSISTDataProvider.__init__.
  unfold mbind at 1, M_bind at 1, get. cbv beta iota. fold expanded data_path.
  unfold mbind at 1, M_bind at 1. rewrite validate_inputs_run.
  destruct (_ && _ && _ && _); [|done]. cbv beta iota. fold self0.
  unfold mbind at 1, M_bind at 1. unfold mbind at 1, M_bind at 1.
  pose proof (load_data_state w self0 data_path use_plus_minus_feats) as Hstate.
  destruct (ASSISTDataProvider.load_data self0 data_path use_plus_minus_feats w)
    as [[[[inputs targets] self1]|e] w1]; simpl in Hstate; subst w1; [|done].
  simpl. unfold mbind at 1, M_bind at 1, lift.
  destruct (ASSISTDataProvider.reduce_data self1 inputs targets fraction)
    as [[[inputs' targets'] self2]|e]; [|done].
  run. by destruct (ASSISTDataProvider.super__init__ _ _ _ _ _ _ _).
Qed.
End FromFiles.

(** X9.  From the three data files of a split, the constructor builds a
    provider in service without touching the file system: [max_num_ans] and
    [max_prob_set_id] are those of the targets file, [encoding_dim] is
    [2 * max_prob_set_id + 1], or [max_prob_set_id + 1] with the plus-minus
    features (then the inputs are read from [-inputs-plus-minus.npz]), and
    the rows it holds are the first [int(rows * fraction)] rows of the
    inputs, the targets and the target ids. *)
Theorem constructor_loads_the_split `{RandomState} (w : os)
    (data_dir which_set which_year : string) (fraction : number)
    (use_plus_minus_feats : bool) (batch_size max_num_batches : Z)
    (shuffle_order : bool) (rng : option rng_t)
    (max_num_ans max_prob_set_id : nat) (inputs target_ids : list (list scalar))
    (targets : list (list Z)) (num_data : Z) :
  let data_path :=
    path_join (expanduser w data_dir) (assist_name which_year which_set) in
  let inputs_file :=
    data_path +:+ (if use_plus_minus_feats then "-inputs-plus-minus.npz"
                   else "-inputs.npz") in
  let encoding_dim :=
    (if use_plus_minus_feats then max_prob_set_id + 1 else 2 * max_prob_set_id + 1)%nat in
  ASSISTDataProvider.int_of_product (Z.of_nat (length inputs)) fraction = Ok num_data →
  which_set ∈ ["train"; "test"] →
  which_year ∈ ["09"; "15"] →
  isfile w (data_path +:+ "-inputs.npz") = true →
  files w !! (data_path +:+ "-targets.npz")
    = Some (TargetsNpz max_num_ans max_prob_set_id targets) →
  files w !! inputs_file = Some (SparseNpz inputs) →
  files w !! (data_path +:+ "-targetids.npz") = Some (SparseNpz target_ids) →
  rows_aligned inputs targets target_ids →
  Forall (λ row, length row = (max_num_ans * encoding_dim)%nat) inputs →
  1 ≤ batch_size →
  max_num_batches = -1 ∨ 0 < max_num_batches →
  ∃ st,
    ASSISTDataProvider.__init__ data_dir which_set which_year fraction
      use_plus_minus_feats false batch_size max_num_batches shuffle_order rng None w
    = (Ok st, w) ∧
    in_service st (py_slice_to num_data inputs) (py_slice_to num_data targets)
      (py_slice_to num_data target_ids) ∧
    ASSISTDataProvider.max_num_ans (ASSISTDataProvider.own st) = max_num_ans ∧
    ASSISTDataProvider.max_prob_set_id (ASSISTDataProvider.own st) = max_prob_set_id ∧
    ASSISTDataProvider.encoding_dim (ASSISTDataProvider.own st) = encoding_dim ∧
    DataProvider.num_batches (ASSISTDataProvider.base st)
    = expected_num_batches (Z.of_nat (length (py_slice_to num_data inputs)))
        batch_size max_num_batches.
Proof.
  intros data_path inputs_file encoding_dim Hnum Hset Hyear Hinputs Htargets
    Hfile Hids Hal Hshape Hb Hm.
  rewrite init_plain_run. fold data_path.
  rewrite !bool_decide_eq_true_2 by done. rewrite Hinputs.
  assert (isfile w (data_path +:+ "-targets.npz") = true) as ->
    by (unfold isfile; by rewrite Htargets, bool_decide_eq_true_2).
  simpl andb. cbv iota.
  rewrite load_data_run. fold inputs_file. rewrite Htargets, Hfile, Hids.
  fold encoding_dim.
  set (self1 := ASSISTDataProvider.set_target_ids target_ids _).
  rewrite reduce_data_run, Hnum.
  pose proof (reduce_data_aligned self1 inputs targets num_data Hal) as Hal'.
  set (self2 := ASSISTDataProvider.set_target_ids _ self1).
  destruct (super_init_in_service self2 (py_slice_to num_data inputs)
              (py_slice_to num_data targets) batch_size max_num_batches
              shuffle_order rng Hal') as (st & Hinit & Hin & _ & Hnb & _ & Hown);
    [by apply Forall_take, Forall_drop | done | done |].
  exists st. rewrite Hinit. split; [done|]. split; [exact Hin|].
  rewrite Hown. by repeat split.
Qed.

(** X10.  [_validate_inputs] looks for [-inputs.npz] and [-targets.npz]
    only.  When the inputs file the constructor reads (with the plus-minus
    features, [-inputs-plus-minus.npz]) or [-targetids.npz] is missing, the
    validation passes and the constructor fails in [load_data], with
    [FileNotFoundError] and not with the [AssertionError] of the
    validation. *)
Theorem constructor_reads_files_the_validation_skips `{RandomState} (w : os)
    (data_dir which_set which_year : string) (fraction : number)
    (use_plus_minus_feats : bool) (batch_size max_num_batches : Z)
    (shuffle_order : bool) (rng : option rng_t)
    (max_num_ans max_prob_set_id : nat) (targets : list (list Z)) :
  let data_path :=
    path_join (expanduser w data_dir) (assist_name which_year which_set) in
  let inputs_file :=
    data_path +:+ (if use_plus_minus_feats then "-inputs-plus-minus.npz"
                   else "-inputs.npz") in
  which_set ∈ ["train"; "test"] →
  which_year ∈ ["09"; "15"] →
  isfile w (data_path +:+ "-inputs.npz") = true →
  files w !! (data_path +:+ "-targets.npz")
    = Some (TargetsNpz max_num_ans max_prob_set_id targets) →
  files w !! inputs_file = None
  ∨ (∃ inputs, files w !! inputs_file = Some (SparseNpz inputs)) ∧
    files w !! (data_path +:+ "-targetids.npz") = None →
  ASSISTDataProvider.__init__ data_dir which_set which_year fraction
    use_plus_minus_feats false batch_size max_num_batches shuffle_order rng None w
  = (Raise FileNotFoundError, w).
Proof.
  intros data_path inputs_file Hset Hyear Hinputs Htargets Hmissing.
  rewrite init_plain_run. fold data_path.
  rewrite !bool_decide_eq_true_2 by done. rewrite Hinputs.
  assert (isfile w (data_path +:+ "-targets.npz") = true) as ->
    by (unfold isfile; by rewrite Htargets, bool_decide_eq_true_2).
  simpl andb. cbv iota.
  rewrite load_data_run. fold inputs_file. rewrite Htargets.
  destruct Hmissing as [->|[[inputs ->] ->]]; done.
Qed.

Lemma constructor_loads_the_split_witness :
  ∃ st,
    ASSISTDataProvider.__init__ (H0 := Tiny.random_state) "data" "test" "09"
      (PyFloat (S754_finite false 4503599627370496 (-53))) false false 1 (-1) true
      None None Tiny.test_without_matrix
    = (Ok st, Tiny.test_without_matrix) ∧
    in_service st (py_slice_to 1 Tiny.two_students_inputs)
      (py_slice_to 1 Tiny.two_students_targets)
      (py_slice_to 1 [[1; 1]; [1; 0]]) ∧
    ASSISTDataProvider.max_num_ans (ASSISTDataProvider.own st) = 2%nat ∧
    ASSISTDataProvider.max_prob_set_id (ASSISTDataProvider.own st) = 1%nat ∧
    ASSISTDataProvider.encoding_dim (ASSISTDataProvider.own st) = (2 * 1 + 1)%nat ∧
    DataProvider.num_batches (ASSISTDataProvider.base st)
    = expected_num_batches
        (Z.of_nat (length (py_slice_to 1 Tiny.two_students_inputs))) 1 (-1).
Proof.
  apply (constructor_loads_the_split (H0 := Tiny.random_state) Tiny.test_without_matrix
           "data" "test" "09" (PyFloat (S754_finite false 4503599627370496 (-53)))
           false 1 (-1) true None 2 1
           Tiny.two_students_inputs [[1; 1]; [1; 0]] Tiny.two_students_targets 1).
  - reflexivity.
  - apply list_elem_of_In. simpl. tauto.
  - apply list_elem_of_In. simpl. tauto.
  - reflexivity.
  - reflexivity.
  - reflexivity.
  - reflexivity.
  - by split.
  - repeat constructor.
  - lia.
  - by left.
Defined.

Lemma constructor_reads_files_the_validation_skips_witness :
  let w :=
    mk_os Tiny.numeric Tiny.random_state (λ path, path)
      (<["data/assist09-test-inputs.npz" := SparseNpz (H := Tiny.numeric) Tiny.two_students_inputs]>
         (<["data/assist09-test-targets.npz" := TargetsNpz 2 1 Tiny.two_students_targets]>
            ∅))
      7%nat in
  ASSISTDataProvider.__init__ "data" "test" "09" (PyInt 1) false false
    1 (-1) true None None w
  = (Raise FileNotFoundError, w).
Proof.
  apply (constructor_reads_files_the_validation_skips (H0 := Tiny.random_state)
           (mk_os Tiny.numeric Tiny.random_state (λ path, path)
              (<["data/assist09-test-inputs.npz" := SparseNpz (H := Tiny.numeric) Tiny.two_students_inputs]>
                 (<["data/assist09-test-targets.npz"
                    := TargetsNpz 2 1 Tiny.two_students_targets]> ∅))
              7%nat)
           "data" "test" "09" (PyInt 1) false 1 (-1) true None 2 1
           Tiny.two_students_targets).
  - apply list_elem_of_In. simpl. tauto.
  - apply list_elem_of_In. simpl. tauto.
  - reflexivity.
  - reflexivity.
  - right. split; [by eexists|reflexivity].
Defined.

(** ** Truncation at the length of the sequences *)


Section WholeSequences.
Context `{Numeric}.




End WholeSequences.



(** Of three students the one without answers goes; the two others stay as
    they are. *)
Example student_without_answers_is_dropped :
  ASSISTDataProvider.truncate_sequences Tiny.two_students_attrs
    [[0; 1; 0; 0; 0; 1]; [0; 0; 0; 0; 0; 0]; [1; 0; 0; 0; 0; 0]]
    [[1; 1]; [0; 0]; [1; 0]] [[1; 0]; []; [1]] 5
  = Ok ([[0; 1; 0; 0; 0; 1]; [1; 0; 0; 0; 0; 0]], [[1; 1]; [1; 0]], [[1; 0]; [1]], 2).
Proof. reflexivity. Qed.

(** ** When truncation fails *)

Lemma existsb_false_Forall {X} (f : X → bool) (l : list X) :
  existsb f l = false ↔ Forall (λ x, f x = false) l.
Proof.
  induction l as [|x l IH]; simpl.
  - split; [constructor|done].
  - rewrite orb_false_iff, IH, Forall_cons. done.
Qed.

Lemma window_subseteq {X} (size i : nat) (l : list X) : window size i l ⊆ l.
Proof.
  unfold window. apply sublist_subseteq.
  etrans; [apply sublist_take|apply sublist_drop].
Qed.

Lemma for_in_raises {X Y : Type} (f : X → result Y) (e : exn) (l : list X)
    (acc : list Y) :
  Forall (λ x, f x = Raise e ∨ ∃ y, f x = Ok y) l →
  Exists (λ x, f x = Raise e) l →
  ASSISTDataProvider.for_in l (λ x acc, y ← f x; Ok (acc ++ [y])) acc = Raise e.
Proof.
  intros Hall. revert acc. induction Hall as [|x l Hx _ IH]; intros acc Hex.
  - by apply Exists_nil in Hex.
  - simpl. destruct Hx as [->|[y Hy]]; [done|].
    rewrite Hy. simpl. apply IH.
    apply Exists_cons in Hex as [Hex|Hex]; [congruence|done].
Qed.

Section Failures.
Context `{Numeric}.

Lemma retained_rows_zero (mna final_dim t : nat) (m : list (list scalar)) :
  nonzero zero = false →
  Forall (Forall (λ entry, nonzero entry = false)) m →
  retained_rows mna final_dim t m = [].
Proof.
  intros Hzero Hm. unfold retained_rows.
  assert (filter (λ blk, any_nonzero blk = true)
            (concat (sub_blocks mna final_dim t <$> m)) = []) as ->; [|done].
  apply filter_none, Forall_concat, Forall_fmap.
  eapply Forall_impl; [exact Hm|]. intros row Hrow. simpl.
  apply Forall_fmap, Forall_forall. intros k _. simpl.
  apply not_true_iff_false. unfold any_nonzero.
  apply existsb_false_Forall, Forall_forall. intros answer Hanswer.
  apply existsb_false_Forall.
  apply window_subseteq in Hanswer. apply elem_of_app in Hanswer as [Hin|Hin].
  - rewrite chunks_windows in Hin. apply list_elem_of_fmap in Hin as (j & -> & _).
    apply Forall_forall. intros entry Hentry. apply window_subseteq in Hentry.
    by apply (Forall_forall (λ entry, nonzero entry = false) row).
  - apply elem_of_replicate_inv in Hin as ->. by apply Forall_replicate.
Qed.

Lemma truncate_inputs_or_ids_zero_run self (final_dim t k : nat)
    (m : list (list scalar)) :
  nonzero zero = false →
  (0 < t)%nat → (0 < final_dim)%nat →
  Forall (λ row, length row = (ASSISTDataProvider.max_num_ans self * final_dim)%nat) m →
  (k * 1000 < length m)%nat →
  Forall (Forall (λ entry, nonzero entry = false)) (window 1000 k m) →
  ASSISTDataProvider._truncate_inputs_or_ids self m final_dim (Z.of_nat t)
  = Raise ValueError.
Proof.
  intros Hzero Ht Hfd Hrect Hk Hrun.
  unfold ASSISTDataProvider._truncate_inputs_or_ids.
  change (py_range 0 (Z.of_nat (length m)) 1000)
    with (py_range 0 (Z.of_nat (length m)) (Z.of_nat 1000)).
  rewrite (py_range_steps (length m) 1000) by lia.
  pose proof (slices_cover (length m) 1000 ltac:(lia)) as (Hcov & Hlast & Hup).
  cbv zeta in Hcov, Hlast, Hup.
  set (nb := ((length m + 1000 - 1) `div` 1000)%nat) in *. clearbody nb.
  unfold mbind at 1, result_bind at 1.
  assert (∀ j : nat,
            ASSISTDataProvider.truncate_step self final_dim (Z.of_nat t)
              (py_slice (Z.of_nat (j * 1000)) (Z.of_nat (j * 1000) + 1000) m)
            = if decide (retained_rows (ASSISTDataProvider.max_num_ans self)
                           final_dim t (window 1000 j m) = [])
              then Raise ValueError
              else Ok (retained_rows (ASSISTDataProvider.max_num_ans self)
                         final_dim t (window 1000 j m))) as Hstep.
  { intros j.
    replace (Z.of_nat (j * 1000) + 1000) with (Z.of_nat (j * 1000 + 1000)) by lia.
    rewrite py_slice_forward by lia.
    replace (j * 1000 + 1000 - j * 1000)%nat with 1000%nat by lia.
    fold (window 1000 j m).
    by rewrite truncate_step_run; [|done|done|by apply Forall_take, Forall_drop]. }
  rewrite (for_in_raises
             (λ i, ASSISTDataProvider.truncate_step self final_dim (Z.of_nat t)
                     (py_slice i (i + 1000) m)) ValueError); [done| |].
  - apply Forall_fmap, Forall_forall. intros j _. simpl. rewrite Hstep.
    case_decide; [by left|right; by eexists].
  - apply Exists_fmap, Exists_exists. exists k. split.
    + apply elem_of_seq. split; [lia|]. simpl.
      destruct (decide (k < nb)%nat) as [|Hge]; [done|].
      assert (nb * 1000 ≤ k * 1000)%nat by (apply Nat.mul_le_mono_r; lia). lia.
    + simpl. rewrite Hstep. by rewrite decide_True by (by apply retained_rows_zero).
Qed.
End Failures.

(** X12.  [truncate_sequences] fails on data it cannot cut.  Without a
    student it raises [ValueError].  On students of the provider's shape, a
    threshold of 0 raises [ZeroDivisionError] and a negative one
    [ValueError]; and with a threshold of at least one, a run of 1000
    students ([input_or_id[i:i+1000]]) in which every entry of the inputs is
    zero raises [ValueError], wherever in the dataset it lies. *)
Theorem truncation_fails_on_a_run_without_answers `{Numeric}
    (self : ASSISTDataProvider.attrs) (inputs target_ids : list (list scalar))
    (targets : list (list Z)) (threshold : Z) :
  let mna := ASSISTDataProvider.max_num_ans self in
  let ed := ASSISTDataProvider.encoding_dim self in
  let run := ASSISTDataProvider.truncate_sequences self inputs target_ids targets in
  (inputs = [] → run threshold = Raise ValueError) ∧
  (inputs ≠ [] → Forall (λ row, length row = (mna * ed)%nat) inputs →
   (threshold = 0 → run threshold = Raise ZeroDivisionError) ∧
   (threshold < 0 → run threshold = Raise ValueError) ∧
   (1 ≤ threshold → (1 ≤ mna)%nat → (1 ≤ ed)%nat → nonzero zero = false →
    ∀ k, (k * 1000 < length inputs)%nat →
         Forall (Forall (λ entry, nonzero entry = false)) (window 1000 k inputs) →
         run threshold = Raise ValueError)).
Proof.
  intros mna ed run. subst run. split; [by intros ->|].
  intros Hne Hshape.
  assert (∃ starts, py_range 0 (Z.of_nat (length inputs)) 1000 = Ok (0 :: starts))
    as [starts Hstarts].
  { change (py_range 0 (Z.of_nat (length inputs)) 1000)
      with (py_range 0 (Z.of_nat (length inputs)) (Z.of_nat 1000)).
    rewrite (py_range_steps (length inputs) 1000) by lia.
    pose proof (slices_cover (length inputs) 1000 ltac:(lia)) as (Hcov & _).
    cbv zeta in Hcov.
    destruct ((length inputs + 1000 - 1) `div` 1000)%nat as [|nb].
    - destruct inputs; [done|simpl in Hcov; lia].
    - by eexists. }
  assert (Forall (λ row, length row = (mna * ed)%nat) (py_slice 0 (0 + 1000) inputs))
    as Hfirst by (unfold py_slice; by apply Forall_take, Forall_drop).
  split; [|split].
  - intros ->. unfold ASSISTDataProvider.truncate_sequences.
    rewrite Z.min_r by lia. fold ed.
    assert (ASSISTDataProvider._truncate_inputs_or_ids self inputs ed 0
            = Raise ZeroDivisionError) as ->; [|done].
    unfold ASSISTDataProvider._truncate_inputs_or_ids. rewrite Hstarts.
    unfold mbind at 1 2, result_bind at 1 2.
    cbn [ASSISTDataProvider.for_in].
    unfold ASSISTDataProvider.truncate_step. fold mna.
    rewrite decide_True by done. done.
  - intros Hneg. unfold ASSISTDataProvider.truncate_sequences.
    rewrite Z.min_r by lia. fold ed.
    assert (ASSISTDataProvider._truncate_inputs_or_ids self inputs ed threshold
            = Raise ValueError) as ->; [|done].
    unfold ASSISTDataProvider._truncate_inputs_or_ids. rewrite Hstarts.
    unfold mbind at 1 2, result_bind at 1 2.
    cbn [ASSISTDataProvider.for_in].
    unfold ASSISTDataProvider.truncate_step. fold mna.
    rewrite decide_True by done.
    unfold py_mod. rewrite decide_False by lia.
    unfold mbind, result_bind.
    rewrite decide_True; [done|].
    pose proof (Z.mod_neg_bound (Z.of_nat mna) threshold Hneg). lia.
  - intros Hth Hmna Hed Hzero k Hk Hrun.
    unfold ASSISTDataProvider.truncate_sequences. fold mna ed.
    set (effective := Z.min (Z.of_nat mna) threshold).
    assert (ASSISTDataProvider._truncate_inputs_or_ids self inputs ed effective
            = Raise ValueError) as ->; [|done].
    replace effective with (Z.of_nat (Z.to_nat effective)) by (subst effective; lia).
    apply (truncate_inputs_or_ids_zero_run self ed (Z.to_nat effective) k inputs);
      try done; subst effective; lia.
Qed.

Lemma truncation_fails_on_a_run_without_answers_witness :
  ASSISTDataProvider.truncate_sequences Tiny.two_students_attrs
    [[0; 0; 0; 0; 0; 0]] [[0; 0]] [[]] 1
  = Raise ValueError.
Proof.
  destruct (truncation_fails_on_a_run_without_answers Tiny.two_students_attrs
              [[0; 0; 0; 0; 0; 0]] [[0; 0]] [[]] 1) as (_ & Hfail).
  destruct Hfail as (_ & _ & Hrun); [done | repeat constructor |].
  apply (Hrun ltac:(lia) ltac:(simpl; lia) ltac:(simpl; lia) eq_refl 0%nat);
    [simpl; lia | repeat constructor].
Defined.

(** ** The shape of truncated data *)

Lemma Forall_filter_incl {X} (P Q : X → Prop) `{∀ x, Decision (Q x)} (l : list X) :
  Forall P l → Forall P (filter Q l).
Proof.
  induction 1 as [|x l Hx _ IH]; [constructor|].
  rewrite filter_cons. case_decide; [by constructor|done].
Qed.

Section TruncatedShape.
Context `{Numeric}.

Lemma sub_blocks_shape (mna final_dim t : nat) (row : list scalar) :
  (0 < t)%nat → length row = (mna * final_dim)%nat →
  Forall (λ blk, length blk = t ∧ Forall (λ answer, length answer = final_dim) blk)
    (sub_blocks mna final_dim t row).
Proof.
  intros Ht Hrow. unfold sub_blocks.
  set (padded := chunks final_dim mna row ++ _).
  assert (length padded = ((mna `div` t + 1) * t)%nat
          ∧ Forall (λ answer, length answer = final_dim) padded) as [Hlen Hw].
  { subst padded. split.
    - rewrite length_app, length_chunks, length_replicate.
      pose proof (Nat.div_mod_eq mna t). pose proof (Nat.mod_upper_bound mna t). nia.
    - apply Forall_app. split; [by apply chunks_widths|].
      apply Forall_replicate, length_replicate. }
  apply Forall_fmap, Forall_forall. intros k Hk. apply elem_of_seq in Hk. simpl.
  split.
  - apply length_window. rewrite Hlen. apply Nat.mul_le_mono_r. lia.
  - unfold window. by apply Forall_take, Forall_drop.
Qed.

Lemma retained_rows_widths (mna final_dim t : nat) (m : list (list scalar)) :
  (0 < t)%nat →
  Forall (λ row, length row = (mna * final_dim)%nat) m →
  Forall (λ row, length row = (t * final_dim)%nat) (retained_rows mna final_dim t m).
Proof.
  intros Ht Hshape. unfold retained_rows.
  apply Forall_fmap, Forall_filter_incl, Forall_concat, Forall_fmap.
  eapply Forall_impl; [exact Hshape|]. intros row Hrow. simpl.
  eapply Forall_impl; [by apply sub_blocks_shape|].
  intros blk [Hlen Hw]. simpl.
  rewrite (length_concat_uniform final_dim) by done. by rewrite Hlen.
Qed.
End TruncatedShape.

(** X13.  What [truncate_sequences] returns has the shape of a dataset with
    [max_num_ans] equal to the threshold it worked with: every row of the
    inputs holds that many answers of [encoding_dim] entries, every row of
    the target ids that many of [max_prob_set_id], and every label sequence
    between one and that many labels.  On data padded as the files are, the
    three arrays have one row for every started slice of every student: the
    sum over the students of their number of answers divided by the
    threshold, rounded up. *)
Theorem truncated_data_has_the_shape_of_the_threshold `{Numeric}
    (self : ASSISTDataProvider.attrs) (inputs target_ids : list (list scalar))
    (targets : list (list Z)) (threshold : Z) :
  let mna := ASSISTDataProvider.max_num_ans self in
  let ed := ASSISTDataProvider.encoding_dim self in
  let mpsi := ASSISTDataProvider.max_prob_set_id self in
  let effective := Z.min (Z.of_nat mna) threshold in
  let t := Z.to_nat effective in
  let slices := sum_list ((λ student, (length student + t - 1) `div` t)%nat <$> targets) in
  1 ≤ threshold → (1 ≤ mna)%nat → (1 ≤ ed)%nat → (1 ≤ mpsi)%nat →
  inputs ≠ [] → target_ids ≠ [] →
  Forall (λ row, length row = (mna * ed)%nat) inputs →
  Forall (λ row, length row = (mna * mpsi)%nat) target_ids →
  every_run_retains mna ed t inputs →
  every_run_retains mna mpsi t target_ids →
  ∃ inputs' target_ids' targets',
    ASSISTDataProvider.truncate_sequences self inputs target_ids targets threshold
    = Ok (inputs', target_ids', targets', effective) ∧
    Forall (λ row, length row = (t * ed)%nat) inputs' ∧
    Forall (λ row, length row = (t * mpsi)%nat) target_ids' ∧
    Forall (λ student, 1 ≤ length student ≤ t)%nat targets' ∧
    length targets' = slices ∧
    (nonzero zero = false →
     Forall2 (λ row student, answers_marked mna ed (length student) row)
       inputs targets →
     length inputs' = slices) ∧
    (nonzero zero = false →
     Forall2 (λ row student, answers_marked mna mpsi (length student) row)
       target_ids targets →
     length target_ids' = slices).
Proof.
  intros mna ed mpsi effective t slices Hth Hmna Hed Hmpsi Hi Hd Hri Hrd Hruni Hrund.
  destruct (truncate_sequences_run self inputs target_ids targets threshold
              Hth Hmna Hed Hmpsi Hi Hd Hri Hrd Hruni Hrund) as [_ Hrun].
  fold mna ed mpsi effective t in Hrun.
  assert (0 < t)%nat as Ht by (subst t effective; lia).
  do 3 eexists. split; [exact Hrun|].
  split; [by apply retained_rows_widths|].
  split; [by apply retained_rows_widths|].
  split; [|split; [|split]].
  - apply Forall_concat, Forall_fmap, Forall_forall. intros student _. simpl.
    by destruct (student_slices student t Ht) as (_ & _ & Hlen & _).
  - rewrite length_concat_sum, <- list_fmap_compose. subst slices. f_equal.
    apply list_fmap_ext. intros _ student _. simpl.
    by rewrite length_fmap, length_seq.
  - intros Hzero Hmark. by apply retained_rows_count.
  - intros Hzero Hmark. by apply retained_rows_count.
Qed.

Lemma truncated_data_has_the_shape_of_the_threshold_witness :
  ∃ inputs' target_ids' targets',
    ASSISTDataProvider.truncate_sequences Tiny.two_students_attrs
      Tiny.two_students_inputs [[1; 1]; [1; 0]] Tiny.two_students_targets 1
    = Ok (inputs', target_ids', targets', Z.min (Z.of_nat 2) 1) ∧
    Forall (λ row, length row = (1 * 3)%nat) inputs' ∧
    Forall (λ row, length row = (1 * 1)%nat) target_ids' ∧
    Forall (λ student, 1 ≤ length student ≤ 1)%nat targets' ∧
    length targets' = 3%nat.
Proof.
  destruct (truncated_data_has_the_shape_of_the_threshold Tiny.two_students_attrs
              Tiny.two_students_inputs [[1; 1]; [1; 0]] Tiny.two_students_targets 1)
    as (inputs' & ids' & targets' & Hrun & Hi & Hd & Ht & Hlen & _).
  - lia.
  - simpl; lia.
  - simpl; lia.
  - simpl; lia.
  - done.
  - done.
  - repeat constructor.
  - repeat constructor.
  - intros k Hk. assert (k = 0%nat) as -> by (simpl in Hk; lia). by vm_compute.
  - intros k Hk. assert (k = 0%nat) as -> by (simpl in Hk; lia). by vm_compute.
  - by exists inputs', ids', targets'.
Defined.

(** ** The providers of a fold *)

Section FoldService.
Context `{RandomState}.

Lemma fold_turn_in_service (st : ASSISTDataProvider.t) (split : list nat * list nat)
    (threshold : option Z) (rng : rng_t) (w : os)
    (train val : ASSISTDataProvider.bundle) (th : Z) :
  let b := ASSISTDataProvider.base st in
  let a := ASSISTDataProvider.own st in
  let data_path :=
    path_join (expanduser w (ASSISTDataProvider.data_dir a))
      (assist_name (ASSISTDataProvider.which_year a) (ASSISTDataProvider.which_set a)) in
  let well_shaped (d : ASSISTDataProvider.bundle) :=
    rows_aligned (ASSISTDataProvider.b_inputs d) (ASSISTDataProvider.b_targets d)
      (ASSISTDataProvider.b_target_ids d) ∧
    Forall (λ row, length row = (ASSISTDataProvider.b_max_num_ans d
                                 * ASSISTDataProvider.b_encoding_dim d)%nat)
      (ASSISTDataProvider.b_inputs d) in
  let serves (dp : ASSISTDataProvider.t) (d : ASSISTDataProvider.bundle) :=
    in_service dp (ASSISTDataProvider.b_inputs d) (ASSISTDataProvider.b_targets d)
      (ASSISTDataProvider.b_target_ids d) ∧
    ASSISTDataProvider.max_num_ans (ASSISTDataProvider.own dp)
    = ASSISTDataProvider.b_max_num_ans d in
  ASSISTDataProvider.fold_bundles st split threshold = Ok (train, val, th) →
  well_shaped train → well_shaped val →
  ASSISTDataProvider.which_set a ∈ ["train"; "test"] →
  ASSISTDataProvider.which_year a ∈ ["09"; "15"] →
  isfile w (data_path +:+ "-inputs.npz") = true →
  isfile w (data_path +:+ "-targets.npz") = true →
  1 ≤ DataProvider._batch_size b →
  DataProvider._max_num_batches b = -1 ∨ 0 < DataProvider._max_num_batches b →
  ∃ train_dp val_dp rng',
    ASSISTDataProvider.fold_turn st split (threshold, rng) w
    = (Ok (train_dp, val_dp, (Some th, rng')), w) ∧
    serves train_dp train ∧ serves val_dp val.
Proof.
  intros b a data_path well_shaped serves Hbundles [Haltrain Hstrain] [Halval Hsval]
    Hset Hyear Hinputs Htargets Hb Hm.
  unfold ASSISTDataProvider.fold_turn. fold b a.
  unfold mbind at 1, M_bind at 1, lift at 1. rewrite Hbundles. cbv beta iota.
  unfold mbind at 1, M_bind at 1. rewrite init_from_bundle_run. fold data_path.
  rewrite Hinputs, Htargets, !bool_decide_eq_true_2 by done. simpl andb. cbv iota.
  match goal with
  | |- context [ASSISTDataProvider.super__init__ ?self ?i ?t ?bs ?mnb ?so ?g] =>
      destruct (super_init_in_service self i t bs mnb so g Haltrain Hstrain Hb Hm)
        as (train_dp & Htrain_dp & Hintrain & _ & _ & _ & Howntrain)
  end.
  rewrite Htrain_dp. cbv beta iota.
  unfold mbind at 1, M_bind at 1. rewrite init_from_bundle_run. fold data_path.
  rewrite Hinputs, Htargets, !bool_decide_eq_true_2 by done. simpl andb. cbv iota.
  match goal with
  | |- context [ASSISTDataProvider.super__init__ ?self ?i ?t ?bs ?mnb ?so ?g] =>
      destruct (super_init_in_service self i t bs mnb so g Halval Hsval Hb Hm)
        as (val_dp & Hval_dp & Hinval & _ & _ & _ & Hownval)
  end.
  rewrite Hval_dp. cbv beta iota.
  eexists train_dp, val_dp, _. split; [reflexivity|].
  subst serves. simpl. rewrite Howntrain, Hownval. done.
Qed.
End FoldService.

Lemma truncate_sequences_padded_shape `{Numeric}
    (self : ASSISTDataProvider.attrs) (inputs target_ids : list (list scalar))
    (targets : list (list Z)) (threshold : Z) :
  let mna := ASSISTDataProvider.max_num_ans self in
  let ed := ASSISTDataProvider.encoding_dim self in
  let mpsi := ASSISTDataProvider.max_prob_set_id self in
  let effective := Z.min (Z.of_nat mna) threshold in
  nonzero zero = false →
  1 ≤ threshold → (1 ≤ mna)%nat → (1 ≤ ed)%nat → (1 ≤ mpsi)%nat →
  padded_data self threshold inputs target_ids targets →
  ∃ inputs' target_ids' targets',
    ASSISTDataProvider.truncate_sequences self inputs target_ids targets threshold
    = Ok (inputs', target_ids', targets', effective) ∧
    rows_aligned inputs' targets' target_ids' ∧
    Forall (λ row, length row = (Z.to_nat effective * ed)%nat) inputs'.
Proof.
  intros mna ed mpsi effective Hzero Hth Hmna Hed Hmpsi Hpad.
  destruct (truncate_sequences_padded self inputs target_ids targets threshold
              Hzero Hth Hmna Hed Hmpsi Hpad) as (i' & d' & t' & Hrun & Hal).
  destruct Hpad as (Hi & Hri & Hrd & Hruni & Hrund & Hmi & Hmd).
  assert (target_ids ≠ []) as Hd.
  { intros ->. apply Forall2_nil_inv_l in Hmd. subst targets.
    apply Forall2_nil_inv_r in Hmi. done. }
  destruct (truncate_sequences_run self inputs target_ids targets threshold
              Hth Hmna Hed Hmpsi Hi Hd Hri Hrd Hruni Hrund) as [_ Hrun'].
  rewrite Hrun in Hrun'. injection Hrun' as -> _ _.
  exists (retained_rows mna ed (Z.to_nat effective) inputs), d', t'.
  split; [exact Hrun|]. split; [exact Hal|].
  apply retained_rows_widths; [subst effective; lia|done].
Qed.

Section FoldShape.
Context `{RandomState}.

Lemma fold_bundles_truncated_shape (st : ASSISTDataProvider.t)
    (train_index val_index : list nat) (threshold : Z) :
  let b := ASSISTDataProvider.base st in
  let a := ASSISTDataProvider.own st in
  let effective := Z.min (Z.of_nat (ASSISTDataProvider.max_num_ans a)) threshold in
  let well_shaped (d : ASSISTDataProvider.bundle) :=
    rows_aligned (ASSISTDataProvider.b_inputs d) (ASSISTDataProvider.b_targets d)
      (ASSISTDataProvider.b_target_ids d) ∧
    Forall (λ row, length row = (ASSISTDataProvider.b_max_num_ans d
                                 * ASSISTDataProvider.b_encoding_dim d)%nat)
      (ASSISTDataProvider.b_inputs d) in
  provider_aligned st →
  nonzero zero = false →
  1 ≤ threshold →
  (1 ≤ ASSISTDataProvider.max_num_ans a)%nat →
  (1 ≤ ASSISTDataProvider.encoding_dim a)%nat →
  (1 ≤ ASSISTDataProvider.max_prob_set_id a)%nat →
  Forall (λ i, i < length (DataProvider.inputs b))%nat train_index →
  Forall (λ i, i < length (DataProvider.inputs b))%nat val_index →
  padded_data a threshold (pick (DataProvider.inputs b) train_index)
    (pick (ASSISTDataProvider.target_ids a) train_index)
    (pick (DataProvider.targets b) train_index) →
  padded_data a threshold (pick (DataProvider.inputs b) val_index)
    (pick (ASSISTDataProvider.target_ids a) val_index)
    (pick (DataProvider.targets b) val_index) →
  ∃ train val,
    ASSISTDataProvider.fold_bundles st (train_index, val_index) (Some threshold)
    = Ok (train, val, effective) ∧
    well_shaped train ∧ well_shaped val ∧
    ASSISTDataProvider.b_max_num_ans train = Z.to_nat effective ∧
    ASSISTDataProvider.b_max_num_ans val = Z.to_nat effective.
Proof.
  intros b a effective well_shaped [[Hit Htd] Ho] Hzero Hth Hmna Hed Hmpsi
    Htrain Hval Hptrain Hpval.
  fold b a in Hit, Htd.
  destruct (truncate_sequences_padded_shape a _ _ _ threshold Hzero Hth Hmna Hed Hmpsi
              Hptrain) as (i1 & d1 & t1 & Hrun1 & Hal1 & Hw1).
  assert (padded_data a effective (pick (DataProvider.inputs b) val_index)
            (pick (ASSISTDataProvider.target_ids a) val_index)
            (pick (DataProvider.targets b) val_index)) as Hpval'.
  { unfold padded_data in *.
    replace (Z.min (Z.of_nat (ASSISTDataProvider.max_num_ans a)) effective)
      with effective by (subst effective; lia).
    exact Hpval. }
  destruct (truncate_sequences_padded_shape a _ _ _ effective Hzero
              ltac:(subst effective; lia) Hmna Hed Hmpsi Hpval')
    as (i2 & d2 & t2 & Hrun2 & Hal2 & Hw2).
  replace (Z.min (Z.of_nat (ASSISTDataProvider.max_num_ans a)) effective)
    with effective in Hrun2, Hw2 by (subst effective; lia).
  fold effective in Hrun1, Hw1.
  unfold ASSISTDataProvider.fold_bundles. fold b a.
  rewrite !fancy_index_pick by (by rewrite <- ?Htd, <- ?Hit).
  unfold ASSISTDataProvider.is_truthy. rewrite bool_decide_eq_false_2 by lia.
  unfold mbind, result_bind. cbv beta iota. simpl negb. cbv iota.
  simpl default. rewrite Hrun1. cbv beta iota. rewrite Hrun2. cbv beta iota.
  do 2 eexists. split; [reflexivity|]. subst well_shaped. simpl.
  split; [by split|]. split; [by split|]. done.
Qed.
End FoldShape.

(** X14.  The two providers of a fold can be iterated as they are.  In a
    turn that truncates, on rows padded as the files are, each provider is
    built with [max_num_ans] equal to the threshold [truncate_sequences]
    returned, and its rows hold that many answers: the provider is in
    service, so that [next()] can reshape every batch.  In a turn that does
    not truncate, the two providers hold the rows of their index arrays with
    the [max_num_ans] of the provider they come from. *)
Theorem providers_of_a_fold_are_in_service `{RandomState}
    (st : ASSISTDataProvider.t) (train_index val_index : list nat)
    (rng : rng_t) (w : os) :
  let b := ASSISTDataProvider.base st in
  let a := ASSISTDataProvider.own st in
  let mna := ASSISTDataProvider.max_num_ans a in
  let data_path :=
    path_join (expanduser w (ASSISTDataProvider.data_dir a))
      (assist_name (ASSISTDataProvider.which_year a) (ASSISTDataProvider.which_set a)) in
  provider_aligned st →
  Forall (λ row, length row = (mna * ASSISTDataProvider.encoding_dim a)%nat)
    (DataProvider.inputs b) →
  Forall (λ i, i < length (DataProvider.inputs b))%nat train_index →
  Forall (λ i, i < length (DataProvider.inputs b))%nat val_index →
  ASSISTDataProvider.which_set a ∈ ["train"; "test"] →
  ASSISTDataProvider.which_year a ∈ ["09"; "15"] →
  isfile w (data_path +:+ "-inputs.npz") = true →
  isfile w (data_path +:+ "-targets.npz") = true →
  1 ≤ DataProvider._batch_size b →
  DataProvider._max_num_batches b = -1 ∨ 0 < DataProvider._max_num_batches b →
  (∀ threshold,
     ASSISTDataProvider.is_truthy threshold = false →
     ∃ train_dp val_dp rng',
       ASSISTDataProvider.fold_turn st (train_index, val_index) (threshold, rng) w
       = (Ok (train_dp, val_dp, (Some (Z.of_nat mna), rng')), w) ∧
       in_service train_dp (pick (DataProvider.inputs b) train_index)
         (pick (DataProvider.targets b) train_index)
         (pick (ASSISTDataProvider.target_ids a) train_index) ∧
       in_service val_dp (pick (DataProvider.inputs b) val_index)
         (pick (DataProvider.targets b) val_index)
         (pick (ASSISTDataProvider.target_ids a) val_index) ∧
       ASSISTDataProvider.max_num_ans (ASSISTDataProvider.own train_dp) = mna ∧
       ASSISTDataProvider.max_num_ans (ASSISTDataProvider.own val_dp) = mna) ∧
  (∀ threshold,
     nonzero zero = false →
     1 ≤ threshold → (1 ≤ mna)%nat →
     (1 ≤ ASSISTDataProvider.encoding_dim a)%nat →
     (1 ≤ ASSISTDataProvider.max_prob_set_id a)%nat →
     padded_data a threshold (pick (DataProvider.inputs b) train_index)
       (pick (ASSISTDataProvider.target_ids a) train_index)
       (pick (DataProvider.targets b) train_index) →
     padded_data a threshold (pick (DataProvider.inputs b) val_index)
       (pick (ASSISTDataProvider.target_ids a) val_index)
       (pick (DataProvider.targets b) val_index) →
     let effective := Z.min (Z.of_nat mna) threshold in
     ∃ train_dp val_dp rng' train_rows val_rows,
       ASSISTDataProvider.fold_turn st (train_index, val_index) (Some threshold, rng) w
       = (Ok (train_dp, val_dp, (Some effective, rng')), w) ∧
       in_service train_dp train_rows.1.1 train_rows.1.2 train_rows.2 ∧
       in_service val_dp val_rows.1.1 val_rows.1.2 val_rows.2 ∧
       ASSISTDataProvider.max_num_ans (ASSISTDataProvider.own train_dp)
         = Z.to_nat effective ∧
       ASSISTDataProvider.max_num_ans (ASSISTDataProvider.own val_dp)
         = Z.to_nat effective).
Proof.
  intros b a mna data_path Hal Hshape Htrain Hval Hset Hyear Hinputs Htargets Hb Hm.
  split.
  - intros threshold Hth.
    destruct (fold_bundles_aligned st train_index val_index threshold Hal Hth Htrain Hval)
      as (Hbundles & Haltrain & Halval).
    cbv zeta in Hbundles. fold b a mna in Hbundles, Haltrain, Halval.
    destruct (fold_turn_in_service st _ threshold rng w _ _ _ Hbundles)
      as (train_dp & val_dp & rng' & Hrun & [Hintrain Hmtrain] & [Hinval Hmval]);
      try done.
    + split; [exact Haltrain|]. simpl. rewrite Nat2Z.id. by apply Forall_pick.
    + split; [exact Halval|]. simpl. rewrite Nat2Z.id. by apply Forall_pick.
    + exists train_dp, val_dp, rng'. split; [exact Hrun|].
      simpl in Hintrain, Hinval, Hmtrain, Hmval. rewrite Nat2Z.id in Hmtrain, Hmval.
      done.
  - intros threshold Hzero Hth Hmna Hed Hmpsi Hptrain Hpval effective.
    destruct (fold_bundles_truncated_shape st train_index val_index threshold Hal Hzero
                Hth Hmna Hed Hmpsi Htrain Hval Hptrain Hpval)
      as (train & val & Hbundles & Hwtrain & Hwval & Hmtrain & Hmval).
    destruct (fold_turn_in_service st _ (Some threshold) rng w _ _ _ Hbundles
                Hwtrain Hwval Hset Hyear Hinputs Htargets Hb Hm)
      as (train_dp & val_dp & rng' & Hrun & [Hintrain Hmt] & [Hinval Hmv]).
    exists train_dp, val_dp, rng',
      (ASSISTDataProvider.b_inputs train, ASSISTDataProvider.b_targets train,
       ASSISTDataProvider.b_target_ids train),
      (ASSISTDataProvider.b_inputs val, ASSISTDataProvider.b_targets val,
       ASSISTDataProvider.b_target_ids val).
    split; [exact Hrun|]. simpl. rewrite Hmt, Hmv. done.
Qed.

Lemma providers_of_a_fold_are_in_service_witness :
  (∃ train_dp val_dp rng',
     ASSISTDataProvider.fold_turn Tiny.two_students ([1%nat], [0%nat]) (None, 0%nat)
       Tiny.junk_files
     = (Ok (train_dp, val_dp, (Some (Z.of_nat 2), rng')), Tiny.junk_files) ∧
     in_service train_dp [[1; 0; 0; 0; 0; 0]] [[1]] [[1; 0]] ∧
     in_service val_dp [[0; 1; 0; 0; 0; 1]] [[1; 0]] [[1; 1]] ∧
     ASSISTDataProvider.max_num_ans (ASSISTDataProvider.own train_dp) = 2%nat ∧
     ASSISTDataProvider.max_num_ans (ASSISTDataProvider.own val_dp) = 2%nat) ∧
  (∃ train_dp val_dp rng' train_rows val_rows,
     ASSISTDataProvider.fold_turn Tiny.two_students ([1%nat], [0%nat]) (Some 1, 0%nat)
       Tiny.junk_files
     = (Ok (train_dp, val_dp, (Some (Z.min (Z.of_nat 2) 1), rng')), Tiny.junk_files) ∧
     in_service train_dp train_rows.1.1 train_rows.1.2 train_rows.2 ∧
     in_service val_dp val_rows.1.1 val_rows.1.2 val_rows.2 ∧
     ASSISTDataProvider.max_num_ans (ASSISTDataProvider.own train_dp)
       = Z.to_nat (Z.min (Z.of_nat 2) 1) ∧
     ASSISTDataProvider.max_num_ans (ASSISTDataProvider.own val_dp)
       = Z.to_nat (Z.min (Z.of_nat 2) 1)).
Proof.
  assert (∀ (ed : nat) (m : list (list Z)) (k : nat),
            retained_rows (H := Tiny.numeric) 2 ed 1 (window 1000 0 m) ≠ [] →
            (k * 1000 < length m)%nat → (length m ≤ 1000)%nat →
            retained_rows (H := Tiny.numeric) 2 ed 1 (window 1000 k m) ≠ []) as Hrun.
  { intros ed m k Hkeep Hk Hm. by assert (k = 0%nat) as -> by lia. }
  assert (∀ (ed count : nat) (row : list Z),
            (count ≤ 2)%nat →
            (existsb (nonzero (Numeric := Tiny.numeric)) (window ed 0 row) = true
               ↔ (0 < count)%nat) →
            (existsb (nonzero (Numeric := Tiny.numeric)) (window ed 1 row) = true
               ↔ (1 < count)%nat) →
            answers_marked (H := Tiny.numeric) 2 ed count row) as Hmark.
  { intros ed count row Hle H0 H1. split; [done|].
    intros [|[|j]] Hj; [done|done|lia]. }
  assert (padded_data (H := Tiny.numeric) Tiny.two_students_attrs 1
            [[1; 0; 0; 0; 0; 0]] [[1; 0]] [[1]]) as Hpad_train.
  { split; [done|]. split; [repeat constructor|]. split; [repeat constructor|].
    split; [intros k Hk; apply Hrun; [by vm_compute|done|simpl; lia]|].
    split; [intros k Hk; apply Hrun; [by vm_compute|done|simpl; lia]|].
    split; repeat (constructor; [apply Hmark; [simpl; lia|marked_iff..]|]);
      constructor. }
  assert (padded_data (H := Tiny.numeric) Tiny.two_students_attrs 1
            [[0; 1; 0; 0; 0; 1]] [[1; 1]] [[1; 0]]) as Hpad_val.
  { split; [done|]. split; [repeat constructor|]. split; [repeat constructor|].
    split; [intros k Hk; apply Hrun; [by vm_compute|done|simpl; lia]|].
    split; [intros k Hk; apply Hrun; [by vm_compute|done|simpl; lia]|].
    split; repeat (constructor; [apply Hmark; [simpl; lia|marked_iff..]|]);
      constructor. }
  destruct (providers_of_a_fold_are_in_service Tiny.two_students [1%nat] [0%nat]
              0%nat Tiny.junk_files) as [Hplain Htruncating].
  - by repeat split.
  - repeat constructor.
  - repeat constructor.
  - repeat constructor.
  - apply list_elem_of_In. simpl. tauto.
  - apply list_elem_of_In. simpl. tauto.
  - reflexivity.
  - reflexivity.
  - simpl. lia.
  - by left.
  - split.
    + by apply Hplain.
    + apply (Htruncating 1);
        [reflexivity | lia | simpl; lia.. | exact Hpad_train | exact Hpad_val].
Defined.

(** ** The train and validation split *)

Section FirstFold.
Context `{RandomState}.

Lemma init_from_bundle_state (w : os) (data_dir which_set which_year : string)
    (fraction : number) (use_plus_minus_feats use_compressed_sensing : bool)
    (batch_size max_num_batches : Z) (shuffle_order : bool) (rng : option rng_t)
    (d : ASSISTDataProvider.bundle) :
  (ASSISTDataProvider.__init__ data_dir which_set which_year fraction
     use_plus_minus_feats use_compressed_sensing batch_size max_num_batches
     shuffle_order rng (Some d) w).2 = w.
Proof. rewrite init_from_bundle_run. done. Qed.

Lemma fold_turn_state (st : ASSISTDataProvider.t) (split : list nat * list nat)
    (s : option Z * rng_t) (w : os) :
  (ASSISTDataProvider.fold_turn st split s w).2 = w.
Proof.
  unfold ASSISTDataProvider.fold_turn. destruct s as [threshold rng].
  unfold mbind at 1, M_bind at 1, lift at 1.
  destruct (ASSISTDataProvider.fold_bundles st split threshold)
    as [[[train val] th]|e]; [|done].
  cbv beta iota. unfold mbind at 1, M_bind at 1.
  match goal with
  | |- context [ASSISTDataProvider.__init__ ?a1 ?a2 ?a3 ?a4 ?a5 ?a6 ?a7 ?a8 ?a9 ?a10
                  (Some train) w] =>
      pose proof (init_from_bundle_state w a1 a2 a3 a4 a5 a6 a7 a8 a9 a10 train) as Hw;
      destruct (ASSISTDataProvider.__init__ a1 a2 a3 a4 a5 a6 a7 a8 a9 a10
                  (Some train) w) as [[train_dp|e] w1]
  end; simpl in Hw; subst w1; [|done].
  unfold mbind at 1, M_bind at 1.
  match goal with
  | |- context [ASSISTDataProvider.__init__ ?a1 ?a2 ?a3 ?a4 ?a5 ?a6 ?a7 ?a8 ?a9 ?a10
                  (Some val) w] =>
      pose proof (init_from_bundle_state w a1 a2 a3 a4 a5 a6 a7 a8 a9 a10 val) as Hw;
      destruct (ASSISTDataProvider.__init__ a1 a2 a3 a4 a5 a6 a7 a8 a9 a10
                  (Some val) w) as [[val_dp|e] w1]
  end; simpl in Hw; subst w1; done.
Qed.

Lemma fold_turns_first (st : ASSISTDataProvider.t)
    (split : list nat * list nat) (splits : list (list nat * list nat))
    (s : option Z * rng_t) (w w' : os) (folds : list (ASSISTDataProvider.t * ASSISTDataProvider.t)) :
  ASSISTDataProvider.fold_turns st (split :: splits) s w = (Ok folds, w') →
  ∃ first rest,
    folds = first :: rest ∧
    ASSISTDataProvider.fold_turns st [split] s w = (Ok [first], w).
Proof.
  simpl. unfold mbind at 1 3, M_bind at 1 3.
  pose proof (fold_turn_state st split s w) as Hw.
  destruct (ASSISTDataProvider.fold_turn st split s w)
    as [[[[train_dp val_dp] s']|e] w1]; simpl in Hw; subst w1; [|done].
  unfold mbind, M_bind.
  destruct (ASSISTDataProvider.fold_turns st splits s' w) as [[rest|e] w2]; [|done].
  intros [= <- <-]. by exists (train_dp, val_dp), rest.
Qed.
End FirstFold.

(** X15.  [train_validation_split] stops the generator of the folds after
    its first pair: whenever [_get_k_folds(5, threshold)] can be run to its
    end, the split returns the first of its pairs.  On a provider that is
    not of the train split, both fail on the assertion.  The split leaves
    the file system as it was. *)
Theorem train_validation_split_is_the_first_of_five_folds `{RandomState}
    (st : ASSISTDataProvider.t) (threshold : option Z) (w : os) :
  (ASSISTDataProvider.which_set (ASSISTDataProvider.own st) ≠ "train" →
   ASSISTDataProvider._get_k_folds st 5 threshold w = (Raise AssertionError, w) ∧
   ASSISTDataProvider.train_validation_split st threshold w
   = (Raise AssertionError, w)) ∧
  (∀ folds w',
     ASSISTDataProvider._get_k_folds st 5 threshold w = (Ok folds, w') →
     ∃ first rest,
       folds = first :: rest ∧
       ASSISTDataProvider.train_validation_split st threshold w = (Ok first, w)).
Proof.
  unfold ASSISTDataProvider._get_k_folds, ASSISTDataProvider.train_validation_split.
  split.
  - intros Hset. by rewrite !bool_decide_eq_false_2 by done.
  - intros folds w'.
    destruct (bool_decide _); [|done]. simpl negb. cbv iota.
    unfold mbind, M_bind, lift.
    destruct (ASSISTDataProvider.KFold_split 5 _) as [[|split splits]|e] eqn:Hsplit;
      [|change (take 1 (split :: splits)) with [split]|done].
    + unfold ASSISTDataProvider.KFold_split in Hsplit.
      repeat case_decide; done.
    + intros Hrun.
      destruct (fold_turns_first st split splits _ w w' folds Hrun)
        as (first & rest & -> & Hfirst).
      exists first, rest. split; [done|].
      cbn [negb]. cbv beta iota. by rewrite Hfirst.
Qed.

Lemma returned_value {S X : Type} (p : result X * S) :
  match p.1 with Ok _ => True | Raise _ => False end → ∃ x, p = (Ok x, p.2).
Proof. destruct p as [[x|e] s]; [by exists x|done]. Qed.

Lemma train_validation_split_is_the_first_of_five_folds_witness :
  ∃ first,
    ASSISTDataProvider.train_validation_split five_students None Tiny.junk_files
    = (Ok first, Tiny.junk_files).
Proof.
  destruct (train_validation_split_is_the_first_of_five_folds five_students None
              Tiny.junk_files) as [_ Hfirst].
  destruct (returned_value
              (ASSISTDataProvider._get_k_folds five_students 5 None Tiny.junk_files))
    as [folds Hrun]; [vm_compute; exact I|].
  destruct (Hfirst folds _ Hrun) as (first & rest & _ & Hsplit).
  by exists first.
Defined.

(** The split of the five students: four for training, the first one for
    validation. *)
Example four_to_train_one_to_validate :
  let first :=
    (ASSISTDataProvider.train_validation_split five_students None Tiny.junk_files).1 in
  (pair ← first;
   Ok (DataProvider.inputs (ASSISTDataProvider.base pair.1),
       DataProvider.inputs (ASSISTDataProvider.base pair.2)))
  = Ok ([[0; 0; 1]; [0; 1; 0]; [0; 0; 1]; [0; 1; 0]], [[0; 1; 0]]).
Proof. vm_compute. reflexivity. Qed.

(** X16.  Where it does not fail, [truncate_sequences] keeps what its
    comments say.  It works with the threshold [min(max_num_ans, threshold)],
    at most [max_num_ans]; for a threshold of at least one, on arrays of the
    shape the provider holds in which every run of 1000 rows keeps a
    sub-block, it returns that threshold and, for [inputs] and for
    [target_ids], the rows [retained_rows] describes: of the sub-blocks of
    the students, in order, those with an entry that is not zero, and no
    others. *)
Theorem truncate_sequences_retains_nonzero_blocks `{Numeric}
    (self : ASSISTDataProvider.attrs) (inputs target_ids : list (list scalar))
    (targets : list (list Z)) (threshold : Z) :
  let mna := ASSISTDataProvider.max_num_ans self in
  let ed := ASSISTDataProvider.encoding_dim self in
  let mpsi := ASSISTDataProvider.max_prob_set_id self in
  let effective := Z.min (Z.of_nat mna) threshold in
  effective ≤ Z.of_nat mna ∧
  (1 ≤ threshold → (1 ≤ mna)%nat → (1 ≤ ed)%nat → (1 ≤ mpsi)%nat →
   inputs ≠ [] → target_ids ≠ [] →
   Forall (λ row, length row = (mna * ed)%nat) inputs →
   Forall (λ row, length row = (mna * mpsi)%nat) target_ids →
   every_run_retains mna ed (Z.to_nat effective) inputs →
   every_run_retains mna mpsi (Z.to_nat effective) target_ids →
   ∃ targets',
     ASSISTDataProvider._truncate_targets targets effective = Ok targets' ∧
     ASSISTDataProvider.truncate_sequences self inputs target_ids targets threshold
     = Ok (retained_rows mna ed (Z.to_nat effective) inputs,
           retained_rows mna mpsi (Z.to_nat effective) target_ids,
           targets', effective)).
Proof.
  intros mna ed mpsi effective. split; [subst effective; lia|].
  intros Hth Hmna Hed Hmpsi Hi Hd Hri Hrd Hruni Hrund.
  eexists. by apply truncate_sequences_run.
Qed.

Lemma truncate_sequences_retains_nonzero_blocks_witness :
  Z.min (Z.of_nat 2) 1 ≤ Z.of_nat 2 ∧
  ∃ targets',
    ASSISTDataProvider._truncate_targets Tiny.two_students_targets 1 = Ok targets' ∧
    ASSISTDataProvider.truncate_sequences Tiny.two_students_attrs
      Tiny.two_students_inputs [[1; 1]; [1; 0]] Tiny.two_students_targets 1
    = Ok (retained_rows (H := Tiny.numeric) 2 3 1 Tiny.two_students_inputs,
          retained_rows (H := Tiny.numeric) 2 1 1 [[1; 1]; [1; 0]], targets', 1).
Proof.
  destruct (truncate_sequences_retains_nonzero_blocks Tiny.two_students_attrs
              Tiny.two_students_inputs [[1; 1]; [1; 0]] Tiny.two_students_targets 1)
    as [Hle Hrun].
  split; [exact Hle|].
  apply Hrun; try (simpl; lia); try done; try (repeat constructor).
  - intros k Hk. assert (k = 0%nat) as -> by (simpl in Hk; lia).
    intros Hnil. apply (f_equal length) in Hnil. vm_compute in Hnil. discriminate.
  - intros k Hk. assert (k = 0%nat) as -> by (simpl in Hk; lia).
    intros Hnil. apply (f_equal length) in Hnil. vm_compute in Hnil. discriminate.
Defined.
